(** * Recurring-expense scheduling engine (App.tsx, RecurringExpensesScreen.tsx)

    A shallow embedding of the generation effect of [App], of
    [calculateNextDueDate], [parseDate], [toYYYYMMDD], of the active-template
    filter of [RecurringExpensesScreen] and of the convert branch of
    [handleFormSubmit], together with the part of the ECMAScript [Date]
    object these functions rely on.

    Conventions of the embedding.
    - A JavaScript [Date] is its time value: an integer number of
      milliseconds since the epoch (UTC), or NaN ([Invalid]).
    - The host's local time zone is a parameter [tza]: the offset of local
      time from UTC in milliseconds, taken constant (no daylight-saving
      change inside the period under study).
    - [crypto.randomUUID] is an oracle [uuid : nat -> string]: [uuid n] is
      the value returned by the n-th call.
    - [Number] is modelled on the spellings that occur in stored dates:
      decimal digits with an optional leading [+], and the empty string;
      every other spelling is NaN.
    - The [while] loop of the generation effect is a function with a fuel
      argument bounding its number of iterations; [None] means that the fuel
      ran out. *)

From Stdlib Require Import ZArith List String Ascii Bool Lia Arith.
Import ListNotations.

Local Open Scope string_scope.
Local Open Scope list_scope.
Local Open Scope Z_scope.

(* ================================================================== *)
(** * ECMAScript Date arithmetic *)
(* ================================================================== *)

Module JSDate.

Definition msPerDay : Z := 86400000.

(** Largest magnitude of a valid time value (TimeClip). *)
Definition maxTime : Z := 8640000000000000.

Definition Day (t : Z) : Z := t / msPerDay.
Definition TimeWithinDay (t : Z) : Z := t mod msPerDay.

Definition DayFromYear (y : Z) : Z :=
  365 * (y - 1970) + (y - 1969) / 4 - (y - 1901) / 100 + (y - 1601) / 400.

Definition isLeap (y : Z) : bool :=
  if negb (y mod 4 =? 0) then false
  else if negb (y mod 100 =? 0) then true
  else if negb (y mod 400 =? 0) then false
  else true.

Definition DaysInYear (y : Z) : Z := if isLeap y then 366 else 365.

(** The year that contains day number [d]: the largest [y] with
    [DayFromYear y <= d], found from an estimate that is off by at most one. *)
Definition YearFromDay (d : Z) : Z :=
  let y0 := 1970 + (400 * d) / 146097 in
  if d <? DayFromYear y0 then y0 - 1
  else if DayFromYear (y0 + 1) <=? d then y0 + 1
  else y0.

(** Number of days of the year before month [m] (0 = January). *)
Definition monthStart (leap : bool) (m : Z) : Z :=
  let l := if leap then 1 else 0 in
  if m <=? 0 then 0
  else if m =? 1 then 31
  else if m =? 2 then 59 + l
  else if m =? 3 then 90 + l
  else if m =? 4 then 120 + l
  else if m =? 5 then 151 + l
  else if m =? 6 then 181 + l
  else if m =? 7 then 212 + l
  else if m =? 8 then 243 + l
  else if m =? 9 then 273 + l
  else if m =? 10 then 304 + l
  else 334 + l.

Definition DayWithinYear (d : Z) : Z := d - DayFromYear (YearFromDay d).

Definition MonthFromDay (d : Z) : Z :=
  let leap := isLeap (YearFromDay d) in
  let w := DayWithinYear d in
  if w <? monthStart leap 1 then 0
  else if w <? monthStart leap 2 then 1
  else if w <? monthStart leap 3 then 2
  else if w <? monthStart leap 4 then 3
  else if w <? monthStart leap 5 then 4
  else if w <? monthStart leap 6 then 5
  else if w <? monthStart leap 7 then 6
  else if w <? monthStart leap 8 then 7
  else if w <? monthStart leap 9 then 8
  else if w <? monthStart leap 10 then 9
  else if w <? monthStart leap 11 then 10
  else 11.

Definition DateFromDay (d : Z) : Z :=
  DayWithinYear d - monthStart (isLeap (YearFromDay d)) (MonthFromDay d) + 1.

Definition YearFromTime (t : Z) : Z := YearFromDay (Day t).
Definition MonthFromTime (t : Z) : Z := MonthFromDay (Day t).
Definition DateFromTime (t : Z) : Z := DateFromDay (Day t).

(** MakeDay: months outside 0..11 carry into the year, the day of the month
    is added as a plain offset (so day 31 of a 30-day month rolls over). *)
Definition MakeDay (year month date : Z) : Z :=
  let ym := year + month / 12 in
  let mn := month mod 12 in
  DayFromYear ym + monthStart (isLeap ym) mn + date - 1.

Definition MakeDate (day time : Z) : Z := day * msPerDay + time.

(** A Date object: NaN or a time value. *)
Inductive Date : Type :=
| Invalid
| At (t : Z).

Definition TimeClip (t : Z) : Date :=
  if Z.abs t <=? maxTime then At t else Invalid.

Section LocalTime.

(** Offset of local time from UTC, in milliseconds. *)
Variable tza : Z.

Definition LocalTime (t : Z) : Z := t + tza.
Definition UTC (t : Z) : Z := t - tza.

(** [new Date(year, month, day)] with numeric arguments; [None] is NaN. *)
Definition newDate (year month day : option Z) : Date :=
  match year, month, day with
  | Some y, Some m, Some d =>
      let yr := if (0 <=? y) && (y <=? 99) then 1900 + y else y in
      TimeClip (UTC (MakeDate (MakeDay yr m d) 0))
  | _, _, _ => Invalid
  end.

Definition getFullYear (t : Z) : Z := YearFromTime (LocalTime t).
Definition getMonth (t : Z) : Z := MonthFromTime (LocalTime t).
Definition getDate (t : Z) : Z := DateFromTime (LocalTime t).

Definition setDate (t : Z) (dt : Z) : Date :=
  let l := LocalTime t in
  TimeClip (UTC (MakeDate (MakeDay (YearFromTime l) (MonthFromTime l) dt)
                          (TimeWithinDay l))).

Definition setMonth (t : Z) (m : Z) : Date :=
  let l := LocalTime t in
  TimeClip (UTC (MakeDate (MakeDay (YearFromTime l) m (DateFromTime l))
                          (TimeWithinDay l))).

Definition setFullYear (t : Z) (y : Z) : Date :=
  let l := LocalTime t in
  TimeClip (UTC (MakeDate (MakeDay y (MonthFromTime l) (DateFromTime l))
                          (TimeWithinDay l))).

End LocalTime.

(** ** Decimal formatting and parsing *)

Definition digitChar (d : Z) : ascii := ascii_of_nat (48 + Z.to_nat d).

(** The [width] lowest decimal digits of [n], most significant first. *)
Fixpoint padDigits (width : nat) (n : Z) (acc : string) : string :=
  match width with
  | O => acc
  | S w => padDigits w (n / 10) (String (digitChar (n mod 10)) acc)
  end.

Definition pad (width : nat) (n : Z) : string := padDigits width n "".

(** The date part of [toISOString]: the text before the ['T']. Years
    outside 0..9999 use the expanded form with a sign and six digits. *)
Definition isoDatePart (t : Z) : string :=
  let y := YearFromTime t in
  let ys := if (0 <=? y) && (y <=? 9999) then pad 4 y
            else if y <? 0 then ("-" ++ pad 6 (- y))%string
            else ("+" ++ pad 6 y)%string in
  (ys ++ "-" ++ pad 2 (MonthFromTime t + 1) ++ "-" ++ pad 2 (DateFromTime t))%string.

Definition digitValue (c : ascii) : option Z :=
  let n := Z.of_nat (nat_of_ascii c) in
  if (48 <=? n) && (n <=? 57) then Some (n - 48) else None.

Fixpoint parseDigits (s : string) (acc : Z) : option Z :=
  match s with
  | EmptyString => Some acc
  | String c s' =>
      match digitValue c with
      | Some d => parseDigits s' (10 * acc + d)
      | None => None
      end
  end.

(** [Number(s)] on digit strings; [None] is NaN. *)
Definition Number (s : string) : option Z :=
  match s with
  | EmptyString => Some 0
  | String "+" EmptyString => None
  | String "+" s' => parseDigits s' 0
  | _ => parseDigits s 0
  end.

(** [s.split(sep)] for a one-character separator. *)
Fixpoint splitAux (sep : ascii) (s : string) (cur : string) : list string :=
  match s with
  | EmptyString => [cur]
  | String c s' =>
      if Ascii.eqb c sep then cur :: splitAux sep s' ""
      else splitAux sep s' (cur ++ String c "")%string
  end.

Definition split (sep : ascii) (s : string) : list string := splitAux sep s "".

End JSDate.

(* ================================================================== *)
(** * Data model (types.ts, as used by App.tsx) *)
(* ================================================================== *)

Inductive Frequency : Type := Single | Recurring.

(** The four units of the [switch] of [calculateNextDueDate]; any other
    stored value takes its [default] branch. *)
Inductive Recurrence : Type := Daily | Weekly | Monthly | Yearly | OtherUnit.

Inductive EndType : Type := EndForever | EndCount | EndDate.

(** [Omit<Expense, 'id'>]: every field of an expense but its id. An
    optional field that is [undefined] is [None]. *)
Record ExpenseData : Type := mkData {
  description : string;
  amount : Z;
  category : string;
  accountId : string;
  date : option string;
  frequency : option Frequency;
  recurrence : option Recurrence;
  monthlyRecurrenceType : option string;
  recurrenceInterval : option Z;
  recurrenceDays : option string;
  recurrenceEndType : option EndType;
  recurrenceEndDate : option string;
  recurrenceCount : option Z;
  recurringExpenseId : option string;
  lastGeneratedDate : option string
}.

Record Expense : Type := mkExpense {
  id : string;
  fields :> ExpenseData
}.

(** JavaScript truthiness of an optional string. *)
Definition truthyStr (o : option string) : bool :=
  match o with
  | Some s => negb (String.eqb s "")
  | None => false
  end.

(** [a === b] on two optional strings. *)
Definition optStr_eqb (a b : option string) : bool :=
  match a, b with
  | Some x, Some y => String.eqb x y
  | None, None => true
  | _, _ => false
  end.

(** [e.recurringExpenseId === template.id] *)
Definition refers (tid : string) (e : Expense) : bool :=
  optStr_eqb (recurringExpenseId e) (Some tid).

(** [a > b] on strings: comparison by code units. *)
Definition strGt (a b : string) : bool := String.ltb b a.

(** ** Object spreads with overridden fields *)

Definition withLastGenerated (d : ExpenseData) (l : option string) : ExpenseData :=
  mkData (description d) (amount d) (category d) (accountId d) (date d)
         (frequency d) (recurrence d) (monthlyRecurrenceType d)
         (recurrenceInterval d) (recurrenceDays d) (recurrenceEndType d)
         (recurrenceEndDate d) (recurrenceCount d) (recurringExpenseId d) l.

(** [{ ...template, id, date, frequency: 'single', recurringExpenseId:
    template.id, lastGeneratedDate: undefined }] (App.tsx, the
    [newExpenses.push] of the generation effect). *)
Definition instanceOf (template : Expense) (newId : string) (dateString : string)
  : Expense :=
  mkExpense newId
    (mkData (description template) (amount template) (category template)
            (accountId template) (Some dateString) (Some Single)
            (recurrence template) (monthlyRecurrenceType template)
            (recurrenceInterval template) (recurrenceDays template)
            (recurrenceEndType template) (recurrenceEndDate template)
            (recurrenceCount template) (Some (id template)) None).

(** [newSingleExpenseData] of the convert branch of [handleFormSubmit]. *)
Definition newSingleExpenseData (data : ExpenseData) : ExpenseData :=
  mkData (description data) (amount data) (category data) (accountId data)
         (date data) (Some Single) None None None None None None None None None.

(* ================================================================== *)
(** * The scheduling engine *)
(* ================================================================== *)

Section Engine.

Import JSDate.

(** Offset of local time from UTC (ms) and the UUID oracle. *)
Variable tza : Z.
Variable uuid : nat -> string.

(** [toYYYYMMDD]: [date.toISOString().split('T')[0]], a UTC calendar date. *)
Definition toYYYYMMDD (t : Z) : string := isoDatePart t.

(** [parseDate] and [parseLocalYYYYMMDD]'s body: split on ['-'], map
    [Number], build a local midnight. A missing third (or second) part is
    [undefined], hence NaN. *)
Definition parseDate (dateString : string) : Date :=
  let parts := map Number (split "-" dateString) in
  let year := nth 0 parts None in
  let month := nth 1 parts None in
  let day := nth 2 parts None in
  newDate tza year (option_map (fun m => m - 1) month) day.

(** [parseLocalYYYYMMDD]: [null] on a falsy argument. *)
Definition parseLocalYYYYMMDD (dateString : option string) : option Date :=
  match dateString with
  | Some s => if String.eqb s "" then None else Some (parseDate s)
  | None => None
  end.

(** [template.recurrenceInterval || 1] *)
Definition intervalOf (template : ExpenseData) : Z :=
  match recurrenceInterval template with
  | Some n => if n =? 0 then 1 else n
  | None => 1
  end.

(** [calculateNextDueDate]; the outer [None] is [null]. *)
Definition calculateNextDueDate (template : ExpenseData) (fromDate : Date)
  : option Date :=
  match frequency template, recurrence template with
  | Some Recurring, Some unit =>
      let interval := intervalOf template in
      match unit with
      | OtherUnit => None
      | _ =>
          match fromDate with
          | Invalid => Some Invalid
          | At t =>
              Some match unit with
                   | Daily => setDate tza t (getDate tza t + interval)
                   | Weekly => setDate tza t (getDate tza t + 7 * interval)
                   | Monthly => setMonth tza t (getMonth tza t + interval)
                   | _ => setFullYear tza t (getFullYear tza t + interval)
                   end
          end
      end
  | _, _ => None
  end.

(** State of one run of the generation effect. [warnings] records the
    templates passed to [console.warn]; [uuidCalls] counts the calls to
    [crypto.randomUUID] made so far. *)
Record GenState : Type := mkGen {
  newExpenses : list Expense;
  templatesToUpdate : list Expense;
  warnings : list Expense;
  uuidCalls : nat
}.

Definition countRefs (tid : string) (l : list Expense) : Z :=
  Z.of_nat (List.length (filter (refers tid) l)).

(** [exp.recurringExpenseId === template.id && exp.date === dateString] *)
Definition isInstanceAt (tid dateString : string) (e : Expense) : bool :=
  refers tid e && optStr_eqb (date e) (Some dateString).

(** Guard of the [while]: [nextDue && nextDue <= today]. *)
Definition due (nextDue : option Date) (today : Z) : bool :=
  match nextDue with
  | Some (At t) => t <=? today
  | _ => false
  end.

(** First [break]: the end date is set and the candidate's date string is
    greater. *)
Definition dateBreak (template : ExpenseData) (t : Z) : bool :=
  match recurrenceEndType template, recurrenceEndDate template with
  | Some EndDate, Some endDate =>
      negb (String.eqb endDate "") && strGt (toYYYYMMDD t) endDate
  | _, _ => false
  end.

(** Second [break]: the count is set (and not 0) and reached. *)
Definition countBreak (template : ExpenseData) (totalGenerated : Z) : bool :=
  match recurrenceEndType template, recurrenceCount template with
  | Some EndCount, Some n => negb (n =? 0) && (n <=? totalGenerated)
  | _, _ => false
  end.

(** [totalGenerated]: instances of the template among the stored expenses
    and among those queued in this run. *)
Definition totalGenerated (template : Expense) (expenses : list Expense)
    (st : GenState) : Z :=
  countRefs (id template) expenses + countRefs (id template) (newExpenses st).

(** [instanceExists]: the two [some(...)] tests. *)
Definition instanceExists (template : Expense) (expenses : list Expense)
    (st : GenState) (nextDueDateString : string) : bool :=
  existsb (isInstanceAt (id template) nextDueDateString) expenses
  || existsb (isInstanceAt (id template) nextDueDateString) (newExpenses st).

(** [if (!instanceExists) newExpenses.push({...})] *)
Definition materialize (template : Expense) (expenses : list Expense)
    (st : GenState) (nextDueDateString : string) : GenState :=
  if instanceExists template expenses st nextDueDateString then st
  else mkGen (newExpenses st
                ++ [instanceOf template (uuid (uuidCalls st)) nextDueDateString])
             (templatesToUpdate st) (warnings st) (S (uuidCalls st)).

(** [updatedTemplate.lastGeneratedDate = toYYYYMMDD(cursor)] *)
Definition advanceCursor (updatedTemplate : Expense) (cursorString : string)
  : Expense :=
  mkExpense (id updatedTemplate)
            (withLastGenerated updatedTemplate (Some cursorString)).

(** The [while] loop for one template. It returns the final
    [updatedTemplate] and state, or [None] when [fuel] iterations were not
    enough. *)
Fixpoint genLoop (fuel : nat) (template : Expense) (expenses : list Expense)
    (today : Z) (nextDue : option Date) (updatedTemplate : Expense)
    (st : GenState) : option (Expense * GenState) :=
  match nextDue with
  | Some (At t) =>
      if t <=? today then
        match fuel with
        | O => None
        | S fuel' =>
            if dateBreak template t then Some (updatedTemplate, st)
            else if countBreak template (totalGenerated template expenses st)
            then Some (updatedTemplate, st)
            else
              let nextDueDateString := toYYYYMMDD t in
              let st' := materialize template expenses st nextDueDateString in
              let cursor := At t in
              genLoop fuel' template expenses today
                      (calculateNextDueDate template cursor)
                      (advanceCursor updatedTemplate (toYYYYMMDD t)) st'
        end
      else Some (updatedTemplate, st)
  | _ => Some (updatedTemplate, st)
  end.

(** The candidate the loop of a template starts from: its start date when
    no occurrence was generated yet, else the candidate after the cursor
    ([cursorDateString], [cursor] and the initial [nextDue]). *)
Definition firstCandidate (template : ExpenseData) : option Date :=
  let cursorDateString :=
    if truthyStr (lastGeneratedDate template)
    then lastGeneratedDate template else date template in
  let cursor :=
    match cursorDateString with
    | Some s => parseDate s
    | None => Invalid
    end in
  if negb (truthyStr (lastGeneratedDate template))
  then option_map parseDate (date template)
  else calculateNextDueDate template cursor.

(** Body of [recurringExpenses.forEach(template => ...)]. *)
Definition processTemplate (fuel : nat) (expenses : list Expense) (today : Z)
    (st : GenState) (template : Expense) : option GenState :=
  if negb (truthyStr (date template)) then
    Some (mkGen (newExpenses st) (templatesToUpdate st)
                (warnings st ++ [template]) (uuidCalls st))
  else
    match genLoop fuel template expenses today (firstCandidate template)
                  template st with
    | None => None
    | Some (updatedTemplate, st') =>
        if truthyStr (lastGeneratedDate updatedTemplate)
           && negb (optStr_eqb (lastGeneratedDate updatedTemplate)
                               (lastGeneratedDate template))
        then Some (mkGen (newExpenses st')
                         (templatesToUpdate st' ++ [updatedTemplate])
                         (warnings st') (uuidCalls st'))
        else Some st'
    end.

Fixpoint forEachTemplate (fuel : nat) (expenses : list Expense) (today : Z)
    (templates : list Expense) (st : GenState) : option GenState :=
  match templates with
  | [] => Some st
  | template :: rest =>
      match processTemplate fuel expenses today st template with
      | Some st' => forEachTemplate fuel expenses today rest st'
      | None => None
      end
  end.

(** The generation effect up to its two state setters: the delta
    [(newExpenses, templatesToUpdate)] and the diagnostics. [calls] is the
    number of UUIDs issued before the run. *)
Definition generate (fuel : nat) (calls : nat) (recurringExpenses expenses : list Expense)
    (today : Z) : option GenState :=
  forEachTemplate fuel expenses today recurringExpenses (mkGen [] [] [] calls).

(** [setExpenses(prev => [...newExpenses, ...prev])], only issued when
    there are new expenses. *)
Definition applyExpenses (st : GenState) (prev : list Expense) : list Expense :=
  match newExpenses st with
  | [] => prev
  | _ => newExpenses st ++ prev
  end.

(** [prev.map(t => templatesToUpdate.find(ut => ut.id === t.id) || t)],
    only issued when some template was updated. *)
Definition applyTemplates (st : GenState) (prev : list Expense) : list Expense :=
  match templatesToUpdate st with
  | [] => prev
  | _ =>
      map (fun t =>
             match find (fun ut => String.eqb (id ut) (id t))
                        (templatesToUpdate st) with
             | Some ut => ut
             | None => t
             end) prev
  end.

(** ** Active-template filter (RecurringExpensesScreen.tsx) *)

(** [a.getTime() > b.getTime()] and [a.getTime() <= b.getTime()]: false
    when either side is NaN. *)
Definition timeGt (a b : Date) : bool :=
  match a, b with
  | At x, At y => y <? x
  | _, _ => false
  end.

Definition timeLe (a b : Date) : bool :=
  match a, b with
  | At x, At y => x <=? y
  | _, _ => false
  end.

(** The predicate of [recurringExpenses.filter(...)] in
    [activeRecurringExpenses]. *)
Definition isActive (expenses : list Expense) (template : Expense) : bool :=
  match frequency template with
  | Some Recurring =>
      match recurrenceEndType template with
      | None | Some EndForever => true
      | Some EndCount =>
          match recurrenceCount template with
          | None => true
          | Some n =>
              if (n =? 0) || (n <=? 0) then true
              else countRefs (id template) expenses <? n
          end
      | Some EndDate =>
          match parseLocalYYYYMMDD (recurrenceEndDate template) with
          | None => true
          | Some endDate =>
              match parseLocalYYYYMMDD
                      (if truthyStr (lastGeneratedDate template)
                       then lastGeneratedDate template else date template) with
              | None => true
              | Some lastDate =>
                  if timeGt lastDate endDate then false
                  else
                    match calculateNextDueDate template lastDate with
                    | None => false
                    | Some nextDueDate => timeLe nextDueDate endDate
                    end
              end
          end
      end
  | _ => false
  end.

Definition activeRecurringExpenses (recurringExpenses expenses : list Expense)
  : list Expense :=
  filter (isActive expenses) recurringExpenses.

(** ** The convert branch of [handleFormSubmit] (App.tsx) *)

(** The part of the component state that [handleFormSubmit] reads and
    writes. *)
Record AppState : Type := mkApp {
  appExpenses : list Expense;
  appRecurring : list Expense;
  editingRecurringExpense : option Expense;
  appUuidCalls : nat
}.

(** [addExpense]: a fresh id, prepended. *)
Definition addExpense (s : AppState) (newExpense : ExpenseData) : AppState :=
  mkApp (mkExpense (uuid (appUuidCalls s)) newExpense :: appExpenses s)
        (appRecurring s) (editingRecurringExpense s) (S (appUuidCalls s)).

Definition addRecurringExpense (s : AppState) (newExpenseData : ExpenseData)
  : AppState :=
  mkApp (appExpenses s)
        (mkExpense (uuid (appUuidCalls s)) newExpenseData :: appRecurring s)
        (editingRecurringExpense s) (S (appUuidCalls s)).

Definition updateExpense (s : AppState) (updatedExpense : Expense) : AppState :=
  mkApp (map (fun e => if String.eqb (id e) (id updatedExpense)
                       then updatedExpense else e) (appExpenses s))
        (appRecurring s) (editingRecurringExpense s) (appUuidCalls s).

Definition updateRecurringExpense (s : AppState) (updatedTemplate : Expense)
  : AppState :=
  mkApp (appExpenses s)
        (map (fun e => if String.eqb (id e) (id updatedTemplate)
                       then updatedTemplate else e) (appRecurring s))
        (editingRecurringExpense s) (appUuidCalls s).

Definition isRecurring (data : ExpenseData) : bool :=
  match frequency data with
  | Some Recurring => true
  | _ => false
  end.

(** Guard of the convert branch. [dataId] is the id carried by the form
    data, [None] when ['id' in data] is false. *)
Definition isConversion (s : AppState) (dataId : option string)
    (data : ExpenseData) : bool :=
  match editingRecurringExpense s, dataId with
  | Some editing, Some i => String.eqb i (id editing) && negb (isRecurring data)
  | _, _ => false
  end.

(** The convert branch: drop the edited template, add the data as a new
    single expense. *)
Definition convertToSingle (s : AppState) (editing : Expense)
    (data : ExpenseData) : AppState :=
  let s1 := mkApp (appExpenses s)
                  (filter (fun e => negb (String.eqb (id e) (id editing)))
                          (appRecurring s))
                  (editingRecurringExpense s) (appUuidCalls s) in
  addExpense s1 (newSingleExpenseData data).

(** [handleFormSubmit], up to the modal flags; it ends with
    [setEditingRecurringExpense(undefined)]. *)
Definition handleFormSubmit (s : AppState) (dataId : option string)
    (data : ExpenseData) : AppState :=
  let s' :=
    match editingRecurringExpense s with
    | Some editing =>
        if isConversion s dataId data then convertToSingle s editing data
        else if isRecurring data then
          match dataId with
          | Some i => updateRecurringExpense s (mkExpense i data)
          | None => addRecurringExpense s data
          end
        else
          match dataId with
          | Some i => updateExpense s (mkExpense i data)
          | None => addExpense s data
          end
    | None =>
        if isRecurring data then
          match dataId with
          | Some i => updateRecurringExpense s (mkExpense i data)
          | None => addRecurringExpense s data
          end
        else
          match dataId with
          | Some i => updateExpense s (mkExpense i data)
          | None => addExpense s data
          end
    end in
  mkApp (appExpenses s') (appRecurring s') None (appUuidCalls s').

End Engine.

(* ================================================================== *)
(** * Derived notions used in the statements *)
(* ================================================================== *)

Section Derived.

Import JSDate.

Variable tza : Z.
Variable uuid : nat -> string.

(** Where the [while] loop of a template can stop: the candidate is not
    due, or one of the two [break]s fires on it. *)
Definition stopsAt (template : Expense) (expenses : list Expense) (today : Z)
    (nextDue : option Date) (st : GenState) : Prop :=
  match nextDue with
  | Some (At t) =>
      t <= today ->
      dateBreak template t = true
      \/ countBreak template (totalGenerated template expenses st) = true
  | _ => True
  end.

(** Two states that differ at most in their diagnostics. *)
Definition sameDelta (a b : GenState) : Prop :=
  newExpenses a = newExpenses b
  /\ templatesToUpdate a = templatesToUpdate b
  /\ uuidCalls a = uuidCalls b.

(** [b] is [a] with one more diagnostic, about [template]. *)
Definition oneMoreWarning (template : Expense) (a b : GenState) : Prop :=
  sameDelta a b
  /\ exists w1 w2, warnings a = w1 ++ w2 /\ warnings b = w1 ++ template :: w2.

(** Two runs both run out of fuel, or both end, in related states. *)
Definition agree {A : Type} (R : A -> A -> Prop) (x y : option A) : Prop :=
  match x, y with
  | Some a, Some b => R a b
  | None, None => True
  | _, _ => False
  end.

(** One run of the effect followed by its two state setters: the new
    template collection, the new expense collection and the number of
    UUIDs issued. *)
Definition pass (fuel calls : nat) (templates expenses : list Expense)
    (today : Z) : option (list Expense * list Expense * nat) :=
  match generate tza uuid fuel calls templates expenses today with
  | Some st =>
      Some (applyTemplates st templates, applyExpenses st expenses, uuidCalls st)
  | None => None
  end.

(** Successive runs, one per element of [todays]. *)
Fixpoint passes (fuel calls : nat) (templates expenses : list Expense)
    (todays : list Z) : option (list Expense * list Expense * nat) :=
  match todays with
  | [] => Some (templates, expenses, calls)
  | today :: rest =>
      match pass fuel calls templates expenses today with
      | Some (templates', expenses', calls') =>
          passes fuel calls' templates' expenses' rest
      | None => None
      end
  end.

(** The k-th candidate after [start] under the rule of [template]. *)
Fixpoint occurrence (template : ExpenseData) (start : option Date) (k : nat)
  : option Date :=
  match k with
  | O => start
  | S k' =>
      match occurrence template start k' with
      | Some d => calculateNextDueDate tza template d
      | None => None
      end
  end.

(** Iterations that suffice for the loop entered with candidate
    [nextDue]: one per day from the candidate to [today]. *)
Definition fuelFor (today : Z) (nextDue : option Date) : nat :=
  match nextDue with
  | Some (At t) => Z.to_nat ((today - t) / msPerDay + 1)
  | _ => O
  end.

(** Iterations that suffice for the loop entered with candidate [nextDue],
    counted on the calendar: one per local calendar day from the day of the
    candidate to the day of [today], both included. *)
Definition dueDays (today : Z) (nextDue : option Date) : nat :=
  match nextDue with
  | Some (At t) =>
      Z.to_nat (Day (LocalTime tza today) - Day (LocalTime tza t) + 1)
  | _ => O
  end.

(** [e] was materialized from [template] for a due candidate on which the
    end-date [break] did not fire. *)
Definition generatedBy (template : Expense) (today : Z) (e : Expense) : Prop :=
  exists t : Z,
    t <= today /\ dateBreak template t = false
    /\ e = instanceOf template (id e) (toYYYYMMDD t).

(** [st] is [st0] with instances of [template] queued at the end, their
    ids being the next values of the UUID oracle. *)
Definition extends (template : Expense) (today : Z) (st0 st : GenState)
  : Prop :=
  templatesToUpdate st = templatesToUpdate st0
  /\ warnings st = warnings st0
  /\ exists added : list Expense,
       newExpenses st = newExpenses st0 ++ added
       /\ uuidCalls st = (uuidCalls st0 + List.length added)%nat
       /\ map id added = map uuid (seq (uuidCalls st0) (List.length added))
       /\ Forall (generatedBy template today) added.

(** An expense without recurrence data: the five rule fields and the
    cursor are unset. *)
Definition recurrenceCleared (e : ExpenseData) : Prop :=
  recurrence e = None /\ recurrenceInterval e = None
  /\ recurrenceEndType e = None /\ recurrenceEndDate e = None
  /\ recurrenceCount e = None /\ lastGeneratedDate e = None.

(** [u] is [template] with its cursor moved to [d], the date of an
    instance of [template] in [l]. *)
Definition advancedTo (l : list Expense) (template u : Expense) : Prop :=
  exists d : string,
    u = advanceCursor template d
    /\ existsb (isInstanceAt (id template) d) l = true.

(** No ['-'] in a string. *)
Fixpoint noDash (s : string) : bool :=
  match s with
  | EmptyString => true
  | String c s' => negb (Ascii.eqb c "-") && noDash s'
  end.

(** [t] is a midnight of local time. *)
Definition isLocalMidnight (t : Z) : Prop := (t + tza) mod msPerDay = 0.

(** First and past-the-end time values of the years 0100 to 9999 (UTC),
    the years that [toISOString] prints with four digits and that
    [new Date(y, m, d)] takes as they are. *)
Definition isoLo : Z := DayFromYear 100 * msPerDay.
Definition isoHi : Z := DayFromYear 10000 * msPerDay.

(** A Date that is NaN or not before the year 0100. *)
Definition notBeforeIsoLo (d : Date) : Prop :=
  match d with
  | At t => isoLo <= t
  | Invalid => True
  end.

(** The stored dates of a template, when they parse, are not before the
    year 0100. *)
Definition plainDates (template : ExpenseData) : Prop :=
  forall s, date template = Some s \/ lastGeneratedDate template = Some s ->
            notBeforeIsoLo (parseDate tza s).

(** A candidate that is NaN, absent, or a local midnight not before the
    year 0100. *)
Definition plainCandidate (n : option Date) : Prop :=
  match n with
  | Some (At x) => isLocalMidnight x /\ isoLo <= x
  | _ => True
  end.

(** What [applyTemplates] puts in the place of [t]. *)
Definition mergeTemplate (st : GenState) (t : Expense) : Expense :=
  match find (fun ut => String.eqb (id ut) (id t)) (templatesToUpdate st) with
  | Some ut => ut
  | None => t
  end.

(** The cursor of every template is unset or is the date of an instance
    that references the template. *)
Definition cursorConsistent (templates expenses : list Expense) : Prop :=
  forall t : Expense, In t templates ->
    lastGeneratedDate t = None
    \/ exists e : Expense, In e expenses /\ refers (id t) e = true
                           /\ date e = lastGeneratedDate t.

End Derived.

(* ================================================================== *)
(** * Concrete data for the scenarios *)
(* ================================================================== *)

Module Scenario.

Import JSDate.

(** A UUID oracle with pairwise distinct values. *)
Definition uuidOf (n : nat) : string := ("uuid-" ++ pad 4 (Z.of_nat n))%string.

(** Time zones: UTC, and UTC+01:00 (Europe/Rome in winter). *)
Definition utc : Z := 0.
Definition cet : Z := 3600000.

(** Local midnight of a calendar date, as the effect computes [today]. *)
Definition midnight (tza : Z) (day : string) : Z :=
  match parseDate tza day with
  | At t => t
  | Invalid => 0
  end.

(** A template "rent, 800" with the given start, rule, end and cursor. *)
Definition rule (start : option string) (unit : option Recurrence)
    (interval : option Z) (endType : option EndType) (endDate : option string)
    (count : option Z) (last : option string) : ExpenseData :=
  mkData "rent" 800 "home" "main" start (Some Recurring) unit None interval
         None endType endDate count None last.

(** Scenario A: daily from 2024-01-01, interval 1, no end, no cursor. *)
Definition scenarioA : Expense :=
  mkExpense "rent-1"
            (rule (Some "2024-01-01") (Some Daily) (Some 1) None None None None).

(** Weekly from 2024-01-01 with the default interval. *)
Definition weekly : Expense :=
  mkExpense "rent-2"
            (rule (Some "2024-01-01") (Some Weekly) None None None None None).

(** Daily with [recurrenceEndType = count] and [recurrenceCount = 0]. *)
Definition countZero : Expense :=
  mkExpense "rent-3"
            (rule (Some "2024-01-01") (Some Daily) (Some 1) (Some EndCount) None
                  (Some 0) None).

(** Daily, at most 2 occurrences. *)
Definition countTwo : Expense :=
  mkExpense "rent-4"
            (rule (Some "2024-01-01") (Some Daily) (Some 1) (Some EndCount) None
                  (Some 2) None).

(** Weekly until 2024-01-10 (scenario D). *)
Definition untilJan10 : Expense :=
  mkExpense "rent-5"
            (rule (Some "2024-01-01") (Some Weekly) (Some 1) (Some EndDate)
                  (Some "2024-01-10") None None).

(** Monthly, already generated for 2024-01-01, whose instance the user
    deleted afterwards. *)
Definition monthlyAfterDelete : Expense :=
  mkExpense "rent-6"
            (rule (Some "2024-01-01") (Some Monthly) (Some 1) None None None
                  (Some "2024-01-01")).

(** A stored template without a start date. *)
Definition noDate : Expense :=
  mkExpense "rent-7" (rule None (Some Daily) (Some 1) None None None None).

(** Weekly with [recurrenceEndType = date] and no end date. *)
Definition endDateUnset : Expense :=
  mkExpense "rent-8"
            (rule (Some "2024-01-01") (Some Weekly) (Some 1) (Some EndDate) None
                  None None).

(** East of UTC, what the first run on 2024-01-14 leaves of [weekly]: the
    template with its cursor on 2024-01-07 and two instances. *)
Definition weeklyAdvanced : Expense := advanceCursor weekly "2024-01-07".

Definition weeklyInstances : list Expense :=
  [instanceOf weekly (uuidOf 0) "2023-12-31";
   instanceOf weekly (uuidOf 1) "2024-01-07"].

(** The form data of [weekly] after the user switched it to a single
    expense, and the state in which that form is submitted. *)
Definition weeklyMadeSingle : ExpenseData :=
  mkData "rent" 800 "home" "main" (Some "2024-01-01") (Some Single)
         (Some Weekly) None None None None None None None None.

Definition editingWeekly : AppState :=
  mkApp [instanceOf weekly (uuidOf 0) "2024-01-01"] [scenarioA; weekly]
        (Some weekly) 1.

End Scenario.

(* ================================================================== *)
(** * More of the Date object: week days, time of day, UTC fields *)
(* ================================================================== *)

Module JSCalendar.

Import JSDate.

Definition msPerHour : Z := 3600000.
Definition msPerMinute : Z := 60000.
Definition msPerSecond : Z := 1000.

(** Day of the week of a time value, 0 = Sunday. *)
Definition WeekDay (t : Z) : Z := (Day t + 4) mod 7.

Definition MakeTime (hour min sec ms : Z) : Z :=
  hour * msPerHour + min * msPerMinute + sec * msPerSecond + ms.

(** A method called on a Date object that may hold NaN: NaN stays NaN. *)
Definition onDate (d : Date) (f : Z -> Date) : Date :=
  match d with
  | At t => f t
  | Invalid => Invalid
  end.

(** [d.getTime()]; [None] is NaN. *)
Definition getTime (d : Date) : option Z :=
  match d with
  | At t => Some t
  | Invalid => None
  end.

(** [Math.ceil(a / b)] in exact arithmetic, for [b > 0]. *)
Definition ceilDiv (a b : Z) : Z := - ((- a) / b).

(** [Date.UTC(year, month, date)] as a Date; years 0..99 mean 1900..1999. *)
Definition DateUTC (year month date : Z) : Date :=
  let yr := if (0 <=? year) && (year <=? 99) then 1900 + year else year in
  TimeClip (MakeDate (MakeDay yr month date) 0).

Definition getUTCFullYear (t : Z) : Z := YearFromTime t.
Definition getUTCDate (t : Z) : Z := DateFromTime t.
Definition getUTCDay (t : Z) : Z := WeekDay t.

Definition setUTCDate (t : Z) (dt : Z) : Date :=
  TimeClip (MakeDate (MakeDay (YearFromTime t) (MonthFromTime t) dt)
                     (TimeWithinDay t)).

Section LocalTime.

Variable tza : Z.

Definition getDay (t : Z) : Z := WeekDay (LocalTime tza t).

(** [setHours(hour, min, sec, ms)] *)
Definition setHours (t : Z) (hour min sec ms : Z) : Date :=
  let l := LocalTime tza t in
  TimeClip (UTC tza (MakeDate (Day l) (MakeTime hour min sec ms))).

(** [setMonth(month, date)], the two-argument form. *)
Definition setMonthDate (t : Z) (m dt : Z) : Date :=
  let l := LocalTime tza t in
  TimeClip (UTC tza (MakeDate (MakeDay (YearFromTime l) m dt)
                              (TimeWithinDay l))).

End LocalTime.

End JSCalendar.

(* ================================================================== *)
(** * The other state changes of [App] (App.tsx) *)
(* ================================================================== *)

Section Crud.

Variable uuid : nat -> string.

(** [expensesToAdd.map(exp => ({ ...exp, id: crypto.randomUUID() }))],
    [calls] UUIDs having been issued before. *)
Fixpoint expensesWithIds (calls : nat) (expensesToAdd : list ExpenseData)
  : list Expense :=
  match expensesToAdd with
  | [] => []
  | exp :: rest => mkExpense (uuid calls) exp :: expensesWithIds (S calls) rest
  end.

(** [handleMultipleExpensesSubmit], up to the modal flags. *)
Definition handleMultipleExpensesSubmit (s : AppState)
    (expensesToAdd : list ExpenseData) : AppState :=
  mkApp (expensesWithIds (appUuidCalls s) expensesToAdd ++ appExpenses s)
        (appRecurring s) (editingRecurringExpense s)
        (appUuidCalls s + List.length expensesToAdd).

(** [confirmDelete], up to the modal flags and the toast;
    [expenseToDeleteId] is the id that [handleDeleteRequest] stored. *)
Definition confirmDelete (s : AppState) (expenseToDeleteId : option string)
  : AppState :=
  match expenseToDeleteId with
  | Some i =>
      if String.eqb i "" then s
      else mkApp (filter (fun e => negb (String.eqb (id e) i)) (appExpenses s))
                 (appRecurring s) (editingRecurringExpense s) (appUuidCalls s)
  | None => s
  end.

(** [deleteRecurringExpense], up to the toast. *)
Definition deleteRecurringExpense (s : AppState) (i : string) : AppState :=
  mkApp (appExpenses s)
        (filter (fun e => negb (String.eqb (id e) i)) (appRecurring s))
        (editingRecurringExpense s) (appUuidCalls s).

End Crud.

(** ** The Back button ([handlePopState]) *)

(** The state that [handlePopState] reads and writes. [imageForAnalysis]
    holds the id of the image; [backPressExitTimeout] tells whether the
    two-second timer of the exit gesture is running. *)
Record Overlays : Type := mkOverlays {
  isHistoryScreenOpen : bool;
  isRecurringScreenOpen : bool;
  imageForAnalysis : option string;
  isCalculatorContainerOpen : bool;
  isFormOpen : bool;
  isImageSourceModalOpen : bool;
  isVoiceModalOpen : bool;
  isConfirmDeleteModalOpen : bool;
  isMultipleExpensesModalOpen : bool;
  expenseToDeleteId : option string;
  backPressExitTimeout : bool;
  toast : option string;
  windowClosed : bool
}.

Definition isSome {A : Type} (o : option A) : bool :=
  match o with
  | Some _ => true
  | None => false
  end.

(** [handlePopState], up to the calls of [history.pushState]. *)
Definition handlePopState (s : Overlays) : Overlays :=
  if isHistoryScreenOpen s then
    mkOverlays false (isRecurringScreenOpen s) (imageForAnalysis s)
      (isCalculatorContainerOpen s) (isFormOpen s) (isImageSourceModalOpen s)
      (isVoiceModalOpen s) (isConfirmDeleteModalOpen s)
      (isMultipleExpensesModalOpen s) (expenseToDeleteId s)
      (backPressExitTimeout s) (toast s) (windowClosed s)
  else if isRecurringScreenOpen s then
    mkOverlays (isHistoryScreenOpen s) false (imageForAnalysis s)
      (isCalculatorContainerOpen s) (isFormOpen s) (isImageSourceModalOpen s)
      (isVoiceModalOpen s) (isConfirmDeleteModalOpen s)
      (isMultipleExpensesModalOpen s) (expenseToDeleteId s)
      (backPressExitTimeout s) (toast s) (windowClosed s)
  else if isSome (imageForAnalysis s) then
    mkOverlays (isHistoryScreenOpen s) (isRecurringScreenOpen s) None
      (isCalculatorContainerOpen s) (isFormOpen s) (isImageSourceModalOpen s)
      (isVoiceModalOpen s) (isConfirmDeleteModalOpen s)
      (isMultipleExpensesModalOpen s) (expenseToDeleteId s)
      (backPressExitTimeout s) (toast s) (windowClosed s)
  else if isCalculatorContainerOpen s then
    mkOverlays (isHistoryScreenOpen s) (isRecurringScreenOpen s)
      (imageForAnalysis s) false (isFormOpen s) (isImageSourceModalOpen s)
      (isVoiceModalOpen s) (isConfirmDeleteModalOpen s)
      (isMultipleExpensesModalOpen s) (expenseToDeleteId s)
      (backPressExitTimeout s) (toast s) (windowClosed s)
  else if isFormOpen s then
    mkOverlays (isHistoryScreenOpen s) (isRecurringScreenOpen s)
      (imageForAnalysis s) (isCalculatorContainerOpen s) false
      (isImageSourceModalOpen s) (isVoiceModalOpen s)
      (isConfirmDeleteModalOpen s) (isMultipleExpensesModalOpen s)
      (expenseToDeleteId s) (backPressExitTimeout s) (toast s)
      (windowClosed s)
  else if isImageSourceModalOpen s then
    mkOverlays (isHistoryScreenOpen s) (isRecurringScreenOpen s)
      (imageForAnalysis s) (isCalculatorContainerOpen s) (isFormOpen s) false
      (isVoiceModalOpen s) (isConfirmDeleteModalOpen s)
      (isMultipleExpensesModalOpen s) (expenseToDeleteId s)
      (backPressExitTimeout s) (toast s) (windowClosed s)
  else if isVoiceModalOpen s then
    mkOverlays (isHistoryScreenOpen s) (isRecurringScreenOpen s)
      (imageForAnalysis s) (isCalculatorContainerOpen s) (isFormOpen s)
      (isImageSourceModalOpen s) false (isConfirmDeleteModalOpen s)
      (isMultipleExpensesModalOpen s) (expenseToDeleteId s)
      (backPressExitTimeout s) (toast s) (windowClosed s)
  else if isConfirmDeleteModalOpen s then
    mkOverlays (isHistoryScreenOpen s) (isRecurringScreenOpen s)
      (imageForAnalysis s) (isCalculatorContainerOpen s) (isFormOpen s)
      (isImageSourceModalOpen s) (isVoiceModalOpen s) false
      (isMultipleExpensesModalOpen s) None
      (backPressExitTimeout s) (toast s) (windowClosed s)
  else if isMultipleExpensesModalOpen s then
    mkOverlays (isHistoryScreenOpen s) (isRecurringScreenOpen s)
      (imageForAnalysis s) (isCalculatorContainerOpen s) (isFormOpen s)
      (isImageSourceModalOpen s) (isVoiceModalOpen s)
      (isConfirmDeleteModalOpen s) false (expenseToDeleteId s)
      (backPressExitTimeout s) (toast s) (windowClosed s)
  else if backPressExitTimeout s then
    mkOverlays (isHistoryScreenOpen s) (isRecurringScreenOpen s)
      (imageForAnalysis s) (isCalculatorContainerOpen s) (isFormOpen s)
      (isImageSourceModalOpen s) (isVoiceModalOpen s)
      (isConfirmDeleteModalOpen s) (isMultipleExpensesModalOpen s)
      (expenseToDeleteId s) false (toast s) true
  else
    mkOverlays (isHistoryScreenOpen s) (isRecurringScreenOpen s)
      (imageForAnalysis s) (isCalculatorContainerOpen s) (isFormOpen s)
      (isImageSourceModalOpen s) (isVoiceModalOpen s)
      (isConfirmDeleteModalOpen s) (isMultipleExpensesModalOpen s)
      (expenseToDeleteId s) true (Some "Premi di nuovo per uscire.")
      (windowClosed s).

(** The callback of the two-second timer armed by [handlePopState]. *)
Definition exitTimerFires (s : Overlays) : Overlays :=
  mkOverlays (isHistoryScreenOpen s) (isRecurringScreenOpen s)
    (imageForAnalysis s) (isCalculatorContainerOpen s) (isFormOpen s)
    (isImageSourceModalOpen s) (isVoiceModalOpen s)
    (isConfirmDeleteModalOpen s) (isMultipleExpensesModalOpen s)
    (expenseToDeleteId s) false (toast s) (windowClosed s).

(* ================================================================== *)
(** * The date-range picker (DateRangePickerModal.tsx) *)
(* ================================================================== *)

Section DateRangePicker.

Import JSDate JSCalendar.

Variable tza : Z.

(** [new Date(year, month + 1, 0).getDate()]; [None] is NaN. *)
Definition getDaysInMonth (year month : Z) : option Z :=
  option_map (getDate tza)
             (getTime (newDate tza (Some year) (Some (month + 1)) (Some 0))).

(** [(new Date(year, month, 1).getDay() + 6) % 7]: 0 = Monday. *)
Definition getFirstDayOfMonth (year month : Z) : option Z :=
  option_map (fun t => Z.rem (getDay tza t + 6) 7)
             (getTime (newDate tza (Some year) (Some month) (Some 1))).

(** [calendarGrid] of [CalendarView] for a valid [viewDate]: [firstDay]
    empty cells, the days of the month, then empty cells up to 42. [None]
    stands for the RangeError of [Array(NaN)]; with [daysInMonth] NaN the
    [for] loop adds nothing. *)
Definition calendarGrid (viewDate : Z) : option (list (option Z)) :=
  let year := getFullYear tza viewDate in
  let month := getMonth tza viewDate in
  let daysInMonth := getDaysInMonth year month in
  match getFirstDayOfMonth year month with
  | Some firstDay =>
      let days :=
        match daysInMonth with
        | Some n => map (fun i => Some (Z.of_nat i)) (seq 1 (Z.to_nat n))
        | None => []
        end in
      let grid := repeat None (Z.to_nat firstDay) ++ days in
      Some (grid ++ repeat None (42 - List.length grid))
  | None => None
  end.

(** [new Date(viewDate.getFullYear(), viewDate.getMonth(), day)]: the date
    of a cell in [renderDay], the clicked date in [handleDateClick]. *)
Definition cellDate (viewDate : Z) (day : Z) : Date :=
  newDate tza (Some (getFullYear tza viewDate)) (Some (getMonth tza viewDate))
          (Some day).

Inductive Selecting : Type := SelStart | SelEnd.

(** The state of the modal that the click, navigation and apply handlers
    use. *)
Record PickerState : Type := mkPicker {
  displayDate : Date;
  startDate : option Date;
  endDate : option Date;
  hoverDate : option Date;
  selectingFor : option Selecting;
  ignoreClick : bool
}.

(** [a === clickedTime] where [a] is [null] or a time value. *)
Definition sameTime (a : option Date) (clicked : Date) : bool :=
  match a, clicked with
  | Some (At x), At y => x =? y
  | _, _ => false
  end.

(** [endTime && clickedTime > endTime] *)
Definition setAndBefore (a : option Date) (clicked : Date) : bool :=
  match a, clicked with
  | Some (At x), At y => negb (x =? 0) && (x <? y)
  | _, _ => false
  end.

(** [startTime && clickedTime < startTime] *)
Definition setAndAfter (a : option Date) (clicked : Date) : bool :=
  match a, clicked with
  | Some (At x), At y => negb (x =? 0) && (y <? x)
  | _, _ => false
  end.

Definition handleDateClick (s : PickerState) (day : Z) : PickerState :=
  if ignoreClick s then s
  else
    let clickedDate := onDate (displayDate s) (fun t => cellDate t day) in
    match selectingFor s with
    | Some SelStart =>
        if sameTime (startDate s) clickedDate then
          mkPicker (displayDate s) None (endDate s) None (selectingFor s)
                   (ignoreClick s)
        else
          mkPicker (displayDate s) (Some clickedDate)
                   (if setAndBefore (endDate s) clickedDate then None
                    else endDate s)
                   None (Some SelEnd) (ignoreClick s)
    | Some SelEnd =>
        if sameTime (endDate s) clickedDate then
          mkPicker (displayDate s) (startDate s) None None (selectingFor s)
                   (ignoreClick s)
        else if setAndAfter (startDate s) clickedDate then
          mkPicker (displayDate s) (Some clickedDate) (startDate s) None None
                   (ignoreClick s)
        else
          mkPicker (displayDate s) (startDate s) (Some clickedDate) None None
                   (ignoreClick s)
    | None =>
        mkPicker (displayDate s) (Some clickedDate) None None (Some SelEnd)
                 (ignoreClick s)
    end.

(** What [handleApply] does: nothing, a RangeError thrown by
    [toISOString] on an Invalid Date, or a call of [onApply]. *)
Inductive Applied : Type :=
| NotApplied
| ApplyThrows
| OnApply (start end_ : string).

Definition handleApply (s : PickerState) : Applied :=
  match startDate s, endDate s with
  | Some (At a), Some (At b) => OnApply (toYYYYMMDD a) (toYYYYMMDD b)
  | Some _, Some _ => ApplyThrows
  | _, _ => NotApplied
  end.

(** The effect that runs when the modal opens with [initialRange]; [today]
    is the local midnight of the current day. *)
Definition openWith (today : Z) (initialStart initialEnd : option string)
    (s : PickerState) : PickerState :=
  let newStartDate := parseLocalYYYYMMDD tza initialStart in
  let newEndDate := parseLocalYYYYMMDD tza initialEnd in
  let initialDisplay :=
    match newStartDate with
    | Some d => d
    | None => At today
    end in
  mkPicker (onDate initialDisplay
              (fun t => newDate tza (Some (getFullYear tza t))
                                (Some (getMonth tza t)) (Some 1)))
           newStartDate newEndDate (hoverDate s) (Some SelStart)
           (ignoreClick s).

(** [nextMonthDate] and [prevMonthDate] *)
Definition nextMonthDate (d : Z) : Date :=
  newDate tza (Some (getFullYear tza d)) (Some (getMonth tza d + 1)) (Some 1).

Definition prevMonthDate (d : Z) : Date :=
  newDate tza (Some (getFullYear tza d)) (Some (getMonth tza d - 1)) (Some 1).

Inductive Direction : Type := Left | Right.

(** [handleAnimationEnd] on the displayed month, a transition being set. *)
Definition handleAnimationEnd (direction : Direction) (d : Date) : Date :=
  match direction with
  | Left => onDate d nextMonthDate
  | Right => onDate d prevMonthDate
  end.

(** [changeYear] and [changeYearRange] on the displayed month. *)
Definition changeYear (delta : Z) (current : Z) : Date :=
  let newYear := getFullYear tza current + delta in
  newDate tza (Some newYear) (Some (getMonth tza current)) (Some 1).

Definition changeYearRange (delta : Z) (current : Z) : Date :=
  changeYear (delta * 12) current.

(** [yearsInView]: the twelve years from [Math.floor(year / 12) * 12]. *)
Definition yearsInView (d : Z) : list Z :=
  let year := getFullYear tza d in
  let startYear := year / 12 * 12 in
  map (fun i => startYear + Z.of_nat i) (seq 0 12).

End DateRangePicker.

(* ================================================================== *)
(** * The history screen (HistoryFilterCard.tsx, [HistoryScreen]) *)
(* ================================================================== *)

Section History.

Import JSDate JSCalendar.

Variable tza : Z.

(** [getISOWeek]: the pair of the ISO year and the ISO week number of the
    local calendar date of [date]; [None] is NaN. The two time values
    subtracted are UTC midnights, so that the quotient by 86400000 is a
    whole number and [Math.ceil] is the ceiling of an exact fraction. *)
Definition getISOWeek (date : Z) : option Z * option Z :=
  match DateUTC (getFullYear tza date) (getMonth tza date) (getDate tza date)
  with
  | Invalid => (None, None)
  | At d0 =>
      let dayNum := if getUTCDay d0 =? 0 then 7 else getUTCDay d0 in
      match setUTCDate d0 (getUTCDate d0 + 4 - dayNum) with
      | Invalid => (None, None)
      | At d =>
          (Some (getUTCFullYear d),
           match DateUTC (getUTCFullYear d) 0 1 with
           | Invalid => None
           | At yearStart =>
               Some (ceilDiv (d - yearStart + msPerDay) (7 * msPerDay))
           end)
      end
  end.

Inductive PeriodType : Type := PDay | PWeek | PMonth | PYear.

(** [start] and [end] of the period filter in [filteredExpenses]. *)
Definition periodBounds (periodType : PeriodType) (periodDate : Date)
  : Date * Date :=
  let start := onDate periodDate (fun t => setHours tza t 0 0 0 0) in
  let end_ := onDate periodDate (fun t => setHours tza t 23 59 59 999) in
  match periodType with
  | PDay => (start, end_)
  | PWeek =>
      match start with
      | At s =>
          let day := getDay tza s in
          let diff := getDate tza s - day + (if day =? 0 then -6 else 1) in
          let start' := setDate tza s diff in
          (start',
           match start' with
           | At s' => onDate end_ (fun e => setDate tza e (getDate tza s' + 6))
           | Invalid => Invalid
           end)
      | Invalid => (Invalid, Invalid)
      end
  | PMonth =>
      (onDate start (fun s => setDate tza s 1),
       onDate (onDate end_ (fun e => setMonth tza e (getMonth tza e + 1)))
              (fun e => setDate tza e 0))
  | PYear =>
      (onDate start (fun s => setMonthDate tza s 0 1),
       onDate (onDate end_ (fun e => setFullYear tza e (getFullYear tza e + 1)))
              (fun e => setMonthDate tza e 0 0))
  end.

Inductive ActiveFilterMode : Type := Quick | Period | Custom.

Inductive DateFilter : Type := All | Last7d | Last30d | Last6m | Last1y.

(** The filter state of [HistoryScreen]. *)
Record FilterState : Type := mkFilter {
  activeFilterMode : ActiveFilterMode;
  dateFilter : DateFilter;
  customStart : option string;
  customEnd : option string;
  periodType : PeriodType;
  periodDate : Date
}.

(** [t >= t0 && t <= t1] and the like on time values that may be NaN. *)
Definition timeGe (a b : Date) : bool :=
  match a, b with
  | At x, At y => y <=? x
  | _, _ => false
  end.

Definition timeLt (a b : Date) : bool :=
  match a, b with
  | At x, At y => x <? y
  | _, _ => false
  end.

(** [expenses.filter(...)] with a predicate that throws a TypeError on an
    expense without a date ([e.date.split]): [None]. *)
Fixpoint filterByDate (keep : Date -> bool) (expenses : list Expense)
  : option (list Expense) :=
  match expenses with
  | [] => Some []
  | e :: rest =>
      match date e with
      | None => None
      | Some s =>
          match filterByDate keep rest with
          | None => None
          | Some kept =>
              Some (if keep (parseDate tza s) then e :: kept else kept)
          end
      end
  end.

(** Start of the quick filters: [now] at local midnight, moved back. *)
Definition quickStart (f : DateFilter) (now : Z) : Date :=
  let startDate := setHours tza now 0 0 0 0 in
  match f with
  | All => startDate
  | Last7d => onDate startDate (fun s => setDate tza s (getDate tza s - 6))
  | Last30d => onDate startDate (fun s => setDate tza s (getDate tza s - 29))
  | Last6m => onDate startDate (fun s => setMonth tza s (getMonth tza s - 6))
  | Last1y =>
      onDate startDate (fun s => setFullYear tza s (getFullYear tza s - 1))
  end.

(** [filteredExpenses]; [now] is the time of the call. *)
Definition filteredExpenses (f : FilterState) (now : Z)
    (expenses : list Expense) : option (list Expense) :=
  match activeFilterMode f with
  | Period =>
      let (start, end_) := periodBounds (periodType f) (periodDate f) in
      filterByDate (fun d => timeGe d start && timeLe d end_) expenses
  | _ =>
      if match activeFilterMode f with Custom => true | _ => false end
         && truthyStr (customStart f) && truthyStr (customEnd f)
      then
        match customStart f, customEnd f with
        | Some a, Some b =>
            let t0 := parseDate tza a in
            let endDay := parseDate tza b in
            let t1 := onDate endDay
                        (fun e => setDate tza e (getDate tza e + 1)) in
            filterByDate (fun d => timeGe d t0 && timeLt d t1) expenses
        | _, _ => Some expenses
        end
      else
        match dateFilter f with
        | All => Some expenses
        | q => filterByDate (fun d => timeGe d (quickStart q now)) expenses
        end
  end.

End History.

(* ================================================================== *)
(** * Derived notions used in the further statements *)
(* ================================================================== *)

(** Number of days of month [m] (0 = January) in a leap or common year,
    from the table of [monthStart]. *)
Definition monthLength (leap : bool) (m : Z) : Z :=
  (if m =? 11 then (if leap then 366 else 365)
   else JSDate.monthStart leap (m + 1))
  - JSDate.monthStart leap m.

(** The string YYYY-MM-DD of a date that exists, in the years 0100 to
    9999. *)
Definition isDateString (s : string) : Prop :=
  exists y m d : Z,
    100 <= y <= 9999 /\ 0 <= m <= 11
    /\ 1 <= d <= monthLength (JSDate.isLeap y) m
    /\ s = (JSDate.pad 4 y ++ "-" ++ JSDate.pad 2 (m + 1) ++ "-"
            ++ JSDate.pad 2 d)%string.

(** [a <= s && s <= b] on strings. *)
Definition strBetween (a b s : string) : bool :=
  negb (strGt a s) && negb (strGt s b).

Section DerivedApp.

Import JSDate.

Variable tza : Z.
Variable uuid : nat -> string.

(** The operations on the two collections: the form, the modal of several
    expenses, the two deletions, opening a template in the form, and a run
    of the generation effect. *)
Inductive Action : Type :=
| Submit (dataId : option string) (data : ExpenseData)
| SubmitMultiple (expensesToAdd : list ExpenseData)
| ConfirmDelete (expenseToDeleteId : option string)
| DeleteRecurring (i : string)
| OpenRecurringEditForm (expense : Expense)
| RunGeneration (fuel : nat) (today : Z).

(** One operation; [None] when a run of the effect is out of fuel. *)
Definition act (s : AppState) (a : Action) : option AppState :=
  match a with
  | Submit dataId data => Some (handleFormSubmit uuid s dataId data)
  | SubmitMultiple expensesToAdd =>
      Some (handleMultipleExpensesSubmit uuid s expensesToAdd)
  | ConfirmDelete i => Some (confirmDelete s i)
  | DeleteRecurring i => Some (deleteRecurringExpense s i)
  | OpenRecurringEditForm expense =>
      Some (mkApp (appExpenses s) (appRecurring s) (Some expense)
                  (appUuidCalls s))
  | RunGeneration fuel today =>
      match pass tza uuid fuel (appUuidCalls s) (appRecurring s)
                 (appExpenses s) today with
      | Some (templates', expenses', calls') =>
          Some (mkApp expenses' templates' (editingRecurringExpense s) calls')
      | None => None
      end
  end.

Fixpoint acts (s : AppState) (l : list Action) : option AppState :=
  match l with
  | [] => Some s
  | a :: rest =>
      match act s a with
      | Some s' => acts s' rest
      | None => None
      end
  end.

(** The ids of the stored expenses and templates. *)
Definition storedIds (s : AppState) : list string :=
  map id (appExpenses s ++ appRecurring s).

(** The stored ids are pairwise distinct and none of them is a value that
    the UUID oracle has yet to return. *)
Definition idsUnique (s : AppState) : Prop :=
  NoDup (storedIds s)
  /\ forall k : nat, ~ In (uuid (appUuidCalls s + k)) (storedIds s).

End DerivedApp.

(** Number of overlays that [handlePopState] can close. *)
Definition openOverlays (s : Overlays) : nat :=
  Nat.b2n (isHistoryScreenOpen s) + Nat.b2n (isRecurringScreenOpen s)
  + Nat.b2n (isSome (imageForAnalysis s))
  + Nat.b2n (isCalculatorContainerOpen s) + Nat.b2n (isFormOpen s)
  + Nat.b2n (isImageSourceModalOpen s) + Nat.b2n (isVoiceModalOpen s)
  + Nat.b2n (isConfirmDeleteModalOpen s)
  + Nat.b2n (isMultipleExpensesModalOpen s).

Section DerivedPicker.

Import JSDate.

Variable tza : Z.

(** Local midnight of the day number [k] of local time. *)
Definition localMidnight (k : Z) : Z := k * msPerDay - tza.

(** The start of the selection is not after its end, when both are set
    and valid. *)
Definition ordered (s : PickerState) : Prop :=
  match startDate s, endDate s with
  | Some (At a), Some (At b) => a <= b
  | _, _ => True
  end.

(** Neither end of the selection is the time value 0. *)
Definition nonzero (d : option Date) : Prop :=
  match d with
  | Some (At a) => a <> 0
  | _ => True
  end.

End DerivedPicker.

(* ================================================================== *)
(** * Concrete data for the further statements *)
(* ================================================================== *)

Module Samples.

Import JSDate.

(** A UUID oracle that never repeats: [n] strokes, then a dot. *)
Fixpoint tally (n : nat) : string :=
  match n with
  | O => "."
  | S n' => String "i" (tally n')
  end.

(** Local midnight in the zone UTC+01:00. *)
Definition cetMidnight (day : string) : Z := Scenario.midnight Scenario.cet day.

(** Rent due on the 31st of every month, and on every 29 February. *)
Definition monthly31 : ExpenseData :=
  Scenario.rule (Some "2024-01-31") (Some Monthly) (Some 1) None None None None.

Definition yearlyFeb29 : ExpenseData :=
  Scenario.rule (Some "2024-02-29") (Some Yearly) (Some 1) None None None None.

(** A template whose start date was stored without separators. *)
Definition noDashes : Expense :=
  mkExpense "rent-9"
    (Scenario.rule (Some "20240101") (Some Daily) (Some 1) None None None None).

(** Weekly until 2024-01-10, generated up to 2024-01-08. *)
Definition finished : Expense := advanceCursor Scenario.untilJan10 "2024-01-08".

(** The two instances that exhaust [Scenario.countTwo]. *)
Definition twoInstances : list Expense :=
  [instanceOf Scenario.countTwo "uuid-0000" "2024-01-01";
   instanceOf Scenario.countTwo "uuid-0001" "2024-01-02"].

(** A stored single expense and the same expense switched to recurring in
    the form. *)
Definition lunch : ExpenseData :=
  mkData "lunch" 12 "food" "main" (Some "2024-01-05") (Some Single) None None
         None None None None None None None.

Definition lunchMadeWeekly : ExpenseData :=
  mkData "lunch" 12 "food" "main" (Some "2024-01-05") (Some Recurring)
         (Some Weekly) None (Some 1) None None None None None None.

Definition withLunch : AppState :=
  mkApp [mkExpense "e-1" lunch] [Scenario.weekly] None 0.

(** The operations of a short session that starts with nothing stored. *)
Definition session : list Action :=
  [Submit None Scenario.scenarioA;
   RunGeneration 10 (Scenario.midnight Scenario.utc "2024-01-03");
   SubmitMultiple [lunch; lunch];
   ConfirmDelete (Some (tally 1));
   OpenRecurringEditForm (mkExpense (tally 0) Scenario.scenarioA);
   Submit (Some (tally 0)) lunch;
   DeleteRecurring "rent-1"].

(** The form open over the history screen, and nothing open. *)
Definition formOverHistory : Overlays :=
  mkOverlays true false None false true false false false false None false
             None false.

Definition home : Overlays :=
  mkOverlays false false None false false false false false false None false
             None false.

(** The picker showing January 2024 with 10 to 15 January selected, and
    with only the 10th selected, waiting for the end. *)
Definition picked : PickerState :=
  mkPicker (At (cetMidnight "2024-01-01")) (Some (At (cetMidnight "2024-01-10")))
           (Some (At (cetMidnight "2024-01-15"))) None None false.

Definition pickingEnd : PickerState :=
  mkPicker (At (cetMidnight "2024-01-01")) (Some (At (cetMidnight "2024-01-10")))
           None None (Some SelEnd) false.

(** Four instances of scenario A, dated 1 to 4 January 2024. *)
Definition fourDays : list Expense :=
  [instanceOf Scenario.scenarioA "uuid-0003" "2024-01-04";
   instanceOf Scenario.scenarioA "uuid-0002" "2024-01-03";
   instanceOf Scenario.scenarioA "uuid-0001" "2024-01-02";
   instanceOf Scenario.scenarioA "uuid-0000" "2024-01-01"].

End Samples.

(** Closed goals decided by evaluation. *)
Ltac evaluated :=
  vm_compute; repeat split; try reflexivity; try discriminate.

(* ================================================================== *)
(** * Facts about the Date arithmetic *)
(* ================================================================== *)

Module JSDateFacts.

Import JSDate.

Lemma YearFromDay_spec d :
  DayFromYear (YearFromDay d) <= d < DayFromYear (YearFromDay d + 1).
Proof.
  unfold YearFromDay.
  set (y0 := 1970 + 400 * d / 146097).
  assert (H0 : DayFromYear (y0 - 1) <= d)
    by (unfold DayFromYear, y0; Z.div_mod_to_equations; lia).
  assert (H1 : d < DayFromYear (y0 + 2))
    by (unfold DayFromYear, y0; Z.div_mod_to_equations; lia).
  destruct (Z.ltb_spec d (DayFromYear y0)).
  - replace (y0 - 1 + 1) with y0 by lia. lia.
  - destruct (Z.leb_spec (DayFromYear (y0 + 1)) d).
    + replace (y0 + 1 + 1) with (y0 + 2) by lia. lia.
    + lia.
Qed.

Lemma DayFromYear_succ y : DayFromYear (y + 1) = DayFromYear y + DaysInYear y.
Proof.
  unfold DayFromYear, DaysInYear, isLeap.
  destruct (Z.eqb_spec (y mod 4) 0); cbn [negb];
  [destruct (Z.eqb_spec (y mod 100) 0); cbn [negb];
   [destruct (Z.eqb_spec (y mod 400) 0); cbn [negb]|]|];
  Z.div_mod_to_equations; lia.
Qed.

Lemma MonthFromDay_range d : 0 <= MonthFromDay d <= 11.
Proof.
  unfold MonthFromDay.
  repeat match goal with
         | |- context [if ?b then _ else _] => destruct b
         end; lia.
Qed.

Lemma MakeDay_small y m dt :
  0 <= m <= 11 ->
  MakeDay y m dt = DayFromYear y + monthStart (isLeap y) m + dt - 1.
Proof.
  intros Hm. unfold MakeDay.
  rewrite (Z.div_small m 12), (Z.mod_small m 12), Z.add_0_r by lia.
  reflexivity.
Qed.

(** The three calendar fields of a day number determine it. *)
Lemma MakeDay_fields d :
  MakeDay (YearFromDay d) (MonthFromDay d) (DateFromDay d) = d.
Proof.
  rewrite MakeDay_small by apply MonthFromDay_range.
  unfold DateFromDay, DayWithinYear. lia.
Qed.

Lemma MakeDay_date y m dt n : MakeDay y m (dt + n) = MakeDay y m dt + n.
Proof. unfold MakeDay. lia. Qed.

Lemma monthStart_step leap m :
  0 <= m < 11 -> 28 <= monthStart leap (m + 1) - monthStart leap m.
Proof.
  intros Hm.
  assert (Hc : m = 0 \/ m = 1 \/ m = 2 \/ m = 3 \/ m = 4 \/ m = 5 \/ m = 6
               \/ m = 7 \/ m = 8 \/ m = 9 \/ m = 10) by lia.
  destruct leap;
    repeat (destruct Hc as [-> | Hc]; [cbn; lia|]); subst; cbn; lia.
Qed.

(** One month later is at least 28 days later. *)
Lemma MakeDay_month_succ y m dt : MakeDay y m dt + 28 <= MakeDay y (m + 1) dt.
Proof.
  unfold MakeDay.
  assert (Hr : 0 <= m mod 12 < 12) by (apply Z.mod_pos_bound; lia).
  destruct (Z.eq_dec (m mod 12) 11) as [E | E].
  - assert (Hq : (m + 1) / 12 = m / 12 + 1) by (Z.div_mod_to_equations; lia).
    assert (Hm : (m + 1) mod 12 = 0) by (Z.div_mod_to_equations; lia).
    rewrite Hq, Hm, E, Z.add_assoc, DayFromYear_succ.
    unfold DaysInYear. destruct (isLeap (y + m / 12)); cbn; lia.
  - assert (Hq : (m + 1) / 12 = m / 12) by (Z.div_mod_to_equations; lia).
    assert (Hm : (m + 1) mod 12 = m mod 12 + 1)
      by (Z.div_mod_to_equations; lia).
    rewrite Hq, Hm.
    pose proof (monthStart_step (isLeap (y + m / 12)) (m mod 12)). lia.
Qed.

Lemma MakeDay_month_add y m dt n :
  0 <= n -> MakeDay y m dt + 28 * n <= MakeDay y (m + n) dt.
Proof.
  intros Hn. revert n Hn. apply natlike_ind.
  - replace (m + 0) with m by lia. lia.
  - intros n Hn IH.
    replace (m + Z.succ n) with (m + n + 1) by lia.
    pose proof (MakeDay_month_succ y (m + n) dt). lia.
Qed.

Lemma MakeDay_year_add y m dt n :
  MakeDay (y + n) m dt = MakeDay y (m + 12 * n) dt.
Proof.
  unfold MakeDay.
  replace (m + 12 * n) with (m + n * 12) by lia.
  rewrite Z.div_add, Z.mod_add by lia.
  replace (y + n + m / 12) with (y + (m / 12 + n)) by lia. reflexivity.
Qed.

Lemma MakeDate_Day_TimeWithinDay t n :
  MakeDate (Day t + n) (TimeWithinDay t) = t + n * msPerDay.
Proof.
  unfold MakeDate, Day, TimeWithinDay, msPerDay.
  Z.div_mod_to_equations. lia.
Qed.

Lemma TimeClip_At t u : TimeClip t = At u -> u = t.
Proof.
  unfold TimeClip. destruct (Z.abs t <=? maxTime); congruence.
Qed.

Section Setters.

Variable tza : Z.

(** [setDate(getDate() + n)] moves the time value by [n] days. *)
Lemma setDate_getDate t n u :
  setDate tza t (getDate tza t + n) = At u -> u = t + n * msPerDay.
Proof.
  unfold setDate, getDate, YearFromTime, MonthFromTime, DateFromTime.
  intros H. apply TimeClip_At in H. subst u.
  rewrite MakeDay_date, MakeDay_fields, MakeDate_Day_TimeWithinDay.
  unfold UTC, LocalTime. lia.
Qed.

(** [setMonth(getMonth() + n)] moves it by at least [28 n] days. *)
Lemma setMonth_getMonth t n u :
  0 <= n ->
  setMonth tza t (getMonth tza t + n) = At u -> t + 28 * n * msPerDay <= u.
Proof.
  unfold setMonth, getMonth, YearFromTime, MonthFromTime, DateFromTime.
  intros Hn H. apply TimeClip_At in H. subst u.
  set (l := LocalTime tza t).
  pose proof (MakeDay_month_add (YearFromDay (Day l)) (MonthFromDay (Day l))
                                (DateFromDay (Day l)) n Hn) as Hm.
  rewrite MakeDay_fields in Hm.
  pose proof (MakeDate_Day_TimeWithinDay l 0) as Hd.
  unfold MakeDate in *. unfold UTC. unfold LocalTime in l.
  unfold msPerDay in *. nia.
Qed.

(** [setFullYear(getFullYear() + n)] moves it by at least [336 n] days. *)
Lemma setFullYear_getFullYear t n u :
  0 <= n ->
  setFullYear tza t (getFullYear tza t + n) = At u ->
  t + 336 * n * msPerDay <= u.
Proof.
  unfold setFullYear, getFullYear, YearFromTime, MonthFromTime, DateFromTime.
  intros Hn H. apply TimeClip_At in H. subst u.
  set (l := LocalTime tza t).
  rewrite MakeDay_year_add.
  pose proof (MakeDay_month_add (YearFromDay (Day l)) (MonthFromDay (Day l))
                                (DateFromDay (Day l)) (12 * n)) as Hm.
  rewrite MakeDay_fields in Hm.
  pose proof (MakeDate_Day_TimeWithinDay l 0) as Hd.
  unfold MakeDate in *. unfold UTC. unfold LocalTime in l.
  unfold msPerDay in *. nia.
Qed.

End Setters.

End JSDateFacts.

(* ================================================================== *)
(** * The loop of one template *)
(* ================================================================== *)

Section LoopFacts.

Import JSDate JSDateFacts.

Variable tza : Z.
Variable uuid : nat -> string.

(** A recognised rule with a positive interval moves the candidate by at
    least one day. *)
Lemma calculateNextDueDate_advances (template : ExpenseData) t u :
  0 < intervalOf template ->
  calculateNextDueDate tza template (At t) = Some (At u) ->
  t + msPerDay <= u.
Proof.
  intros Hpos. unfold calculateNextDueDate.
  destruct (frequency template) as [[|]|]; try discriminate.
  destruct (recurrence template) as [[| | | |]|]; try discriminate;
    intros H.
  - assert (H' : setDate tza t (getDate tza t + intervalOf template) = At u)
      by congruence.
    apply setDate_getDate in H'. unfold msPerDay in *. nia.
  - assert (H' : setDate tza t (getDate tza t + 7 * intervalOf template)
                 = At u) by congruence.
    apply setDate_getDate in H'. unfold msPerDay in *. nia.
  - assert (H' : setMonth tza t (getMonth tza t + intervalOf template) = At u)
      by congruence.
    apply setMonth_getMonth in H'; [|lia]. unfold msPerDay in *. nia.
  - assert (H' : setFullYear tza t (getFullYear tza t + intervalOf template)
                 = At u) by congruence.
    apply setFullYear_getFullYear in H'; [|lia]. unfold msPerDay in *. nia.
Qed.

Section OneTemplate.

Variable template : Expense.
Variable expenses : list Expense.
Variable today : Z.

Lemma genLoop_not_due fuel nextDue upd st :
  due nextDue today = false ->
  genLoop tza uuid fuel template expenses today nextDue upd st = Some (upd, st).
Proof.
  unfold due. destruct fuel, nextDue as [[|t]|]; cbn; intros H;
    try rewrite H; reflexivity.
Qed.

(** Loop-invariant rule: a property kept by every completed iteration
    holds when the loop stops, and the loop stops at a candidate that is
    not due or on which a [break] fires. *)
Lemma genLoop_invariant (P : option Date -> Expense -> GenState -> Prop) :
  (forall t upd st,
      P (Some (At t)) upd st -> t <= today ->
      dateBreak template t = false ->
      countBreak template (totalGenerated template expenses st) = false ->
      P (calculateNextDueDate tza template (At t))
        (advanceCursor upd (toYYYYMMDD t))
        (materialize uuid template expenses st (toYYYYMMDD t))) ->
  forall fuel nextDue upd st upd' st',
    P nextDue upd st ->
    genLoop tza uuid fuel template expenses today nextDue upd st
    = Some (upd', st') ->
    exists nextDue',
      P nextDue' upd' st' /\ stopsAt template expenses today nextDue' st'
      /\ (due nextDue' today = true -> fuel <> O).
Proof.
  intros Hstep. induction fuel as [|fuel IH]; intros nextDue upd st upd' st' HP.
  - destruct nextDue as [[|t]|]; cbn.
    + intros [= <- <-]. exists (Some Invalid).
      repeat split; [assumption | discriminate].
    + destruct (Z.leb_spec t today); [discriminate|].
      intros [= <- <-]. exists (Some (At t)). split; [assumption|]. split.
      * cbn. lia.
      * cbn. intros H'. apply Z.leb_le in H'. lia.
    + intros [= <- <-]. exists None.
      repeat split; [assumption | discriminate].
  - destruct nextDue as [[|t]|]; cbn.
    + intros [= <- <-]. exists (Some Invalid).
      repeat split; [assumption | discriminate].
    + destruct (Z.leb_spec t today) as [Hle|Hgt].
      * destruct (dateBreak template t) eqn:Hd.
        { intros [= <- <-]. exists (Some (At t)). split; [assumption|].
          split; [|discriminate]. cbn. rewrite Hd. auto. }
        destruct (countBreak template (totalGenerated template expenses st))
          eqn:Hc.
        { intros [= <- <-]. exists (Some (At t)). split; [assumption|].
          split; [|discriminate]. cbn. rewrite Hc. auto. }
        intros Hrun.
        destruct (IH _ _ _ _ _ (Hstep _ _ _ HP Hle Hd Hc) Hrun)
          as (n' & HP' & Hstop & _).
        exists n'. repeat split; try assumption. discriminate.
      * intros [= <- <-]. exists (Some (At t)). split; [assumption|].
        split; [|discriminate]. cbn. lia.
    + intros [= <- <-]. exists None.
      repeat split; [assumption | discriminate].
Qed.

(** The loop needs at most one iteration per day up to [today]. *)
Lemma genLoop_enough_fuel :
  0 < intervalOf template ->
  forall fuel nextDue upd st,
    (fuelFor today nextDue <= fuel)%nat ->
    genLoop tza uuid fuel template expenses today nextDue upd st <> None.
Proof.
  intros Hpos. induction fuel as [|fuel IH]; intros nextDue upd st Hf.
  - destruct nextDue as [[|t]|]; cbn; try discriminate.
    destruct (Z.leb_spec t today); [|discriminate].
    exfalso. unfold fuelFor, msPerDay in Hf.
    assert (0 <= (today - t) / 86400000) by (apply Z.div_pos; lia). lia.
  - destruct nextDue as [[|t]|]; cbn; try discriminate.
    destruct (Z.leb_spec t today) as [Hle|Hgt]; [|discriminate].
    destruct (dateBreak template t); [discriminate|].
    destruct (countBreak template (totalGenerated template expenses st));
      [discriminate|].
    apply IH.
    destruct (calculateNextDueDate tza template (At t)) as [[|u]|] eqn:Hn;
      try (unfold fuelFor; lia).
    apply calculateNextDueDate_advances in Hn; [|assumption].
    unfold fuelFor, msPerDay in *.
    destruct (Z.leb_spec u today).
    + assert ((today - u) / 86400000 + 1 <= (today - t) / 86400000)
        by (Z.div_mod_to_equations; lia).
      assert (0 <= (today - u) / 86400000) by (apply Z.div_pos; lia).
      lia.
    + assert ((today - u) / 86400000 < 0) by (Z.div_mod_to_equations; lia).
      lia.
Qed.

End OneTemplate.

End LoopFacts.

(* ================================================================== *)
(** * One run of the generation effect *)
(* ================================================================== *)

Section RunFacts.

Import JSDate JSDateFacts.

Variable tza : Z.
Variable uuid : nat -> string.

Lemma extends_refl template today st : extends uuid template today st st.
Proof.
  repeat split. exists []. cbn. rewrite app_nil_r, Nat.add_0_r.
  repeat split. constructor.
Qed.

Lemma materialize_extends template expenses today st0 st t :
  extends uuid template today st0 st ->
  t <= today -> dateBreak template t = false ->
  extends uuid template today st0
          (materialize uuid template expenses st (toYYYYMMDD t)).
Proof.
  intros (Hu & Hw & added & Hn & Hc & Hi & Hg) Ht Hd. unfold materialize.
  destruct (instanceExists template expenses st (toYYYYMMDD t)).
  - repeat split; try assumption. exists added. repeat split; assumption.
  - cbn. repeat split; try assumption.
    exists (added ++ [instanceOf template (uuid (uuidCalls st)) (toYYYYMMDD t)]).
    rewrite Hn, <- app_assoc, length_app, map_app, seq_app, map_app, Hi, Hc.
    cbn. repeat split.
    + lia.
    + apply Forall_app. split; [assumption|].
      constructor; [|constructor]. exists t. repeat split; assumption.
Qed.

(** The loop only queues instances of its template and moves the cursor of
    [updatedTemplate]. *)
Lemma genLoop_extends template expenses today fuel nextDue upd st upd' st' :
  genLoop tza uuid fuel template expenses today nextDue upd st
  = Some (upd', st') ->
  extends uuid template today st st'
  /\ (upd' = upd \/ exists t, t <= today /\ upd' = advanceCursor upd (toYYYYMMDD t)).
Proof.
  intros Hrun.
  destruct (genLoop_invariant tza uuid template expenses today
              (fun _ u s =>
                 extends uuid template today st s
                 /\ (u = upd \/ exists t, t <= today
                                          /\ u = advanceCursor upd (toYYYYMMDD t)))
              ) with (fuel := fuel) (nextDue := nextDue) (upd := upd)
                     (st := st) (upd' := upd') (st' := st')
    as (n' & HP & _).
  - intros t u s [He Hu] Ht Hd _. split.
    + apply materialize_extends; assumption.
    + right. exists t. split; [assumption|].
      destruct Hu as [-> | (t0 & _ & ->)]; reflexivity.
  - split; [apply extends_refl | left; reflexivity].
  - exact Hrun.
  - exact HP.
Qed.

(** The two outcomes of the body of [forEach]. *)
Lemma processTemplate_cases fuel expenses today st template st' :
  processTemplate tza uuid fuel expenses today st template = Some st' ->
  (truthyStr (date template) = false
   /\ st' = mkGen (newExpenses st) (templatesToUpdate st)
                  (warnings st ++ [template]) (uuidCalls st))
  \/ (truthyStr (date template) = true
      /\ exists upd st1,
           genLoop tza uuid fuel template expenses today
                   (firstCandidate tza template) template st
           = Some (upd, st1)
           /\ ((st' = st1
                /\ (truthyStr (lastGeneratedDate upd) = false
                    \/ lastGeneratedDate upd = lastGeneratedDate template))
               \/ (truthyStr (lastGeneratedDate upd) = true
                   /\ lastGeneratedDate upd <> lastGeneratedDate template
                   /\ st' = mkGen (newExpenses st1)
                                  (templatesToUpdate st1 ++ [upd])
                                  (warnings st1) (uuidCalls st1)))).
Proof.
  unfold processTemplate.
  destruct (truthyStr (date template)) eqn:Hd; cbn [negb].
  - intros H. right. split; [reflexivity|].
    destruct (genLoop tza uuid fuel template expenses today
                      (firstCandidate tza template) template st)
      as [[upd st1]|] eqn:Hrun; [|discriminate].
    exists upd, st1. split; [reflexivity|].
    destruct (truthyStr (lastGeneratedDate upd)) eqn:Htr; cbn in H.
    + destruct (optStr_eqb (lastGeneratedDate upd) (lastGeneratedDate template))
        eqn:He; cbn in H; injection H as <-.
      * left. split; [reflexivity|]. right.
        destruct (lastGeneratedDate upd), (lastGeneratedDate template);
          cbn in He; try discriminate.
        apply String.eqb_eq in He. congruence.
      * right. repeat split. intros Heq. rewrite Heq in He.
        destruct (lastGeneratedDate template); cbn in He; [|discriminate].
        rewrite String.eqb_refl in He. discriminate.
    + injection H as <-. left. split; [reflexivity|]. left. reflexivity.
  - intros [= <-]. left. split; reflexivity.
Qed.

(** What one template contributes to the run: queued instances of that
    template, at most one updated template (itself, cursor advanced), at
    most one diagnostic. *)
Lemma processTemplate_effect fuel expenses today st template st' :
  processTemplate tza uuid fuel expenses today st template = Some st' ->
  exists added,
    newExpenses st' = newExpenses st ++ added
    /\ uuidCalls st' = (uuidCalls st + List.length added)%nat
    /\ map id added = map uuid (seq (uuidCalls st) (List.length added))
    /\ Forall (generatedBy template today) added
    /\ (truthyStr (date template) = false -> added = []).
Proof.
  intros H. apply processTemplate_cases in H.
  destruct H as [[Hd ->] | (Hd & upd & st1 & Hrun & Hst)].
  - exists []. cbn. rewrite app_nil_r, Nat.add_0_r. repeat split. constructor.
  - apply genLoop_extends in Hrun. destruct Hrun as [(_ & _ & added & H) _].
    exists added.
    assert (Hn : newExpenses st' = newExpenses st1
                 /\ uuidCalls st' = uuidCalls st1)
      by (destruct Hst as [[-> _] | (_ & _ & ->)]; split; reflexivity).
    destruct Hn as [-> ->]. destruct H as (? & ? & ? & ?).
    repeat split; try assumption. congruence.
Qed.

(** Invariant rule for the whole run. *)
Lemma forEachTemplate_invariant (Q : GenState -> Prop) fuel expenses today :
  forall templates st st',
    (forall template s s',
        In template templates -> Q s ->
        processTemplate tza uuid fuel expenses today s template = Some s' ->
        Q s') ->
    Q st ->
    forEachTemplate tza uuid fuel expenses today templates st = Some st' ->
    Q st'.
Proof.
  induction templates as [|template rest IH]; intros st st' Hstep HQ; cbn.
  - intros [= <-]. assumption.
  - destruct (processTemplate tza uuid fuel expenses today st template)
      as [s1|] eqn:Hp; [|discriminate].
    apply IH.
    + intros t s s' Hin. apply Hstep. right. assumption.
    + eapply Hstep; [left; reflexivity | exact HQ | exact Hp].
Qed.

(** The queue of a run: instances of templates of the list, carrying the
    next UUIDs in order. *)
Lemma generate_newExpenses fuel calls templates expenses today st :
  generate tza uuid fuel calls templates expenses today = Some st ->
  uuidCalls st = (calls + List.length (newExpenses st))%nat
  /\ map id (newExpenses st) = map uuid (seq calls (List.length (newExpenses st)))
  /\ Forall (fun e => exists template, In template templates
                                       /\ generatedBy template today e)
            (newExpenses st).
Proof.
  unfold generate.
  apply (forEachTemplate_invariant
           (fun s => uuidCalls s = (calls + List.length (newExpenses s))%nat
                     /\ map id (newExpenses s)
                        = map uuid (seq calls (List.length (newExpenses s)))
                     /\ Forall (fun e => exists template,
                                    In template templates
                                    /\ generatedBy template today e)
                               (newExpenses s))).
  - intros template s s' Hin (Hc & Hi & Hg) Hp.
    apply processTemplate_effect in Hp.
    destruct Hp as (added & -> & -> & Hia & Hga & _).
    rewrite length_app, map_app, seq_app, map_app, Hi, Hia, Hc.
    repeat split.
    + lia.
    + apply Forall_app. split; [assumption|].
      eapply Forall_impl; [|exact Hga]. intros e He. exists template. auto.
  - cbn. rewrite Nat.add_0_r. repeat split. constructor.
Qed.

End RunFacts.

(* ================================================================== *)
(** * Templates without a start date *)
(* ================================================================== *)

Section MissingDate.

Import JSDate.

Variable tza : Z.
Variable uuid : nat -> string.

Lemma materialize_sameDelta template expenses a b s :
  sameDelta a b ->
  sameDelta (materialize uuid template expenses a s)
            (materialize uuid template expenses b s)
  /\ warnings (materialize uuid template expenses a s) = warnings a
  /\ warnings (materialize uuid template expenses b s) = warnings b.
Proof.
  intros (Hn & Hu & Hc). unfold materialize, instanceExists.
  rewrite Hn.
  destruct (existsb (isInstanceAt (id template) s) expenses
            || existsb (isInstanceAt (id template) s) (newExpenses b)).
  - repeat split; assumption.
  - unfold sameDelta. cbn. rewrite Hc. repeat split. assumption.
Qed.

(** The loop neither reads nor writes the diagnostics. *)
Lemma genLoop_sameDelta template expenses today :
  forall fuel nextDue upd a b,
    sameDelta a b ->
    agree (fun x y => fst x = fst y /\ sameDelta (snd x) (snd y)
                      /\ warnings (snd x) = warnings a
                      /\ warnings (snd y) = warnings b)
          (genLoop tza uuid fuel template expenses today nextDue upd a)
          (genLoop tza uuid fuel template expenses today nextDue upd b).
Proof.
  assert (Hdone : forall (upd : Expense) (a b : GenState), sameDelta a b ->
             fst (upd, a) = fst (upd, b)
             /\ sameDelta (snd (upd, a)) (snd (upd, b))
             /\ warnings (snd (upd, a)) = warnings a
             /\ warnings (snd (upd, b)) = warnings b)
    by (intros; cbn; auto).
  induction fuel as [|fuel IH]; intros nextDue upd a b Hs.
  - destruct nextDue as [[|t]|]; cbn [genLoop agree]; auto.
    destruct (t <=? today); cbn [agree]; auto.
  - destruct nextDue as [[|t]|]; cbn [genLoop agree]; auto.
    destruct (t <=? today); cbn [agree]; auto.
    destruct (dateBreak template t); cbn [agree]; auto.
    assert (Ht : totalGenerated template expenses a
                 = totalGenerated template expenses b)
      by (unfold totalGenerated; destruct Hs as (-> & _); reflexivity).
    rewrite Ht.
    destruct (countBreak template (totalGenerated template expenses b));
      cbn [agree]; auto.
    destruct (materialize_sameDelta template expenses a b (toYYYYMMDD t) Hs)
      as (Hm & Hwa & Hwb).
    specialize (IH (calculateNextDueDate tza template (At t))
                   (advanceCursor upd (toYYYYMMDD t)) _ _ Hm).
    rewrite Hwa, Hwb in IH. exact IH.
Qed.

Lemma processTemplate_oneMoreWarning skipped fuel expenses today a b template :
  oneMoreWarning skipped a b ->
  agree (oneMoreWarning skipped)
        (processTemplate tza uuid fuel expenses today a template)
        (processTemplate tza uuid fuel expenses today b template).
Proof.
  intros (Hs & w1 & w2 & Ha & Hb). unfold processTemplate.
  destruct (truthyStr (date template)); cbn [negb].
  - pose proof (genLoop_sameDelta template expenses today fuel
                  (firstCandidate tza template) template a b Hs) as Hl.
    destruct (genLoop tza uuid fuel template expenses today
                      (firstCandidate tza template) template a)
      as [[u1 a']|];
      destruct (genLoop tza uuid fuel template expenses today
                        (firstCandidate tza template) template b)
      as [[u2 b']|]; cbn in Hl; try contradiction; [|exact I].
    destruct Hl as (Hu & (Hn & Ht & Hc) & Hwa & Hwb). subst u2.
    destruct (truthyStr (lastGeneratedDate u1)
              && negb (optStr_eqb (lastGeneratedDate u1)
                                  (lastGeneratedDate template))); cbn.
    + split.
      * unfold sameDelta. cbn. rewrite Ht. repeat split; assumption.
      * exists w1, w2. cbn. split; congruence.
    + split; [repeat split; assumption|].
      exists w1, w2. split; congruence.
  - cbn. split.
    + destruct Hs as (? & ? & ?). repeat split; assumption.
    + exists w1, (w2 ++ [template]). cbn. rewrite Ha, Hb, <- !app_assoc.
      split; reflexivity.
Qed.

Lemma forEachTemplate_oneMoreWarning skipped fuel expenses today :
  forall templates a b,
    oneMoreWarning skipped a b ->
    agree (oneMoreWarning skipped)
          (forEachTemplate tza uuid fuel expenses today templates a)
          (forEachTemplate tza uuid fuel expenses today templates b).
Proof.
  induction templates as [|template rest IH]; intros a b H; cbn.
  - exact H.
  - pose proof (processTemplate_oneMoreWarning skipped fuel expenses today
                  a b template H) as Hp.
    destruct (processTemplate tza uuid fuel expenses today a template);
      destruct (processTemplate tza uuid fuel expenses today b template);
      cbn in Hp; try contradiction; [|exact I].
    apply IH. exact Hp.
Qed.

Lemma forEachTemplate_app fuel expenses today :
  forall pre post st,
    forEachTemplate tza uuid fuel expenses today (pre ++ post) st
    = match forEachTemplate tza uuid fuel expenses today pre st with
      | Some st' => forEachTemplate tza uuid fuel expenses today post st'
      | None => None
      end.
Proof.
  induction pre as [|t pre IH]; intros post st; cbn; [reflexivity|].
  destruct (processTemplate tza uuid fuel expenses today st t);
    [apply IH | reflexivity].
Qed.

(** C9. A template without a start date is skipped: its turn in the run
    only adds a diagnostic, and the whole run over a list that contains it
    queues the same instances, updates the same templates and issues the
    same UUIDs as the run over the list without it (it also runs out of
    fuel or not at the same time); the diagnostics differ by the one entry
    for the skipped template. *)
Theorem missing_date_is_skipped (template : Expense) :
  truthyStr (date template) = false ->
  (forall fuel expenses today st,
      processTemplate tza uuid fuel expenses today st template
      = Some (mkGen (newExpenses st) (templatesToUpdate st)
                    (warnings st ++ [template]) (uuidCalls st)))
  /\ (forall fuel calls pre post expenses today,
         agree (oneMoreWarning template)
               (generate tza uuid fuel calls (pre ++ post) expenses today)
               (generate tza uuid fuel calls (pre ++ template :: post)
                         expenses today)).
Proof.
  intros Hd.
  assert (Hp : forall fuel expenses today st,
             processTemplate tza uuid fuel expenses today st template
             = Some (mkGen (newExpenses st) (templatesToUpdate st)
                           (warnings st ++ [template]) (uuidCalls st)))
    by (intros; unfold processTemplate; rewrite Hd; reflexivity).
  split; [exact Hp|].
  intros fuel calls pre post expenses today. unfold generate.
  rewrite !forEachTemplate_app.
  destruct (forEachTemplate tza uuid fuel expenses today pre
                            (mkGen [] [] [] calls)) as [st|]; [|exact I].
  cbn [forEachTemplate]. rewrite Hp.
  apply forEachTemplate_oneMoreWarning. split.
  - repeat split.
  - exists (warnings st), []. cbn. rewrite app_nil_r. split; reflexivity.
Qed.

End MissingDate.

Lemma missing_date_is_skipped_witness :
  truthyStr (date Scenario.noDate) = false
  /\ agree (oneMoreWarning Scenario.noDate)
           (generate Scenario.utc Scenario.uuidOf 10 0
                     ([Scenario.scenarioA] ++ []) []
                     (Scenario.midnight Scenario.utc "2024-01-04"))
           (generate Scenario.utc Scenario.uuidOf 10 0
                     ([Scenario.scenarioA] ++ Scenario.noDate :: []) []
                     (Scenario.midnight Scenario.utc "2024-01-04")).
Proof.
  split; [reflexivity|].
  apply (missing_date_is_skipped Scenario.utc Scenario.uuidOf Scenario.noDate).
  reflexivity.
Defined.

(* ================================================================== *)
(** * What a materialized instance carries *)
(* ================================================================== *)

Section Instances.

Import JSDate.

Variable tza : Z.
Variable uuid : nat -> string.

Lemma refers_iff tid (e : Expense) :
  refers tid e = true <-> recurringExpenseId e = Some tid.
Proof.
  unfold refers, optStr_eqb. destruct (recurringExpenseId e) as [r|].
  - rewrite String.eqb_eq. split; congruence.
  - split; discriminate.
Qed.

Lemma generatedBy_refers template today e tid :
  generatedBy template today e ->
  refers tid e = true -> id template = tid.
Proof.
  intros (t & _ & _ & He) Hr. apply refers_iff in Hr.
  rewrite He in Hr. cbn in Hr. congruence.
Qed.

(** The fields of a queued instance, as the object literal of the effect
    sets them. Every instance queued by a run is a copy of a template of
    the list in which the id is the next value of the UUID oracle, [date] is the date string of a due candidate, [frequency] is
    single, [recurringExpenseId] is the template's id and
    [lastGeneratedDate] is cleared. The other recurrence fields
    (recurrence, recurrenceInterval, recurrenceEndType, recurrenceEndDate,
    recurrenceCount) are those of the template, unchanged. *)
Theorem generated_instance_fields fuel calls templates expenses today st :
  generate tza uuid fuel calls templates expenses today = Some st ->
  map id (newExpenses st)
  = map uuid (seq calls (List.length (newExpenses st)))
  /\ Forall (fun e : Expense =>
               exists (template : Expense) (t : Z),
                 In template templates /\ t <= today
                 /\ date e = Some (toYYYYMMDD t)
                 /\ frequency e = Some Single
                 /\ recurringExpenseId e = Some (id template)
                 /\ lastGeneratedDate e = None
                 /\ recurrence e = recurrence template
                 /\ recurrenceInterval e = recurrenceInterval template
                 /\ recurrenceEndType e = recurrenceEndType template
                 /\ recurrenceEndDate e = recurrenceEndDate template
                 /\ recurrenceCount e = recurrenceCount template
                 /\ description e = description template
                 /\ amount e = amount template
                 /\ category e = category template
                 /\ accountId e = accountId template)
            (newExpenses st).
Proof.
  intros H. apply generate_newExpenses in H. destruct H as (_ & Hi & Hg).
  split; [exact Hi|].
  eapply Forall_impl; [|exact Hg].
  intros e (template & Hin & t & Ht & _ & He).
  exists template, t. rewrite He. cbn. repeat split; assumption.
Qed.

(** In a run over a list in which every template with id [tid] ends on
    the date [D], no queued instance that references [tid] has a date
    string greater than [D]. *)
Lemma generate_end_date_bound tid (D : string) fuel calls templates expenses
    today st :
  D <> "" ->
  (forall template : Expense,
      In template templates -> id template = tid ->
      recurrenceEndType template = Some EndDate
      /\ recurrenceEndDate template = Some D) ->
  generate tza uuid fuel calls templates expenses today = Some st ->
  Forall (fun e : Expense =>
            refers tid e = true ->
            exists s, date e = Some s /\ strGt s D = false)
         (newExpenses st).
Proof.
  intros Hset Hrule H.
  apply generate_newExpenses in H. destruct H as (_ & _ & Hg).
  eapply Forall_impl; [|exact Hg].
  intros e (template & Hin & Hgen) Hr.
  destruct (Hrule template Hin (generatedBy_refers _ _ _ _ Hgen Hr))
    as [Hty Hend].
  destruct Hgen as (t & _ & Hd & He).
  exists (toYYYYMMDD t). split; [rewrite He; reflexivity|].
  unfold dateBreak in Hd. rewrite Hty, Hend in Hd.
  apply String.eqb_neq in Hset. rewrite Hset in Hd. exact Hd.
Qed.

End Instances.


Lemma generated_instance_fields_witness :
  exists st,
    generate Scenario.utc Scenario.uuidOf 10 0 [Scenario.scenarioA] []
             (Scenario.midnight Scenario.utc "2024-01-04") = Some st
    /\ map id (newExpenses st)
       = map Scenario.uuidOf (seq 0 (List.length (newExpenses st))).
Proof.
  eexists. split; [vm_compute; reflexivity|].
  apply (generated_instance_fields Scenario.utc Scenario.uuidOf 10 0
           [Scenario.scenarioA] []
           (Scenario.midnight Scenario.utc "2024-01-04")).
  vm_compute. reflexivity.
Defined.

(** C2, at scenario A. The instances of scenario A keep the recurrence
    unit and interval of their template: their recurrence fields are not
    cleared, unlike those of the single expense that the convert branch of
    [handleFormSubmit] builds. *)
Lemma instances_keep_recurrence_fields :
  exists st,
    generate Scenario.utc Scenario.uuidOf 10 0 [Scenario.scenarioA] []
             (Scenario.midnight Scenario.utc "2024-01-04") = Some st
    /\ exists e : Expense,
         In e (newExpenses st)
         /\ recurrence e = Some Daily /\ recurrenceInterval e = Some 1
         /\ ~ recurrenceCleared e.
Proof.
  eexists. split; [vm_compute; reflexivity|].
  eexists. split; [left; reflexivity|].
  split; [reflexivity|]. split; [reflexivity|].
  intros (H & _). discriminate H.
Qed.

(* ================================================================== *)
(** * Bounded number of occurrences *)
(* ================================================================== *)

Section CountBound.

Import JSDate.

Variable tza : Z.
Variable uuid : nat -> string.

Lemma countRefs_app tid a b :
  countRefs tid (a ++ b) = countRefs tid a + countRefs tid b.
Proof.
  unfold countRefs. rewrite filter_app, length_app. lia.
Qed.

Lemma countRefs_nonneg tid l : 0 <= countRefs tid l.
Proof. unfold countRefs. lia. Qed.

Lemma applyExpenses_app st prev : applyExpenses st prev = newExpenses st ++ prev.
Proof. unfold applyExpenses. destruct (newExpenses st); reflexivity. Qed.

Lemma refers_instanceOf tid (template : Expense) newId s :
  refers tid (instanceOf template newId s) = String.eqb (id template) tid.
Proof. reflexivity. Qed.

(** Instances of another template do not count for [tid]. *)
Lemma countRefs_other tid (template : Expense) today added :
  id template <> tid ->
  Forall (generatedBy template today) added ->
  countRefs tid added = 0.
Proof.
  intros Hne Hg. unfold countRefs.
  replace (filter (refers tid) added) with (@nil Expense); [reflexivity|].
  symmetry. induction Hg as [|e l He _ IH]; [reflexivity|].
  cbn. destruct (refers tid e) eqn:Hr; [|exact IH].
  exfalso. apply Hne. eapply generatedBy_refers; eassumption.
Qed.

Lemma totalGenerated_materialize (template : Expense) expenses st s :
  totalGenerated template expenses (materialize uuid template expenses st s)
  <= totalGenerated template expenses st + 1.
Proof.
  unfold materialize, totalGenerated.
  destruct (instanceExists template expenses st s); [lia|].
  cbn. rewrite countRefs_app. unfold countRefs at 3. cbn.
  rewrite String.eqb_refl. cbn. lia.
Qed.

(** The loop of a count-limited template never takes the total above the
    limit (or above what it was on entry). *)
Lemma genLoop_count (template : Expense) expenses today N fuel nextDue upd st
    upd' st' :
  recurrenceEndType template = Some EndCount ->
  recurrenceCount template = Some N ->
  N <> 0 ->
  genLoop tza uuid fuel template expenses today nextDue upd st
  = Some (upd', st') ->
  totalGenerated template expenses st'
  <= Z.max N (totalGenerated template expenses st).
Proof.
  intros Hty Hn Hnz Hrun.
  destruct (genLoop_invariant tza uuid template expenses today
              (fun _ _ s => totalGenerated template expenses s
                            <= Z.max N (totalGenerated template expenses st)))
    with (fuel := fuel) (nextDue := nextDue) (upd := upd) (st := st)
         (upd' := upd') (st' := st') as (n' & HP & _).
  - intros t u s HP _ _ Hc.
    unfold countBreak in Hc. rewrite Hty, Hn in Hc.
    apply Z.eqb_neq in Hnz. rewrite Hnz in Hc. cbn in Hc.
    apply Z.leb_gt in Hc.
    pose proof (totalGenerated_materialize template expenses s (toYYYYMMDD t)).
    lia.
  - lia.
  - exact Hrun.
  - exact HP.
Qed.

(** One template's turn keeps the bound for the id [tid], provided the
    template, if it has that id, is limited to [N] occurrences. *)
Lemma processTemplate_count tid N fuel expenses today st (template : Expense)
    st' :
  N <> 0 ->
  (id template = tid ->
   recurrenceEndType template = Some EndCount
   /\ recurrenceCount template = Some N) ->
  processTemplate tza uuid fuel expenses today st template = Some st' ->
  countRefs tid (newExpenses st' ++ expenses)
  <= Z.max N (countRefs tid (newExpenses st ++ expenses)).
Proof.
  intros Hnz Hrule Hp. rewrite !countRefs_app.
  destruct (String.eqb_spec (id template) tid) as [Heq | Hne].
  - destruct (Hrule Heq) as [Hty Hn].
    apply processTemplate_cases in Hp.
    destruct Hp as [[_ ->] | (_ & upd & st1 & Hrun & Hst)]; [cbn; lia|].
    apply (genLoop_count _ _ _ N) in Hrun; try assumption.
    unfold totalGenerated in Hrun. rewrite Heq in Hrun.
    assert (Hn' : newExpenses st' = newExpenses st1)
      by (destruct Hst as [[-> _] | (_ & _ & ->)]; reflexivity).
    rewrite Hn'. lia.
  - apply processTemplate_effect in Hp.
    destruct Hp as (added & -> & _ & _ & Hg & _).
    rewrite countRefs_app, (countRefs_other tid template today added Hne Hg).
    lia.
Qed.

Lemma generate_count tid N fuel calls templates expenses today st :
  N <> 0 ->
  (forall template : Expense,
      In template templates -> id template = tid ->
      recurrenceEndType template = Some EndCount
      /\ recurrenceCount template = Some N) ->
  generate tza uuid fuel calls templates expenses today = Some st ->
  countRefs tid (applyExpenses st expenses) <= Z.max N (countRefs tid expenses).
Proof.
  intros Hnz Hrule. rewrite applyExpenses_app. unfold generate.
  apply (forEachTemplate_invariant tza uuid
           (fun s => countRefs tid (newExpenses s ++ expenses)
                     <= Z.max N (countRefs tid expenses))).
  - intros template s s' Hin HQ Hp.
    apply (processTemplate_count tid N) in Hp; [lia | assumption |].
    apply Hrule. assumption.
  - cbn. lia.
Qed.

End CountBound.

(* ================================================================== *)
(** * Updated templates *)
(* ================================================================== *)

Section Cursor.

Import JSDate.

Variable tza : Z.
Variable uuid : nat -> string.

Lemma instanceExists_materialize (template : Expense) expenses st s :
  instanceExists template expenses
                 (materialize uuid template expenses st s) s = true.
Proof.
  unfold materialize.
  destruct (instanceExists template expenses st s) eqn:He; [exact He|].
  unfold instanceExists. cbn. rewrite existsb_app. cbn.
  unfold isInstanceAt at 3. rewrite refers_instanceOf. cbn.
  rewrite !String.eqb_refl. cbn. rewrite !orb_true_r. reflexivity.
Qed.

Lemma instanceExists_app (template : Expense) expenses st s :
  instanceExists template expenses st s
  = existsb (isInstanceAt (id template) s) (newExpenses st ++ expenses).
Proof. unfold instanceExists. rewrite existsb_app. apply orb_comm. Qed.

(** When the loop moved the cursor, the cursor is the date string of a
    due candidate for which an instance is stored or queued. *)
Lemma genLoop_cursor (template : Expense) expenses today fuel nextDue upd st
    upd' st' :
  genLoop tza uuid fuel template expenses today nextDue upd st
  = Some (upd', st') ->
  upd' = upd
  \/ exists t, t <= today /\ upd' = advanceCursor upd (toYYYYMMDD t)
               /\ instanceExists template expenses st' (toYYYYMMDD t) = true.
Proof.
  intros Hrun.
  destruct (genLoop_invariant tza uuid template expenses today
              (fun _ u s =>
                 u = upd
                 \/ exists t, t <= today
                              /\ u = advanceCursor upd (toYYYYMMDD t)
                              /\ instanceExists template expenses s
                                                (toYYYYMMDD t) = true))
    with (fuel := fuel) (nextDue := nextDue) (upd := upd) (st := st)
         (upd' := upd') (st' := st') as (n' & HP & _).
  - intros t u s Hu Ht _ _. right. exists t. split; [assumption|]. split.
    + destruct Hu as [-> | (t0 & _ & -> & _)]; reflexivity.
    + apply instanceExists_materialize.
  - left. reflexivity.
  - exact Hrun.
  - exact HP.
Qed.

(** The updated templates of a run: templates of the list with their
    cursor moved to the date of one of their instances. *)
Lemma generate_templatesToUpdate fuel calls templates expenses today st :
  generate tza uuid fuel calls templates expenses today = Some st ->
  Forall (fun u => exists template,
              In template templates
              /\ advancedTo (applyExpenses st expenses) template u)
         (templatesToUpdate st).
Proof.
  rewrite applyExpenses_app. unfold generate.
  apply (forEachTemplate_invariant tza uuid
           (fun s => Forall (fun u => exists template,
                                 In template templates
                                 /\ advancedTo (newExpenses s ++ expenses)
                                               template u)
                            (templatesToUpdate s))).
  - intros template s s' Hin HQ Hp.
    apply processTemplate_cases in Hp.
    destruct Hp as [[_ ->] | (_ & upd & st1 & Hrun & Hst)]; [exact HQ|].
    pose proof (genLoop_extends _ _ _ _ _ _ _ _ _ _ _ Hrun)
      as [(Hu & _ & added & Hn & _) _].
    assert (HQ1 : Forall (fun u => exists template0,
                              In template0 templates
                              /\ advancedTo (newExpenses st1 ++ expenses)
                                            template0 u)
                         (templatesToUpdate st1)).
    { rewrite Hu, Hn. eapply Forall_impl; [|exact HQ].
      intros u (t0 & Hin0 & d & Hd & He). exists t0. split; [assumption|].
      exists d. split; [assumption|].
      rewrite existsb_app in *. rewrite existsb_app.
      destruct (existsb (isInstanceAt (id t0) d) (newExpenses s));
        cbn in *; [reflexivity|]. rewrite He. apply orb_true_r. }
    destruct Hst as [[-> _] | (_ & Hne & ->)]; [exact HQ1|].
    cbn. apply Forall_app. split; [exact HQ1|].
    constructor; [|constructor].
    exists template. split; [assumption|].
    apply genLoop_cursor in Hrun.
    destruct Hrun as [-> | (t & _ & -> & He)]; [contradiction|].
    exists (toYYYYMMDD t). split; [reflexivity|].
    rewrite <- instanceExists_app. exact He.
  - constructor.
Qed.

Lemma applyTemplates_In st prev t' :
  In t' (applyTemplates st prev) ->
  In t' prev
  \/ (In t' (templatesToUpdate st)
      /\ exists t, In t prev /\ id t' = id t).
Proof.
  unfold applyTemplates. destruct (templatesToUpdate st) as [|u us] eqn:Hu.
  - auto.
  - rewrite <- Hu. intros Hin. apply in_map_iff in Hin.
    destruct Hin as (t & Ht & Hin).
    destruct (find (fun ut => String.eqb (id ut) (id t)) (templatesToUpdate st))
      as [ut|] eqn:Hf.
    + subst t'. apply find_some in Hf. destruct Hf as [Hin' He].
      apply String.eqb_eq in He. right. split; [assumption|].
      exists t. auto.
    + subst t'. left. assumption.
Qed.

(** The state setters keep the id and the rule of every template. *)
Lemma applyTemplates_rule fuel calls templates expenses today st (t' : Expense) :
  generate tza uuid fuel calls templates expenses today = Some st ->
  In t' (applyTemplates st templates) ->
  exists t : Expense,
    In t templates /\ id t' = id t
    /\ recurrenceEndType t' = recurrenceEndType t
    /\ recurrenceEndDate t' = recurrenceEndDate t
    /\ recurrenceCount t' = recurrenceCount t.
Proof.
  intros Hg Hin. apply applyTemplates_In in Hin.
  destruct Hin as [Hin | [Hin _]].
  - exists t'. repeat split. assumption.
  - pose proof (generate_templatesToUpdate _ _ _ _ _ _ Hg) as Hu.
    rewrite Forall_forall in Hu.
    destruct (Hu t' Hin) as (template & Hint & d & -> & _).
    exists template. repeat split. assumption.
Qed.

End Cursor.

Section Passes.

Import JSDate.

Variable tza : Z.
Variable uuid : nat -> string.

(** C3 (as the code has it). For a limit [N] of at least 1: when every
    template with id [tid] ends by count with [recurrenceCount = N], the
    count [break] fires as soon as [N] instances reference [tid], and
    after any number of successive runs the number of expenses that
    reference [tid] is at most [N] (or what it was before the runs, if
    that was already more). *)
Theorem count_bound tid N fuel :
  forall todays calls templates expenses templates' expenses' calls',
    0 < N ->
    (forall template : Expense,
        In template templates -> id template = tid ->
        recurrenceEndType template = Some EndCount
        /\ recurrenceCount template = Some N) ->
    passes tza uuid fuel calls templates expenses todays
    = Some (templates', expenses', calls') ->
    (forall (template : Expense) total,
        In template templates -> id template = tid -> N <= total ->
        countBreak template total = true)
    /\ countRefs tid expenses' <= Z.max N (countRefs tid expenses).
Proof.
  intros todays calls templates expenses templates' expenses' calls' HN Hrule
         Hrun.
  split.
  { intros template total Hin Hid Hle. destruct (Hrule template Hin Hid)
      as [Hty Hn].
    unfold countBreak. rewrite Hty, Hn.
    apply andb_true_intro. split; [|apply Z.leb_le; assumption].
    apply negb_true_iff, Z.eqb_neq. lia. }
  revert calls templates expenses Hrule Hrun.
  induction todays as [|today rest IH];
    intros calls templates expenses Hrule; cbn.
  - intros [= _ <- _]. lia.
  - unfold pass.
    destruct (generate tza uuid fuel calls templates expenses today)
      as [st|] eqn:Hg; [|discriminate].
    intros Hrest. apply IH in Hrest.
    + pose proof (generate_count tza uuid tid N fuel calls templates expenses
                    today st) as Hc.
      assert (countRefs tid (applyExpenses st expenses)
              <= Z.max N (countRefs tid expenses))
        by (apply Hc; [lia | assumption | assumption]).
      lia.
    + intros t' Hin' Hid'. apply applyTemplates_In in Hin'.
      destruct Hin' as [Hin' | [Hin' _]]; [apply Hrule; assumption|].
      pose proof (generate_templatesToUpdate _ _ _ _ _ _ _ _ Hg) as Hu.
      rewrite Forall_forall in Hu.
      destruct (Hu t' Hin') as (template & Hin & d & -> & _).
      apply (Hrule template Hin). exact Hid'.
Qed.

(** C4. When every template with id [tid] ends on a date and has the end
    date [D] set, then after any number of successive runs every expense
    of the collection that was not there before the runs and references
    [tid] has a date string that is not greater than [D]. *)
Theorem end_date_bounds_instances tid (D : string) fuel :
  forall todays calls templates expenses templates' expenses' calls',
    D <> "" ->
    (forall template : Expense,
        In template templates -> id template = tid ->
        recurrenceEndType template = Some EndDate
        /\ recurrenceEndDate template = Some D) ->
    passes tza uuid fuel calls templates expenses todays
    = Some (templates', expenses', calls') ->
    forall e : Expense,
      In e expenses' ->
      In e expenses
      \/ (refers tid e = true ->
          exists s, date e = Some s /\ strGt s D = false).
Proof.
  induction todays as [|today rest IH];
    intros calls templates expenses templates' expenses' calls' Hset Hrule;
    cbn.
  - intros [= _ <- _] e He. left. assumption.
  - unfold pass.
    destruct (generate tza uuid fuel calls templates expenses today)
      as [st|] eqn:Hg; [|discriminate].
    intros Hrest e He.
    assert (Hrule' : forall t' : Expense,
               In t' (applyTemplates st templates) -> id t' = tid ->
               recurrenceEndType t' = Some EndDate
               /\ recurrenceEndDate t' = Some D).
    { intros t' Hin' Hid'.
      destruct (applyTemplates_rule tza uuid _ _ _ _ _ _ t' Hg Hin')
        as (t & Hin & Hid & Hty & Hend & _).
      rewrite Hty, Hend. apply Hrule; [assumption | congruence]. }
    destruct (IH _ _ _ _ _ _ Hset Hrule' Hrest e He) as [Hin | Hb];
      [|right; exact Hb].
    rewrite applyExpenses_app in Hin. apply in_app_iff in Hin.
    destruct Hin as [Hnew | Hold]; [right | left; exact Hold].
    pose proof (generate_end_date_bound tza uuid tid D _ _ _ _ _ _ Hset Hrule Hg)
      as Hall.
    rewrite Forall_forall in Hall. apply Hall. exact Hnew.
Qed.

(** C5 (as the code has it). After a run and its two state setters, every
    template of the collection is either a template of the collection
    before the run, cursor included, or such a template with its cursor
    moved to the date of an expense that references it in the expense
    collection after the run. *)
Theorem advanced_cursor_has_instance fuel calls templates expenses today
    templates' expenses' calls' :
  pass tza uuid fuel calls templates expenses today
  = Some (templates', expenses', calls') ->
  Forall (fun t' : Expense =>
            In t' templates
            \/ exists (template e : Expense) (d : string),
                 In template templates
                 /\ t' = advanceCursor template d
                 /\ lastGeneratedDate t' = Some d
                 /\ In e expenses'
                 /\ refers (id t') e = true
                 /\ date e = Some d)
         templates'.
Proof.
  unfold pass.
  destruct (generate tza uuid fuel calls templates expenses today)
    as [st|] eqn:Hg; [|discriminate].
  intros [= <- <- _]. apply Forall_forall. intros t' Hin'.
  apply applyTemplates_In in Hin'.
  destruct Hin' as [Hin' | [Hin' _]]; [left; assumption|]. right.
  pose proof (generate_templatesToUpdate _ _ _ _ _ _ _ _ Hg) as Hu.
  rewrite Forall_forall in Hu.
  destruct (Hu t' Hin') as (template & Hin & d & -> & He).
  apply existsb_exists in He. destruct He as (e & Hine & Hinst).
  unfold isInstanceAt in Hinst. apply andb_prop in Hinst.
  destruct Hinst as [Hr Hd].
  exists template, e, d. repeat split; try assumption.
  unfold optStr_eqb in Hd. destruct (date e) as [s|]; [|discriminate].
  apply String.eqb_eq in Hd. congruence.
Qed.

End Passes.

Lemma end_date_bounds_instances_witness :
  "2024-01-10"%string <> ""%string
  /\ exists templates' expenses',
       passes Scenario.utc Scenario.uuidOf 10 0 [Scenario.untilJan10] []
              [Scenario.midnight Scenario.utc "2024-02-01";
               Scenario.midnight Scenario.utc "2024-03-01"]
       = Some (templates', expenses', 2%nat)
       /\ map (fun e : Expense => date e) expenses'
          = [Some "2024-01-01"; Some "2024-01-08"]%string
       /\ forall e : Expense,
            In e expenses' ->
            In e []
            \/ (refers (id Scenario.untilJan10) e = true ->
                exists s, date e = Some s /\ strGt s "2024-01-10" = false).
Proof.
  split; [discriminate|].
  eexists. eexists. split; [vm_compute; reflexivity|]. split; [reflexivity|].
  eapply (end_date_bounds_instances Scenario.utc Scenario.uuidOf
            (id Scenario.untilJan10) "2024-01-10" 10
            [Scenario.midnight Scenario.utc "2024-02-01";
             Scenario.midnight Scenario.utc "2024-03-01"]
            0%nat [Scenario.untilJan10] [] _ _ 2%nat).
  - discriminate.
  - intros template [<- | []] _. split; reflexivity.
  - vm_compute. reflexivity.
Defined.

Lemma count_bound_witness :
  0 < 2
  /\ passes Scenario.utc Scenario.uuidOf 10 0 [Scenario.countTwo] []
            [Scenario.midnight Scenario.utc "2024-01-05";
             Scenario.midnight Scenario.utc "2024-01-09"]
     = Some ([advanceCursor Scenario.countTwo "2024-01-02"],
             [instanceOf Scenario.countTwo "uuid-0000" "2024-01-01";
              instanceOf Scenario.countTwo "uuid-0001" "2024-01-02"], 2%nat)
  /\ countRefs (id Scenario.countTwo)
               [instanceOf Scenario.countTwo "uuid-0000" "2024-01-01";
                instanceOf Scenario.countTwo "uuid-0001" "2024-01-02"]
     <= Z.max 2 (countRefs (id Scenario.countTwo) []).
Proof.
  split; [lia|]. split; [vm_compute; reflexivity|].
  apply (count_bound Scenario.utc Scenario.uuidOf (id Scenario.countTwo) 2 10
           [Scenario.midnight Scenario.utc "2024-01-05";
            Scenario.midnight Scenario.utc "2024-01-09"]
           0%nat [Scenario.countTwo] []
           [advanceCursor Scenario.countTwo "2024-01-02"] _ 2%nat).
  - lia.
  - intros template [<- | []] _. split; reflexivity.
  - vm_compute. reflexivity.
Defined.

(** C3, at a count of 0. With [recurrenceCount = 0] the count [break] is
    switched off: two instances are generated in two days. *)
Lemma count_zero_is_unlimited :
  recurrenceEndType Scenario.countZero = Some EndCount
  /\ recurrenceCount Scenario.countZero = Some 0
  /\ exists st,
       generate Scenario.utc Scenario.uuidOf 10 0 [Scenario.countZero] []
                (Scenario.midnight Scenario.utc "2024-01-02") = Some st
       /\ countRefs (id Scenario.countZero) (applyExpenses st []) = 2
       /\ ~ countRefs (id Scenario.countZero) (applyExpenses st []) <= 0.
Proof.
  split; [reflexivity|]. split; [reflexivity|].
  eexists. split; [vm_compute; reflexivity|].
  split; [reflexivity|]. vm_compute. intros H. apply H. reflexivity.
Qed.

Lemma advanced_cursor_has_instance_witness :
  exists templates' expenses',
    pass Scenario.utc Scenario.uuidOf 10 0 [Scenario.scenarioA] []
         (Scenario.midnight Scenario.utc "2024-01-04")
    = Some (templates', expenses', 4%nat)
    /\ map (fun t : Expense => lastGeneratedDate t) templates'
       = [Some "2024-01-04"]
    /\ Forall (fun t' : Expense =>
                 In t' [Scenario.scenarioA]
                 \/ exists (template e : Expense) (d : string),
                      In template [Scenario.scenarioA]
                      /\ t' = advanceCursor template d
                      /\ lastGeneratedDate t' = Some d
                      /\ In e expenses'
                      /\ refers (id t') e = true
                      /\ date e = Some d)
              templates'.
Proof.
  eexists. eexists. split; [vm_compute; reflexivity|].
  split; [reflexivity|].
  apply (advanced_cursor_has_instance Scenario.utc Scenario.uuidOf 10 0
           [Scenario.scenarioA] []
           (Scenario.midnight Scenario.utc "2024-01-04") _ _ 4%nat).
  vm_compute. reflexivity.
Defined.

(** C5, after a deletion. The user deleted the only instance of a monthly
    template; the next run, two weeks later, changes nothing, and the
    template keeps a cursor that is the date of no expense. *)
Lemma cursor_without_instance :
  pass Scenario.utc Scenario.uuidOf 10 0 [Scenario.monthlyAfterDelete] []
       (Scenario.midnight Scenario.utc "2024-01-15")
  = Some ([Scenario.monthlyAfterDelete], [], 0%nat)
  /\ lastGeneratedDate Scenario.monthlyAfterDelete = Some "2024-01-01"
  /\ ~ cursorConsistent [Scenario.monthlyAfterDelete] [].
Proof.
  split; [vm_compute; reflexivity|]. split; [reflexivity|].
  intros H. destruct (H Scenario.monthlyAfterDelete (or_introl eq_refl))
    as [Hnone | (e & [] & _)].
  discriminate Hnone.
Qed.

(* ================================================================== *)
(** * Termination of the loop, and the loop without an end *)
(* ================================================================== *)

Section Unbounded.

Import JSDate.

Variable tza : Z.
Variable uuid : nat -> string.

Lemma fuelFor_dueDays today nextDue :
  (fuelFor today nextDue <= dueDays tza today nextDue)%nat.
Proof.
  destruct nextDue as [[|t]|]; cbn; try apply le_n.
  assert (H : (today - t) / msPerDay + 1
              <= Day (LocalTime tza today) - Day (LocalTime tza t) + 1).
  { unfold Day, LocalTime, msPerDay. Z.div_mod_to_equations. lia. }
  lia.
Qed.

(** A recognised rule with a positive interval moves the candidate forward
    in time, to a later local calendar day. *)
Lemma calculateNextDueDate_later_day (template : ExpenseData) t u :
  0 < intervalOf template ->
  calculateNextDueDate tza template (At t) = Some (At u) ->
  t < u /\ Day (LocalTime tza t) + 1 <= Day (LocalTime tza u).
Proof.
  intros Hpos H.
  apply calculateNextDueDate_advances in H; [|assumption].
  unfold Day, LocalTime, msPerDay in *. split; [lia|].
  Z.div_mod_to_equations. lia.
Qed.

(** C8. For a template whose interval ([recurrenceInterval || 1]) is
    positive, every step of the rule moves the candidate forward in time,
    to a later local calendar day, and for every [today], candidate and
    state the loop ends within [dueDays today nextDue] iterations (one per
    local calendar day from the day of the candidate to the day of
    [today]): with that much fuel or more it returns a result. *)
Theorem generation_loop_terminates (template : Expense) expenses today
    nextDue upd st :
  0 < intervalOf template ->
  (forall t u,
      calculateNextDueDate tza template (At t) = Some (At u) ->
      t < u /\ Day (LocalTime tza t) + 1 <= Day (LocalTime tza u))
  /\ forall fuel,
       (dueDays tza today nextDue <= fuel)%nat ->
       exists r,
         genLoop tza uuid fuel template expenses today nextDue upd st = Some r.
Proof.
  intros Hpos. split.
  { intros t u. apply calculateNextDueDate_later_day. exact Hpos. }
  intros fuel Hf.
  assert (Hf' : (fuelFor today nextDue <= fuel)%nat)
    by (pose proof (fuelFor_dueDays today nextDue); lia).
  pose proof (genLoop_enough_fuel tza uuid template expenses today Hpos fuel
                nextDue upd st Hf') as Hne.
  destruct (genLoop tza uuid fuel template expenses today nextDue upd st)
    as [r|]; [exists r; reflexivity | contradiction].
Qed.

(** Fuel that suffices for every template of a list. *)
Lemma generate_total fuel calls templates expenses today :
  (forall template : Expense,
      In template templates ->
      0 < intervalOf template
      /\ (fuelFor today (firstCandidate tza template) <= fuel)%nat) ->
  exists st, generate tza uuid fuel calls templates expenses today = Some st.
Proof.
  unfold generate. generalize (mkGen [] [] [] calls).
  induction templates as [|template rest IH]; intros st H; cbn.
  - exists st. reflexivity.
  - destruct (H template (or_introl eq_refl)) as [Hpos Hf].
    unfold processTemplate.
    destruct (truthyStr (date template)); cbn [negb].
    + pose proof (genLoop_enough_fuel tza uuid template expenses today Hpos
                    fuel (firstCandidate tza template) template st Hf) as Hne.
      destruct (genLoop tza uuid fuel template expenses today
                        (firstCandidate tza template) template st)
        as [[u s]|]; [|contradiction].
      destruct (truthyStr (lastGeneratedDate u)
                && negb (optStr_eqb (lastGeneratedDate u)
                                    (lastGeneratedDate template)));
        apply IH; intros t Hin; apply H; right; assumption.
    + apply IH. intros t Hin. apply H. right. assumption.
Qed.

Lemma occurrence_succ (template : ExpenseData) start k :
  occurrence tza template start (S k)
  = occurrence tza template
               (match start with
                | Some d => calculateNextDueDate tza template d
                | None => None
                end) k.
Proof.
  induction k as [|k IH]; [reflexivity|].
  cbn [occurrence] in *. rewrite IH. reflexivity.
Qed.

Lemma instanceExists_extends (template : Expense) expenses today st st' s :
  extends uuid template today st st' ->
  instanceExists template expenses st s = true ->
  instanceExists template expenses st' s = true.
Proof.
  intros (_ & _ & added & Hn & _) H. unfold instanceExists in *.
  rewrite Hn, existsb_app.
  destruct (existsb (isInstanceAt (id template) s) expenses); [reflexivity|].
  cbn in *. rewrite H. reflexivity.
Qed.

(** Without its two [break]s, the loop leaves an instance for every
    candidate up to [today]. *)
Lemma genLoop_complete (template : Expense) expenses today :
  (forall t, dateBreak template t = false) ->
  (forall total, countBreak template total = false) ->
  forall fuel start upd st upd' st',
    genLoop tza uuid fuel template expenses today start upd st
    = Some (upd', st') ->
    forall k t,
      (forall j, (j <= k)%nat ->
                 exists tj, occurrence tza template start j = Some (At tj)
                            /\ tj <= today) ->
      occurrence tza template start k = Some (At t) ->
      instanceExists template expenses st' (toYYYYMMDD t) = true.
Proof.
  intros Hd Hc. induction fuel as [|fuel IH];
    intros start upd st upd' st' Hrun k t Hall Hk.
  - destruct (Hall O (Nat.le_0_l k)) as (t0 & H0 & Hle). cbn in H0. subst start.
    cbn in Hrun. apply Z.leb_le in Hle. rewrite Hle in Hrun. discriminate.
  - destruct (Hall O (Nat.le_0_l k)) as (t0 & H0 & Hle). cbn in H0. subst start.
    cbn in Hrun. apply Z.leb_le in Hle. rewrite Hle, Hd, Hc in Hrun.
    destruct k as [|k].
    + cbn in Hk. injection Hk as <-.
      apply genLoop_extends in Hrun. destruct Hrun as [He _].
      eapply instanceExists_extends; [exact He|].
      apply instanceExists_materialize.
    + rewrite occurrence_succ in Hk.
      eapply IH; [exact Hrun | | exact Hk].
      intros j Hj. specialize (Hall (S j)).
      rewrite occurrence_succ in Hall. apply Hall. lia.
Qed.

(** A candidate that is a date comes after candidates that are dates, each
    at or before it. *)
Lemma occurrence_earlier (template : ExpenseData) start :
  0 < intervalOf template ->
  forall k t,
    occurrence tza template start k = Some (At t) ->
    forall j, (j <= k)%nat ->
      exists tj, occurrence tza template start j = Some (At tj) /\ tj <= t.
Proof.
  intros Hpos. induction k as [|k IH]; intros t Hk j Hj.
  - assert (j = O) by lia. subst j. exists t. split; [exact Hk | lia].
  - cbn [occurrence] in Hk.
    destruct (occurrence tza template start k) as [[|t']|] eqn:Ho;
      try discriminate.
    + exfalso. unfold calculateNextDueDate in Hk.
      destruct (frequency template) as [[|]|]; try discriminate.
      destruct (recurrence template) as [[| | | |]|]; discriminate.
    + pose proof (calculateNextDueDate_advances tza template t' t Hpos Hk)
        as Hadv.
      destruct (Nat.eq_dec j (S k)) as [-> | Hne].
      * exists t. split; [|lia]. cbn [occurrence]. rewrite Ho. exact Hk.
      * destruct (IH t' eq_refl j ltac:(lia)) as (tj & Hoj & Hle).
        exists tj. split; [exact Hoj|]. unfold msPerDay in Hadv. lia.
Qed.

(** Each template of a run is processed when the fuel suffices for it, and
    what is queued stays queued. *)
Lemma forEachTemplate_total fuel expenses today :
  forall templates st,
    (forall x : Expense, In x templates ->
        0 < intervalOf x
        /\ (dueDays tza today (firstCandidate tza x) <= fuel)%nat) ->
    exists st',
      forEachTemplate tza uuid fuel expenses today templates st = Some st'
      /\ exists added, newExpenses st' = newExpenses st ++ added.
Proof.
  induction templates as [|x rest IH]; intros st H.
  - exists st. split; [reflexivity|]. exists []. symmetry. apply app_nil_r.
  - destruct (H x (or_introl eq_refl)) as [Hpos Hf].
    cbn [forEachTemplate].
    destruct (processTemplate tza uuid fuel expenses today st x)
      as [s1|] eqn:Hp.
    + destruct (IH s1 (fun y Hy => H y (or_intror Hy)))
        as (st' & Hrun & added & Hadd).
      exists st'. split; [exact Hrun|].
      apply processTemplate_effect in Hp.
      destruct Hp as (added1 & Hn1 & _).
      exists (added1 ++ added). rewrite Hadd, Hn1, app_assoc. reflexivity.
    + exfalso. unfold processTemplate in Hp.
      destruct (truthyStr (date x)); cbn [negb] in Hp; [|discriminate].
      assert (Hf' : (fuelFor today (firstCandidate tza x) <= fuel)%nat)
        by (pose proof (fuelFor_dueDays today (firstCandidate tza x)); lia).
      pose proof (genLoop_enough_fuel tza uuid x expenses today Hpos fuel
                    (firstCandidate tza x) x st Hf') as Hne.
      destruct (genLoop tza uuid fuel x expenses today
                        (firstCandidate tza x) x st) as [[u s]|];
        [|contradiction].
      destruct (truthyStr (lastGeneratedDate u)
                && negb (optStr_eqb (lastGeneratedDate u)
                                    (lastGeneratedDate x))); discriminate.
Qed.

Lemma instanceExists_grows (template : Expense) expenses st st' s added :
  newExpenses st' = newExpenses st ++ added ->
  instanceExists template expenses st s = true ->
  instanceExists template expenses st' s = true.
Proof.
  intros Hn H. unfold instanceExists in *. rewrite Hn, existsb_app.
  destruct (existsb (isInstanceAt (id template) s) expenses); [reflexivity|].
  cbn in *. rewrite H. reflexivity.
Qed.

Lemma instanceExists_In (template : Expense) expenses st s :
  instanceExists template expenses st s = true ->
  exists e : Expense,
    In e (applyExpenses st expenses)
    /\ recurringExpenseId e = Some (id template) /\ date e = Some s.
Proof.
  rewrite instanceExists_app, <- applyExpenses_app. intros H.
  apply existsb_exists in H. destruct H as (e & Hin & He).
  exists e. split; [exact Hin|]. unfold isInstanceAt in He.
  apply andb_true_iff in He. destruct He as [Hr Hd]. split.
  - apply refers_iff. exact Hr.
  - unfold optStr_eqb in Hd. destruct (date e) as [d|]; [|discriminate].
    apply String.eqb_eq in Hd. congruence.
Qed.

(** A template on which neither [break] can fire has, at the end of a run
    with enough fuel, an instance for each of its candidates up to
    [today]. *)
Lemma forEachTemplate_complete (template : Expense) fuel expenses today :
  (forall t, dateBreak template t = false) ->
  (forall total, countBreak template total = false) ->
  truthyStr (date template) = true ->
  forall templates st,
    In template templates ->
    (forall x : Expense, In x templates ->
        0 < intervalOf x
        /\ (dueDays tza today (firstCandidate tza x) <= fuel)%nat) ->
    exists st',
      forEachTemplate tza uuid fuel expenses today templates st = Some st'
      /\ forall k t,
           occurrence tza template (firstCandidate tza template) k
           = Some (At t) ->
           t <= today ->
           instanceExists template expenses st' (toYYYYMMDD t) = true.
Proof.
  intros Hd Hc Hdate.
  induction templates as [|x rest IH]; intros st Hin H; [destruct Hin|].
  destruct (forEachTemplate_total fuel expenses today [x] st)
    as (s1 & Hp & _).
  { intros y [<- | []]. apply H. left. reflexivity. }
  cbn [forEachTemplate] in Hp |- *.
  destruct (processTemplate tza uuid fuel expenses today st x)
    as [s1'|] eqn:Hp1; [|discriminate].
  injection Hp as <-.
  destruct (forEachTemplate_total fuel expenses today rest s1'
              (fun y Hy => H y (or_intror Hy)))
    as (st' & Hrest & added & Hadd).
  destruct Hin as [-> | Hin].
  - exists st'. split; [exact Hrest|].
    intros k t Hk Hle.
    eapply instanceExists_grows; [exact Hadd|].
    apply processTemplate_cases in Hp1.
    destruct Hp1 as [[Hx _] | (_ & upd & st1 & Hrun & Hst)];
      [congruence|].
    assert (Hn : newExpenses s1' = newExpenses st1)
      by (destruct Hst as [[-> _] | (_ & _ & ->)]; reflexivity).
    eapply (instanceExists_grows template expenses st1 s1' _ []);
      [rewrite app_nil_r; exact Hn|].
    destruct (H template (or_introl eq_refl)) as [Hpos _].
    eapply (genLoop_complete template expenses today Hd Hc);
      [exact Hrun | | exact Hk].
    intros j Hj.
    destruct (occurrence_earlier template (firstCandidate tza template)
                Hpos k t Hk j Hj) as (tj & Hoj & Hlej).
    exists tj. split; [exact Hoj | lia].
  - destruct (IH s1' Hin (fun y Hy => H y (or_intror Hy)))
      as (st'' & Hrest' & Hall).
    exists st''. split; [exact Hrest' | exact Hall].
Qed.

(** C10. For a template that ends on a date but whose end date is unset
    or empty: the end-date [break] fires on no candidate (nor does the
    count [break]). A run of the effect over a list that contains the
    template (which has a start date), with fuel for every template of the
    list, returns, and the expenses it leaves contain an instance of the
    template for every candidate of the template up to [today]. And the
    filter of the recurring-expenses screen keeps the template when it is
    a template ([frequency = recurring]). *)
Theorem unset_end_date_is_unbounded (template : Expense) :
  recurrenceEndType template = Some EndDate ->
  truthyStr (recurrenceEndDate template) = false ->
  (forall t, dateBreak template t = false)
  /\ (forall total, countBreak template total = false)
  /\ (forall templates expenses today fuel calls,
         In template templates ->
         truthyStr (date template) = true ->
         (forall x : Expense, In x templates ->
             0 < intervalOf x
             /\ (dueDays tza today (firstCandidate tza x) <= fuel)%nat) ->
         exists templates' expenses' calls',
           pass tza uuid fuel calls templates expenses today
           = Some (templates', expenses', calls')
           /\ forall k t,
                occurrence tza template (firstCandidate tza template) k
                = Some (At t) ->
                t <= today ->
                exists e : Expense,
                  In e expenses'
                  /\ recurringExpenseId e = Some (id template)
                  /\ date e = Some (toYYYYMMDD t))
  /\ (frequency template = Some Recurring ->
      forall expenses, isActive tza expenses template = true).
Proof.
  intros Hty Hend.
  assert (Hd : forall t, dateBreak template t = false).
  { intros t. unfold dateBreak. rewrite Hty.
    destruct (recurrenceEndDate template) as [D|]; [|reflexivity].
    cbn in Hend. apply negb_false_iff in Hend. rewrite Hend. reflexivity. }
  assert (Hc : forall total, countBreak template total = false)
    by (intros total; unfold countBreak; rewrite Hty; reflexivity).
  split; [exact Hd|]. split; [exact Hc|]. split.
  - intros templates expenses today fuel calls Hin Hdate Hall.
    destruct (forEachTemplate_complete template fuel expenses today Hd Hc
                Hdate templates (mkGen [] [] [] calls) Hin Hall)
      as (st' & Hrun & Hinst).
    exists (applyTemplates st' templates), (applyExpenses st' expenses),
           (uuidCalls st').
    split.
    + unfold pass, generate. rewrite Hrun. reflexivity.
    + intros k t Hk Hle. apply instanceExists_In. eapply Hinst; eassumption.
  - intros Hf expenses. unfold isActive. rewrite Hf, Hty.
    unfold parseLocalYYYYMMDD at 1.
    destruct (recurrenceEndDate template) as [D|]; [|reflexivity].
    cbn in Hend. apply negb_false_iff in Hend. rewrite Hend. reflexivity.
Qed.

End Unbounded.

Lemma generation_loop_terminates_witness :
  0 < intervalOf Scenario.scenarioA
  /\ exists r,
       genLoop Scenario.cet Scenario.uuidOf 4 Scenario.scenarioA []
               (Scenario.midnight Scenario.cet "2024-01-04")
               (firstCandidate Scenario.cet Scenario.scenarioA)
               Scenario.scenarioA (mkGen [] [] [] 0)
       = Some r.
Proof.
  split; [reflexivity|].
  apply (generation_loop_terminates Scenario.cet Scenario.uuidOf
           Scenario.scenarioA []
           (Scenario.midnight Scenario.cet "2024-01-04")
           (firstCandidate Scenario.cet Scenario.scenarioA)
           Scenario.scenarioA (mkGen [] [] [] 0)).
  - reflexivity.
  - vm_compute. apply le_n.
Defined.

Lemma unset_end_date_is_unbounded_witness :
  recurrenceEndType Scenario.endDateUnset = Some EndDate
  /\ truthyStr (recurrenceEndDate Scenario.endDateUnset) = false
  /\ (exists templates' expenses' calls',
        pass Scenario.utc Scenario.uuidOf 15 0 [Scenario.endDateUnset] []
             (Scenario.midnight Scenario.utc "2024-01-15")
        = Some (templates', expenses', calls')
        /\ exists e : Expense,
             In e expenses'
             /\ recurringExpenseId e = Some "rent-8"
             /\ date e = Some "2024-01-15")
  /\ isActive Scenario.utc [] Scenario.endDateUnset = true.
Proof.
  split; [reflexivity|]. split; [reflexivity|].
  pose proof (unset_end_date_is_unbounded Scenario.utc Scenario.uuidOf
                Scenario.endDateUnset eq_refl eq_refl) as (_ & _ & Hrun & Ha).
  split; [|apply Ha; reflexivity].
  destruct (Hrun [Scenario.endDateUnset] []
                 (Scenario.midnight Scenario.utc "2024-01-15") 15%nat 0%nat)
    as (templates' & expenses' & calls' & Hp & Hinst).
  - left. reflexivity.
  - reflexivity.
  - intros x [<- | []]. split; [reflexivity|]. vm_compute. apply le_n.
  - exists templates', expenses', calls'. split; [exact Hp|].
    apply (Hinst 2%nat (Scenario.midnight Scenario.utc "2024-01-15")).
    + vm_compute. reflexivity.
    + vm_compute. discriminate.
Defined.

(* ================================================================== *)
(** * Converting a template into a single expense *)
(* ================================================================== *)

Section Convert.

Variable uuid : nat -> string.

(** C7. Submitting the form of the template being edited with a frequency
    other than recurring removes from the template collection the
    templates with that id and no other, keeps the stored expenses, and
    puts in front of them one new expense: the form data with
    [frequency = single], every recurrence field and [recurringExpenseId]
    cleared, and the next value of the UUID oracle as id, which differs
    from the id of every stored expense when the stored ids are earlier
    values of an oracle that never repeats. *)
Theorem convert_detaches_template (s : AppState) (editing : Expense)
    (data : ExpenseData) :
  editingRecurringExpense s = Some editing ->
  isRecurring data = false ->
  let s' := handleFormSubmit uuid s (Some (id editing)) data in
  (forall t : Expense,
      In t (appRecurring s')
      <-> In t (appRecurring s) /\ id t <> id editing)
  /\ appRecurring s'
     = filter (fun e => negb (String.eqb (id e) (id editing))) (appRecurring s)
  /\ exists new : Expense,
       appExpenses s' = new :: appExpenses s
       /\ id new = uuid (appUuidCalls s)
       /\ frequency new = Some Single
       /\ recurrence new = None
       /\ recurrenceInterval new = None
       /\ recurrenceEndType new = None
       /\ recurrenceEndDate new = None
       /\ recurrenceCount new = None
       /\ lastGeneratedDate new = None
       /\ recurringExpenseId new = None
       /\ monthlyRecurrenceType new = None
       /\ recurrenceDays new = None
       /\ description new = description data
       /\ amount new = amount data
       /\ category new = category data
       /\ accountId new = accountId data
       /\ date new = date data
       /\ ((forall i j, uuid i = uuid j -> i = j) ->
           (forall e : Expense,
               In e (appExpenses s) ->
               exists k, (k < appUuidCalls s)%nat /\ id e = uuid k) ->
           ~ In (id new) (map id (appExpenses s))).
Proof.
  intros Hed Hrec. unfold handleFormSubmit, isConversion.
  rewrite Hed, Hrec, String.eqb_refl. cbn. split; [|split].
  - intros t. rewrite filter_In, negb_true_iff, String.eqb_neq. reflexivity.
  - reflexivity.
  - eexists. split; [reflexivity|]. cbn. repeat split.
    intros Hinj Hissued Hin. apply in_map_iff in Hin.
    destruct Hin as (e & He & Hin).
    destruct (Hissued e Hin) as (k & Hk & Hid).
    rewrite Hid in He. apply Hinj in He. lia.
Qed.

End Convert.

Lemma convert_detaches_template_witness :
  editingRecurringExpense Scenario.editingWeekly = Some Scenario.weekly
  /\ isRecurring Scenario.weeklyMadeSingle = false
  /\ appRecurring (handleFormSubmit Scenario.uuidOf Scenario.editingWeekly
                                    (Some (id Scenario.weekly))
                                    Scenario.weeklyMadeSingle)
     = filter (fun e => negb (String.eqb (id e) (id Scenario.weekly)))
              (appRecurring Scenario.editingWeekly).
Proof.
  split; [reflexivity|]. split; [reflexivity|].
  apply (convert_detaches_template Scenario.uuidOf Scenario.editingWeekly
           Scenario.weekly Scenario.weeklyMadeSingle eq_refl eq_refl).
Defined.

(* ================================================================== *)
(** * The scenarios, evaluated *)
(* ================================================================== *)

(** Scenario A where local time is UTC: four instances, 2024-01-01 to
    2024-01-04, and the cursor on 2024-01-04. *)
Lemma scenarioA_in_UTC :
  exists st,
    generate Scenario.utc Scenario.uuidOf 10 0 [Scenario.scenarioA] []
             (Scenario.midnight Scenario.utc "2024-01-04") = Some st
    /\ map (fun e : Expense => date e) (newExpenses st)
       = [Some "2024-01-01"; Some "2024-01-02"; Some "2024-01-03";
          Some "2024-01-04"]
    /\ map (fun t : Expense => lastGeneratedDate t) (templatesToUpdate st)
       = [Some "2024-01-04"].
Proof.
  eexists. split; [vm_compute; reflexivity|]. split; reflexivity.
Qed.

(** C6, evaluated where local time is UTC+01:00. The four instances of
    scenario A are dated 2023-12-31 to 2024-01-03 and the cursor is
    2024-01-03: each local midnight is 23:00 UTC of the day before, and
    [toYYYYMMDD] prints the UTC date. *)
Theorem scenarioA_in_CET :
  exists st,
    generate Scenario.cet Scenario.uuidOf 10 0 [Scenario.scenarioA] []
             (Scenario.midnight Scenario.cet "2024-01-04") = Some st
    /\ map (fun e : Expense => date e) (newExpenses st)
       = [Some "2023-12-31"; Some "2024-01-01"; Some "2024-01-02";
          Some "2024-01-03"]
    /\ map (fun t : Expense => lastGeneratedDate t) (templatesToUpdate st)
       = [Some "2024-01-03"].
Proof.
  eexists. split; [vm_compute; reflexivity|]. split; reflexivity.
Qed.

(** C1, evaluated where local time is UTC+01:00. A weekly template from
    2024-01-01, run on 2024-01-14: the first run queues instances dated
    2023-12-31 and 2024-01-07 and sets the cursor to 2024-01-07; the
    second run, on the collections the first one produced, queues one
    more instance, dated 2024-01-13, and moves the cursor again. *)
Theorem second_run_not_empty_in_CET :
  exists st1 st2,
    generate Scenario.cet Scenario.uuidOf 10 0 [Scenario.weekly] []
             (Scenario.midnight Scenario.cet "2024-01-14") = Some st1
    /\ map (fun e : Expense => date e) (newExpenses st1)
       = [Some "2023-12-31"; Some "2024-01-07"]
    /\ generate Scenario.cet Scenario.uuidOf 10 (uuidCalls st1)
                (applyTemplates st1 [Scenario.weekly]) (applyExpenses st1 [])
                (Scenario.midnight Scenario.cet "2024-01-14") = Some st2
    /\ map (fun e : Expense => date e) (newExpenses st2) = [Some "2024-01-13"]
    /\ map (fun t : Expense => lastGeneratedDate t) (templatesToUpdate st2)
       = [Some "2024-01-13"].
Proof.
  eexists. eexists. split; [vm_compute; reflexivity|].
  split; [reflexivity|]. split; [vm_compute; reflexivity|].
  split; reflexivity.
Qed.

(** The same template where local time is UTC: the second run is empty. *)
Lemma second_run_empty_in_UTC :
  exists st1 st2,
    generate Scenario.utc Scenario.uuidOf 10 0 [Scenario.weekly] []
             (Scenario.midnight Scenario.utc "2024-01-14") = Some st1
    /\ map (fun e : Expense => date e) (newExpenses st1)
       = [Some "2024-01-01"; Some "2024-01-08"]
    /\ generate Scenario.utc Scenario.uuidOf 10 (uuidCalls st1)
                (applyTemplates st1 [Scenario.weekly]) (applyExpenses st1 [])
                (Scenario.midnight Scenario.utc "2024-01-14") = Some st2
    /\ newExpenses st2 = [] /\ templatesToUpdate st2 = [].
Proof.
  eexists. eexists. split; [vm_compute; reflexivity|].
  split; [reflexivity|]. split; [vm_compute; reflexivity|].
  split; reflexivity.
Qed.

(* ================================================================== *)
(** * Printing a date and parsing it back *)
(* ================================================================== *)

Module RoundTrip.

Import JSDate JSDateFacts.

Lemma digit_cases v :
  0 <= v <= 9 ->
  v = 0 \/ v = 1 \/ v = 2 \/ v = 3 \/ v = 4 \/ v = 5 \/ v = 6 \/ v = 7
  \/ v = 8 \/ v = 9.
Proof. lia. Qed.

Lemma digitChar_noDash v :
  0 <= v <= 9 -> Ascii.eqb (digitChar v) "-" = false.
Proof.
  intros H. apply digit_cases in H.
  repeat (destruct H as [-> | H]; [reflexivity|]). subst. reflexivity.
Qed.

Lemma digitValue_digitChar v :
  0 <= v <= 9 -> digitValue (digitChar v) = Some v.
Proof.
  intros H. apply digit_cases in H.
  repeat (destruct H as [-> | H]; [reflexivity|]). subst. reflexivity.
Qed.

Lemma mod10_digit n : 0 <= n mod 10 <= 9.
Proof. pose proof (Z.mod_pos_bound n 10). lia. Qed.

Lemma append_nil_r (s : string) : (s ++ "")%string = s.
Proof.
  induction s as [|c s IH]; cbn; [reflexivity | rewrite IH; reflexivity].
Qed.

Lemma append_assoc (a b c : string) :
  ((a ++ b) ++ c)%string = (a ++ (b ++ c))%string.
Proof.
  induction a as [|x a IH]; cbn; [reflexivity | rewrite IH; reflexivity].
Qed.

Lemma splitAux_noDash a rest cur :
  noDash a = true ->
  splitAux "-" (a ++ rest)%string cur = splitAux "-" rest (cur ++ a)%string.
Proof.
  revert cur. induction a as [|c a IH]; intros cur H; cbn.
  - rewrite append_nil_r. reflexivity.
  - cbn in H. apply andb_prop in H. destruct H as [Hc Ha].
    apply negb_true_iff in Hc. rewrite Hc, IH by assumption.
    rewrite append_assoc. reflexivity.
Qed.

Lemma split_three a b c :
  noDash a = true -> noDash b = true -> noDash c = true ->
  split "-" (a ++ "-" ++ b ++ "-" ++ c)%string = [a; b; c].
Proof.
  intros Ha Hb Hc. unfold split.
  rewrite splitAux_noDash by assumption. cbn.
  rewrite splitAux_noDash by assumption. cbn.
  rewrite <- (append_nil_r c) at 1.
  rewrite splitAux_noDash by assumption. reflexivity.
Qed.

Lemma noDash_pad2 n : noDash (pad 2 n) = true.
Proof.
  unfold pad. cbn [padDigits noDash].
  rewrite !digitChar_noDash by apply mod10_digit. reflexivity.
Qed.

Lemma noDash_pad4 n : noDash (pad 4 n) = true.
Proof.
  unfold pad. cbn [padDigits noDash].
  rewrite !digitChar_noDash by apply mod10_digit. reflexivity.
Qed.

Lemma Number_pad2 n : 0 <= n < 100 -> Number (pad 2 n) = Some n.
Proof.
  intros H. unfold pad. cbn [padDigits]. unfold Number.
  assert (Hp : forall v s, 0 <= v <= 9 ->
             match String (digitChar v) s with
             | EmptyString => Some 0
             | String "+" EmptyString => None
             | String "+" s' => parseDigits s' 0
             | _ => parseDigits (String (digitChar v) s) 0
             end = parseDigits (String (digitChar v) s) 0).
  { intros v s Hv. apply digit_cases in Hv.
    repeat (destruct Hv as [-> | Hv]; [reflexivity|]). subst. reflexivity. }
  rewrite Hp by apply mod10_digit.
  cbn [parseDigits]. rewrite !digitValue_digitChar by apply mod10_digit.
  f_equal. Z.div_mod_to_equations. lia.
Qed.

Lemma Number_pad4 n : 0 <= n < 10000 -> Number (pad 4 n) = Some n.
Proof.
  intros H. unfold pad. cbn [padDigits]. unfold Number.
  assert (Hp : forall v s, 0 <= v <= 9 ->
             match String (digitChar v) s with
             | EmptyString => Some 0
             | String "+" EmptyString => None
             | String "+" s' => parseDigits s' 0
             | _ => parseDigits (String (digitChar v) s) 0
             end = parseDigits (String (digitChar v) s) 0).
  { intros v s Hv. apply digit_cases in Hv.
    repeat (destruct Hv as [-> | Hv]; [reflexivity|]). subst. reflexivity. }
  rewrite Hp by apply mod10_digit.
  cbn [parseDigits]. rewrite !digitValue_digitChar by apply mod10_digit.
  f_equal. Z.div_mod_to_equations. lia.
Qed.



Lemma DayFromYear_mono y y' : y <= y' -> DayFromYear y <= DayFromYear y'.
Proof. unfold DayFromYear. intros H. Z.div_mod_to_equations. lia. Qed.

Lemma YearFromDay_range k :
  DayFromYear 100 <= k < DayFromYear 10000 -> 100 <= YearFromDay k <= 9999.
Proof.
  intros [Hlo Hhi]. pose proof (YearFromDay_spec k) as [H1 H2]. split.
  - destruct (Z_lt_le_dec (YearFromDay k) 100) as [Hlt|]; [|assumption].
    pose proof (DayFromYear_mono (YearFromDay k + 1) 100). lia.
  - destruct (Z_lt_le_dec 9999 (YearFromDay k)) as [Hlt|]; [|assumption].
    pose proof (DayFromYear_mono 10000 (YearFromDay k)). lia.
Qed.

Lemma DayWithinYear_range k :
  0 <= DayWithinYear k < DaysInYear (YearFromDay k).
Proof.
  unfold DayWithinYear. pose proof (YearFromDay_spec k).
  rewrite DayFromYear_succ in *. lia.
Qed.

Lemma DateFromDay_range k : 1 <= DateFromDay k <= 31.
Proof.
  pose proof (DayWithinYear_range k) as Hw.
  unfold DateFromDay, MonthFromDay, DaysInYear in *.
  set (w := DayWithinYear k) in *. clearbody w.
  destruct (isLeap (YearFromDay k));
    repeat match goal with
           | |- context [if ?a <? ?b then _ else _] =>
               destruct (Z.ltb_spec a b); [cbn in *; lia|]
           end; cbn in *; lia.
Qed.

Section Zone.

Variable tza : Z.

Lemma newDate_isLocalMidnight y m d t :
  newDate tza y m d = At t -> isLocalMidnight tza t.
Proof.
  unfold newDate. destruct y as [y|], m as [m|], d as [d|]; try discriminate.
  intros H. apply TimeClip_At in H. subst t.
  unfold isLocalMidnight, UTC, MakeDate.
  set (day := MakeDay (if (0 <=? y) && (y <=? 99) then 1900 + y else y) m d).
  replace (day * msPerDay + 0 - tza + tza) with (day * msPerDay) by lia.
  apply Z.mod_mul. unfold msPerDay. lia.
Qed.

(** [toYYYYMMDD] then [parseDate], in the years 0100 to 9999: the local
    midnight of the UTC date of [t]. *)
Lemma parseDate_toYYYYMMDD_Day t :
  - msPerDay < tza < msPerDay -> isoLo <= t < isoHi ->
  parseDate tza (toYYYYMMDD t) = At (Day t * msPerDay - tza).
Proof.
  intros Hz Hrange.
  assert (Hk : DayFromYear 100 <= Day t < DayFromYear 10000).
  { unfold isoLo, isoHi, Day, msPerDay in *. Z.div_mod_to_equations. lia. }
  pose proof (YearFromDay_range _ Hk) as Hy.
  pose proof (MonthFromDay_range (Day t)) as Hm.
  pose proof (DateFromDay_range (Day t)) as Hd.
  unfold toYYYYMMDD, isoDatePart, YearFromTime, MonthFromTime, DateFromTime.
  replace ((0 <=? YearFromDay (Day t)) && (YearFromDay (Day t) <=? 9999))
    with true by (symmetry; apply andb_true_intro; split; apply Z.leb_le; lia).
  cbv beta iota. unfold parseDate.
  rewrite (split_three (pad 4 (YearFromDay (Day t)))
                       (pad 2 (MonthFromDay (Day t) + 1))
                       (pad 2 (DateFromDay (Day t)))
                       (noDash_pad4 _) (noDash_pad2 _) (noDash_pad2 _)).
  cbn [map nth].
  rewrite (Number_pad4 (YearFromDay (Day t))) by lia.
  rewrite (Number_pad2 (MonthFromDay (Day t) + 1)) by lia.
  rewrite (Number_pad2 (DateFromDay (Day t))) by lia.
  cbn [option_map newDate].
  replace ((0 <=? YearFromDay (Day t)) && (YearFromDay (Day t) <=? 99))
    with false
    by (symmetry; apply andb_false_intro2; apply Z.leb_gt; lia).
  replace (MonthFromDay (Day t) + 1 - 1) with (MonthFromDay (Day t)) by lia.
  rewrite MakeDay_fields. unfold MakeDate, UTC. rewrite Z.add_0_r.
  unfold TimeClip.
  replace (Z.abs (Day t * msPerDay - tza) <=? maxTime) with true;
    [reflexivity|].
  symmetry. apply Z.leb_le.
  unfold maxTime, msPerDay in *.
  change (DayFromYear 100) with (-683003) in Hk.
  change (DayFromYear 10000) with 2932897 in Hk. lia.
Qed.

(** At or west of UTC a local midnight prints as its own local date and
    parses back to itself. *)
Lemma parseDate_toYYYYMMDD t :
  - msPerDay < tza <= 0 ->
  isLocalMidnight tza t -> isoLo <= t < isoHi ->
  parseDate tza (toYYYYMMDD t) = At t.
Proof.
  intros Hz Hmid Hrange.
  rewrite parseDate_toYYYYMMDD_Day by (unfold msPerDay in *; lia || assumption).
  f_equal. unfold isLocalMidnight, Day, msPerDay in *.
  Z.div_mod_to_equations. lia.
Qed.

(** East of UTC a local midnight prints as the date of the day before:
    parsing the string back gives the previous local midnight. *)
Lemma parseDate_toYYYYMMDD_east t :
  0 < tza < msPerDay ->
  isLocalMidnight tza t -> isoLo <= t < isoHi ->
  parseDate tza (toYYYYMMDD t) = At (t - msPerDay).
Proof.
  intros Hz Hmid Hrange.
  rewrite parseDate_toYYYYMMDD_Day by (unfold msPerDay in *; lia || assumption).
  f_equal. unfold isLocalMidnight, Day, msPerDay in *.
  Z.div_mod_to_equations. lia.
Qed.

End Zone.

End RoundTrip.

(* ================================================================== *)
(** * Running the effect twice, at or west of UTC *)
(* ================================================================== *)

Section Idempotence.

Import JSDate JSDateFacts RoundTrip.

Variable tza : Z.
Variable uuid : nat -> string.
Hypothesis tza_west : - msPerDay < tza <= 0.

Lemma toYYYYMMDD_truthy t : truthyStr (Some (toYYYYMMDD t)) = true.
Proof.
  unfold toYYYYMMDD, isoDatePart, truthyStr.
  set (rest := ("-" ++ pad 2 (MonthFromTime t + 1) ++ "-"
                ++ pad 2 (DateFromTime t))%string).
  clearbody rest.
  destruct ((0 <=? YearFromTime t) && (YearFromTime t <=? 9999)).
  - unfold pad. cbn [padDigits append String.eqb negb]. reflexivity.
  - destruct (YearFromTime t <? 0); cbn [append String.eqb negb]; reflexivity.
Qed.

Lemma parseDate_isLocalMidnight s t :
  parseDate tza s = At t -> isLocalMidnight tza t.
Proof.
  unfold parseDate. apply newDate_isLocalMidnight.
Qed.

Lemma midnight_shift day t :
  isLocalMidnight tza t ->
  isLocalMidnight tza (UTC tza (MakeDate day (TimeWithinDay (LocalTime tza t)))).
Proof.
  clear tza_west. intros Hm.
  unfold isLocalMidnight in *. unfold UTC, MakeDate, TimeWithinDay, LocalTime.
  rewrite Hm.
  replace (day * msPerDay + 0 - tza + tza) with (day * msPerDay) by lia.
  apply Z.mod_mul. unfold msPerDay. lia.
Qed.

Lemma setDate_isLocalMidnight t dt u :
  isLocalMidnight tza t -> setDate tza t dt = At u -> isLocalMidnight tza u.
Proof.
  unfold setDate. intros Hm H. apply TimeClip_At in H. subst u.
  apply midnight_shift. exact Hm.
Qed.

Lemma setMonth_isLocalMidnight t m u :
  isLocalMidnight tza t -> setMonth tza t m = At u -> isLocalMidnight tza u.
Proof.
  unfold setMonth. intros Hm H. apply TimeClip_At in H. subst u.
  apply midnight_shift. exact Hm.
Qed.

Lemma setFullYear_isLocalMidnight t y u :
  isLocalMidnight tza t -> setFullYear tza t y = At u -> isLocalMidnight tza u.
Proof.
  unfold setFullYear. intros Hm H. apply TimeClip_At in H. subst u.
  apply midnight_shift. exact Hm.
Qed.

Lemma calculateNextDueDate_isLocalMidnight (template : ExpenseData) t u :
  isLocalMidnight tza t ->
  calculateNextDueDate tza template (At t) = Some (At u) ->
  isLocalMidnight tza u.
Proof.
  intros Hm. unfold calculateNextDueDate.
  destruct (frequency template) as [[|]|]; try discriminate.
  destruct (recurrence template) as [[| | | |]|]; try discriminate;
    intros H.
  - assert (H' : setDate tza t (getDate tza t + intervalOf template) = At u)
      by congruence.
    exact (setDate_isLocalMidnight _ _ _ Hm H').
  - assert (H' : setDate tza t (getDate tza t + 7 * intervalOf template)
                 = At u) by congruence.
    exact (setDate_isLocalMidnight _ _ _ Hm H').
  - assert (H' : setMonth tza t (getMonth tza t + intervalOf template) = At u)
      by congruence.
    exact (setMonth_isLocalMidnight _ _ _ Hm H').
  - assert (H' : setFullYear tza t (getFullYear tza t + intervalOf template)
                 = At u) by congruence.
    exact (setFullYear_isLocalMidnight _ _ _ Hm H').
Qed.

Lemma calculateNextDueDate_plain (template : ExpenseData) d :
  0 < intervalOf template ->
  plainCandidate tza (Some d) ->
  plainCandidate tza (calculateNextDueDate tza template d).
Proof.
  intros Hpos Hd.
  destruct (calculateNextDueDate tza template d) as [[|u]|] eqn:Hn;
    try exact I.
  destruct d as [|x].
  - unfold calculateNextDueDate in Hn.
    destruct (frequency template) as [[|]|]; try discriminate.
    destruct (recurrence template) as [[| | | |]|]; discriminate.
  - destruct Hd as [Hm Hlo]. split.
    + eapply calculateNextDueDate_isLocalMidnight; eassumption.
    + apply calculateNextDueDate_advances in Hn; [|assumption].
      clear tza_west. unfold msPerDay in *. lia.
Qed.

Lemma parseDate_plain (template : ExpenseData) s :
  plainDates tza template ->
  date template = Some s \/ lastGeneratedDate template = Some s ->
  plainCandidate tza (Some (parseDate tza s)).
Proof.
  intros Hp Hs. specialize (Hp s Hs).
  destruct (parseDate tza s) as [|x] eqn:Hx; [exact I|].
  split; [eapply parseDate_isLocalMidnight; eassumption | exact Hp].
Qed.

Lemma firstCandidate_plain (template : ExpenseData) :
  0 < intervalOf template ->
  plainDates tza template ->
  plainCandidate tza (firstCandidate tza template).
Proof.
  intros Hpos Hp. unfold firstCandidate.
  destruct (truthyStr (lastGeneratedDate template)) eqn:Hl; cbn [negb].
  - destruct (lastGeneratedDate template) as [s|] eqn:Hs; [|discriminate].
    apply calculateNextDueDate_plain; [assumption|].
    apply (parseDate_plain template); auto.
  - destruct (date template) as [s|] eqn:Hs; [|exact I].
    apply (parseDate_plain template); auto.
Qed.

Lemma firstCandidate_advanceCursor (template : Expense) c :
  parseDate tza (toYYYYMMDD c) = At c ->
  firstCandidate tza (advanceCursor template (toYYYYMMDD c))
  = calculateNextDueDate tza template (At c).
Proof.
  intros Hp. unfold firstCandidate. cbn [advanceCursor fields withLastGenerated
                                          lastGeneratedDate].
  rewrite toYYYYMMDD_truthy. cbn [negb]. rewrite Hp. reflexivity.
Qed.

Section OneTemplate.

Variable template : Expense.
Variable expenses : list Expense.
Variable today : Z.
Hypothesis interval_pos : 0 < intervalOf template.
Hypothesis dates_plain : plainDates tza template.
Hypothesis today_iso : today < isoHi.

(** Where the loop of the first run stops: at the first candidate, the
    template untouched, or at the candidate after the cursor, which parses
    back from its string. *)
Lemma genLoop_stop fuel st upd st1 :
  genLoop tza uuid fuel template expenses today (firstCandidate tza template)
          template st = Some (upd, st1) ->
  exists n',
    stopsAt template expenses today n' st1
    /\ (due n' today = true -> fuel <> O)
    /\ ((upd = template /\ n' = firstCandidate tza template)
        \/ exists c, upd = advanceCursor template (toYYYYMMDD c)
                     /\ n' = calculateNextDueDate tza template (At c)
                     /\ parseDate tza (toYYYYMMDD c) = At c).
Proof.
  intros Hrun.
  destruct (genLoop_invariant tza uuid template expenses today
              (fun n u _ =>
                 plainCandidate tza n
                 /\ ((u = template /\ n = firstCandidate tza template)
                     \/ exists c,
                          u = advanceCursor template (toYYYYMMDD c)
                          /\ n = calculateNextDueDate tza template (At c)
                          /\ parseDate tza (toYYYYMMDD c) = At c)))
    with (fuel := fuel) (nextDue := firstCandidate tza template)
         (upd := template) (st := st) (upd' := upd) (st' := st1)
    as (n' & [_ HP] & Hstop & Hfuel).
  - intros t u s [[Hm Hlo] Hu] Ht _ _. split.
    + apply calculateNextDueDate_plain; [assumption | split; assumption].
    + right. exists t. split; [|split; [reflexivity|]].
      * destruct Hu as [[-> _] | (c & -> & _)]; reflexivity.
      * apply parseDate_toYYYYMMDD; [assumption | assumption | lia].
  - split; [apply firstCandidate_plain; assumption | left; split; reflexivity].
  - exact Hrun.
  - exists n'. repeat split; assumption.
Qed.

End OneTemplate.

Lemma optStr_eqb_refl o : optStr_eqb o o = true.
Proof. destruct o as [s|]; cbn; [apply String.eqb_refl | reflexivity]. Qed.

Lemma countBreak_mono (template : ExpenseData) a b :
  a <= b -> countBreak template a = true -> countBreak template b = true.
Proof.
  clear tza_west. intros Hab. unfold countBreak.
  destruct (recurrenceEndType template) as [[| |]|]; try discriminate.
  destruct (recurrenceCount template) as [n|]; try discriminate.
  destruct (n =? 0); cbn; [discriminate|].
  rewrite !Z.leb_le. lia.
Qed.

(** The loop of a template whose first candidate is where the loop of the
    first run stopped, run against at least as many instances, does
    nothing. *)
Lemma genLoop_stays (t t2 : Expense) E E2 today n' st1 s2 fuel :
  stopsAt t E today n' st1 ->
  (due n' today = true -> fuel <> O) ->
  (forall x, dateBreak t2 x = dateBreak t x) ->
  (forall k, countBreak t2 k = countBreak t k) ->
  totalGenerated t E st1 <= totalGenerated t2 E2 s2 ->
  genLoop tza uuid fuel t2 E2 today n' t2 s2 = Some (t2, s2).
Proof.
  clear tza_west. intros Hstop Hfuel Hd Hc Htot.
  destruct (due n' today) eqn:Hdue; [|apply genLoop_not_due; assumption].
  destruct fuel as [|fuel]; [exfalso; apply Hfuel; reflexivity|].
  destruct n' as [[|x]|]; try discriminate. cbn in Hdue. cbn.
  rewrite Hdue, Hd, Hc. apply Z.leb_le in Hdue.
  destruct (Hstop Hdue) as [H | H].
  - rewrite H. reflexivity.
  - rewrite (countBreak_mono t _ _ Htot H).
    destruct (dateBreak t x); reflexivity.
Qed.

Lemma processTemplate_stays (t t2 : Expense) E E2 today n' st1 s2 fuel :
  stopsAt t E today n' st1 ->
  (due n' today = true -> fuel <> O) ->
  (forall x, dateBreak t2 x = dateBreak t x) ->
  (forall k, countBreak t2 k = countBreak t k) ->
  totalGenerated t E st1 <= totalGenerated t2 E2 s2 ->
  firstCandidate tza t2 = n' ->
  truthyStr (date t2) = true ->
  processTemplate tza uuid fuel E2 today s2 t2 = Some s2.
Proof.
  clear tza_west. intros Hstop Hfuel Hd Hc Htot Hn Hdate.
  unfold processTemplate. rewrite Hdate, Hn. cbn [negb].
  rewrite (genLoop_stays t t2 E E2 today n' st1 s2 fuel) by assumption.
  rewrite optStr_eqb_refl, andb_false_r. reflexivity.
Qed.

Lemma applyTemplates_map st prev :
  applyTemplates st prev = map (mergeTemplate st) prev.
Proof.
  clear tza_west. unfold applyTemplates, mergeTemplate.
  destruct (templatesToUpdate st) eqn:Hu; [|reflexivity].
  cbn. symmetry. apply map_id.
Qed.

(** How a run changes the state: more queued instances, and updated
    templates whose ids are ids of the list. *)
Lemma forEachTemplate_grows fuel E today :
  forall rest s st,
    forEachTemplate tza uuid fuel E today rest s = Some st ->
    exists added us,
      newExpenses st = newExpenses s ++ added
      /\ templatesToUpdate st = templatesToUpdate s ++ us
      /\ Forall (fun u : Expense => In (id u) (map id rest)) us.
Proof.
  clear tza_west.
  induction rest as [|t rest IH]; intros s st; cbn.
  - intros [= <-]. exists [], []. rewrite !app_nil_r. repeat split.
    constructor.
  - destruct (processTemplate tza uuid fuel E today s t) as [s1|] eqn:Hp;
      [|discriminate].
    intros Hrest. destruct (IH _ _ Hrest) as (added & us & Hn & Hu & Hin).
    apply processTemplate_cases in Hp.
    assert (H1 : exists added1 us1,
               newExpenses s1 = newExpenses s ++ added1
               /\ templatesToUpdate s1 = templatesToUpdate s ++ us1
               /\ Forall (fun u : Expense => id u = id t) us1).
    { destruct Hp as [[_ ->] | (_ & upd & st1 & Hrun & Hst)].
      - exists [], []. cbn. rewrite !app_nil_r. repeat split. constructor.
      - pose proof (genLoop_extends _ _ _ _ _ _ _ _ _ _ _ Hrun)
          as [(Hu1 & _ & added1 & Hn1 & _) Hupd].
        destruct Hst as [[-> _] | (_ & _ & ->)].
        + exists added1, []. rewrite app_nil_r. repeat split; try assumption.
          constructor.
        + exists added1, [upd]. cbn. rewrite Hu1. repeat split; try assumption.
          constructor; [|constructor].
          destruct Hupd as [-> | (x & _ & ->)]; reflexivity. }
    destruct H1 as (added1 & us1 & Hn1 & Hu1 & Hid1).
    exists (added1 ++ added), (us1 ++ us).
    rewrite Hn, Hn1, Hu, Hu1, <- !app_assoc. repeat split.
    apply Forall_app. split.
    + eapply Forall_impl; [|exact Hid1]. intros u ->. left. reflexivity.
    + eapply Forall_impl; [|exact Hin]. intros u Hu'. right. assumption.
Qed.

Lemma find_none_ids (tid : string) (l : list Expense) :
  ~ In tid (map id l) ->
  find (fun ut : Expense => String.eqb (id ut) tid) l = None.
Proof.
  clear tza_west.
  induction l as [|u l IH]; intros Hn; cbn; [reflexivity|].
  destruct (String.eqb_spec (id u) tid) as [He | _].
  - exfalso. apply Hn. left. assumption.
  - apply IH. intros Hin. apply Hn. right. assumption.
Qed.

Lemma find_app_none {A} (f : A -> bool) l1 l2 :
  find f l1 = None -> find f (l1 ++ l2) = find f l2.
Proof.
  clear tza_west.
  induction l1 as [|a l1 IH]; cbn; [reflexivity|].
  destruct (f a); [discriminate | exact IH].
Qed.

Lemma Forall_ids_notin (tid : string) (rest us : list Expense) :
  ~ In tid (map id rest) ->
  Forall (fun u : Expense => In (id u) (map id rest)) us ->
  ~ In tid (map id us).
Proof.
  clear tza_west. intros Hn Hall Hin. apply in_map_iff in Hin.
  destruct Hin as (u & Hid & Hu). rewrite Forall_forall in Hall.
  apply Hn. rewrite <- Hid. apply Hall. assumption.
Qed.

Lemma mergeTemplate_none st (t : Expense) :
  ~ In (id t) (map id (templatesToUpdate st)) -> mergeTemplate st t = t.
Proof.
  clear tza_west. intros Hn. unfold mergeTemplate.
  rewrite find_none_ids by assumption. reflexivity.
Qed.

Lemma mergeTemplate_found st (t upd : Expense) pre post :
  templatesToUpdate st = pre ++ upd :: post ->
  ~ In (id t) (map id pre) ->
  id upd = id t ->
  mergeTemplate st t = upd.
Proof.
  clear tza_west. intros Hu Hn Hid. unfold mergeTemplate.
  rewrite Hu, find_app_none by (apply find_none_ids; assumption).
  cbn. rewrite Hid, String.eqb_refl. reflexivity.
Qed.

Lemma countRefs_nil tid : countRefs tid [] = 0.
Proof. reflexivity. Qed.

(** The second run over the merged templates, against the merged
    expenses, leaves the delta empty. *)
Lemma second_run fuel E today E2 st :
  today < isoHi ->
  (forall tid,
      countRefs tid E + countRefs tid (newExpenses st) <= countRefs tid E2) ->
  forall rest s,
    NoDup (map id rest) ->
    (forall t : Expense,
        In t rest -> 0 < intervalOf t /\ plainDates tza t) ->
    (forall u : Expense,
        In u (templatesToUpdate s) -> ~ In (id u) (map id rest)) ->
    forEachTemplate tza uuid fuel E today rest s = Some st ->
    forall s2,
      newExpenses s2 = [] -> templatesToUpdate s2 = [] ->
      exists s2',
        forEachTemplate tza uuid fuel E2 today (map (mergeTemplate st) rest) s2
        = Some s2'
        /\ newExpenses s2' = [] /\ templatesToUpdate s2' = []
        /\ uuidCalls s2' = uuidCalls s2.
Proof.
  intros Htoday Hcount.
  induction rest as [|t rest IH]; intros s Hnd Hwf Hold Hrun s2 Hn2 Hu2.
  - exists s2. cbn. repeat split; assumption.
  - cbn in Hrun.
    destruct (processTemplate tza uuid fuel E today s t) as [s1|] eqn:Hp;
      [|discriminate].
    cbn in Hnd. apply NoDup_cons_iff in Hnd. destruct Hnd as [Hnotin Hnd].
    destruct (Hwf t (or_introl eq_refl)) as [Hpos Hplain].
    destruct (forEachTemplate_grows _ _ _ _ _ _ Hrun)
      as (added & us & Hnew & Hupd & Hus).
    assert (Hus_t : ~ In (id t) (map id us))
      by (eapply Forall_ids_notin; eassumption).
    assert (Hold_t : ~ In (id t) (map id (templatesToUpdate s))).
    { intros Hin. apply in_map_iff in Hin. destruct Hin as (u & Hid & Hu).
      apply (Hold u Hu). left. symmetry. assumption. }
    assert (Hold' : forall u : Expense,
               In u (templatesToUpdate s) -> ~ In (id u) (map id rest))
      by (intros u Hu Hin; apply (Hold u Hu); right; assumption).
    cbn [map forEachTemplate].
    pose proof Hp as Hcases. apply processTemplate_cases in Hcases.
    destruct Hcases as [[Hdate ->] | (Hdate & upd & st1 & Hloop & Hst)].
    + (* no start date: skipped in both runs *)
      cbn in Hupd.
      rewrite mergeTemplate_none
        by (rewrite Hupd, map_app, in_app_iff; tauto).
      unfold processTemplate at 1. rewrite Hdate. cbn [negb].
      destruct (IH (mkGen (newExpenses s) (templatesToUpdate s)
                          (warnings s ++ [t]) (uuidCalls s))
                   Hnd (fun t' H' => Hwf t' (or_intror H')) Hold' Hrun
                   (mkGen (newExpenses s2) (templatesToUpdate s2)
                          (warnings s2 ++ [t]) (uuidCalls s2)) Hn2 Hu2)
        as (s2' & H1 & H2 & H3 & H4).
      exists s2'. repeat split; assumption.
    + pose proof (genLoop_extends _ _ _ _ _ _ _ _ _ _ _ Hloop)
        as [(Hu1 & _ & added1 & Hn1 & _) Hshape].
      destruct (genLoop_stop t E today Hpos Hplain Htoday _ _ _ _ Hloop)
        as (n' & Hstop & Hfuel & Hupdshape).
      assert (Htot : forall t2 : Expense,
                 id t2 = id t ->
                 totalGenerated t E st1 <= totalGenerated t2 E2 s2).
      { intros t2 Hid. unfold totalGenerated. rewrite Hid, Hn2, countRefs_nil.
        specialize (Hcount (id t)).
        assert (Hs1 : newExpenses s1 = newExpenses st1)
          by (destruct Hst as [[-> _] | (_ & _ & ->)]; reflexivity).
        rewrite Hnew, Hs1, countRefs_app in Hcount.
        pose proof (countRefs_nonneg (id t) added). lia. }
      assert (Hstay : processTemplate tza uuid fuel E2 today s2
                                      (mergeTemplate st t) = Some s2
                      /\ forall u : Expense,
                           In u (templatesToUpdate s1) ->
                           ~ In (id u) (map id rest)).
      { destruct Hst as [[-> Hsame] | (Htr & Hne & ->)].
        - (* the first run did not update the template *)
          rewrite Hu1 in Hupd.
          rewrite mergeTemplate_none
            by (rewrite Hupd, map_app, in_app_iff; tauto).
          split; [|rewrite Hu1; exact Hold'].
          apply (processTemplate_stays t t E E2 today n' st1 s2 fuel);
            try assumption; try reflexivity.
          + apply Htot. reflexivity.
          + destruct Hupdshape as [[_ ->] | (c & -> & -> & Hparse)];
              [reflexivity|].
            cbn in Hsame. destruct Hsame as [Hf | Hlast].
            * pose proof (toYYYYMMDD_truthy c) as Ht. cbn in Ht, Hf.
              rewrite Hf in Ht. discriminate.
            * unfold firstCandidate. rewrite <- Hlast.
              rewrite toYYYYMMDD_truthy. cbn [negb]. rewrite Hparse.
              reflexivity.
        - (* the first run updated it: the merge puts [upd] in its place *)
          cbn in Hupd. rewrite Hu1, <- app_assoc in Hupd. cbn in Hupd.
          destruct Hupdshape as [[-> _] | (c & -> & -> & Hparse)];
            [contradiction Hne; reflexivity|].
          rewrite (mergeTemplate_found st t _ _ _ Hupd Hold_t eq_refl).
          split.
          + apply (processTemplate_stays
                     t (advanceCursor t (toYYYYMMDD c)) E E2 today
                     (calculateNextDueDate tza t (At c)) st1 s2 fuel);
              try assumption; try reflexivity.
            * apply Htot. reflexivity.
            * apply firstCandidate_advanceCursor. assumption.
          + cbn. rewrite Hu1. intros u Hin. apply in_app_iff in Hin.
            destruct Hin as [Hin | [<- | []]]; [apply Hold'; assumption|].
            exact Hnotin. }
      destruct Hstay as [Hstay Hold1]. rewrite Hstay.
      apply (IH s1 Hnd (fun t' H' => Hwf t' (or_intror H')) Hold1 Hrun s2
                Hn2 Hu2).
Qed.

(** Where local time is UTC or behind it: on templates with distinct ids,
    positive intervals and stored dates not before the year 0100, and
    before the year 10000, running the effect again on what the first run
    produced, with the same [today], queues nothing and updates nothing. *)
Lemma second_run_is_empty_at_or_west_of_UTC fuel calls templates expenses
    today st :
  today < isoHi ->
  NoDup (map id templates) ->
  (forall t : Expense,
      In t templates -> 0 < intervalOf t /\ plainDates tza t) ->
  generate tza uuid fuel calls templates expenses today = Some st ->
  exists st2,
    generate tza uuid fuel (uuidCalls st) (applyTemplates st templates)
             (applyExpenses st expenses) today = Some st2
    /\ newExpenses st2 = [] /\ templatesToUpdate st2 = []
    /\ uuidCalls st2 = uuidCalls st.
Proof.
  intros Htoday Hnd Hwf Hrun. unfold generate in *.
  rewrite applyTemplates_map.
  assert (Hc : forall tid,
             countRefs tid expenses + countRefs tid (newExpenses st)
             <= countRefs tid (applyExpenses st expenses))
    by (intros tid; rewrite applyExpenses_app, countRefs_app; lia).
  assert (Hempty : forall u : Expense,
             In u (templatesToUpdate (mkGen [] [] [] calls)) ->
             ~ In (id u) (map id templates))
    by (intros u []).
  exact (second_run fuel expenses today (applyExpenses st expenses) st Htoday
                    Hc templates (mkGen [] [] [] calls) Hnd Hwf Hempty Hrun
                    (mkGen [] [] [] (uuidCalls st)) eq_refl eq_refl).
Qed.

End Idempotence.

(** The lemma applies to scenario A where local time is UTC. *)
Lemma second_run_is_empty_at_or_west_of_UTC_example :
  exists st st2,
    generate Scenario.utc Scenario.uuidOf 10 0 [Scenario.scenarioA] []
             (Scenario.midnight Scenario.utc "2024-01-04") = Some st
    /\ generate Scenario.utc Scenario.uuidOf 10 (uuidCalls st)
                (applyTemplates st [Scenario.scenarioA]) (applyExpenses st [])
                (Scenario.midnight Scenario.utc "2024-01-04") = Some st2
    /\ newExpenses st2 = [] /\ templatesToUpdate st2 = []
    /\ uuidCalls st2 = uuidCalls st.
Proof.
  assert (H : exists st,
             generate Scenario.utc Scenario.uuidOf 10 0 [Scenario.scenarioA] []
                      (Scenario.midnight Scenario.utc "2024-01-04") = Some st)
    by (eexists; vm_compute; reflexivity).
  destruct H as [st H].
  assert (Hz : - JSDate.msPerDay < Scenario.utc <= 0)
    by (vm_compute; split; [reflexivity | discriminate]).
  destruct (second_run_is_empty_at_or_west_of_UTC
              Scenario.utc Scenario.uuidOf Hz 10 0 [Scenario.scenarioA] []
              (Scenario.midnight Scenario.utc "2024-01-04") st)
    as (st2 & H2).
  - vm_compute. reflexivity.
  - constructor; [intros [] | constructor].
  - intros t [<- | []]. split; [reflexivity|].
    intros s [Hs | Hs]; [|discriminate Hs].
    injection Hs as <-. vm_compute. discriminate.
  - exact H.
  - exists st, st2. split; [exact H | exact H2].
Qed.

(* ================================================================== *)
(** * Scenario A in every time zone *)
(* ================================================================== *)

Section ScenarioAInZone.

Import JSDate JSDateFacts RoundTrip.

Variable tza : Z.
Hypothesis tza_range : - msPerDay < tza < msPerDay.

Lemma TimeClip_small x : Z.abs x <= maxTime -> TimeClip x = At x.
Proof.
  clear tza_range. intros H. unfold TimeClip.
  apply Z.leb_le in H. rewrite H. reflexivity.
Qed.

(** [setDate(getDate() + n)] as an equation. *)
Lemma setDate_getDate_eq t n :
  setDate tza t (getDate tza t + n) = TimeClip (t + n * msPerDay).
Proof.
  clear tza_range.
  unfold setDate, getDate, YearFromTime, MonthFromTime, DateFromTime.
  cbv zeta.
  rewrite MakeDay_date, MakeDay_fields, MakeDate_Day_TimeWithinDay.
  f_equal. unfold UTC, LocalTime. lia.
Qed.

(** The date string only depends on the UTC day number. *)
Lemma toYYYYMMDD_Day t k :
  Day t = k -> toYYYYMMDD t = toYYYYMMDD (k * msPerDay).
Proof.
  clear tza_range. intros <-.
  unfold toYYYYMMDD, isoDatePart, YearFromTime, MonthFromTime, DateFromTime.
  replace (Day (Day t * msPerDay)) with (Day t); [reflexivity|].
  unfold Day. symmetry. apply Z.div_mul. unfold msPerDay. lia.
Qed.

(** Local midnight of day number [k]. *)
Lemma Day_localMidnight_west k :
  tza <= 0 -> Day (k * msPerDay - tza) = k.
Proof.
  intros H. unfold Day, msPerDay in *. Z.div_mod_to_equations. lia.
Qed.

Lemma Day_localMidnight_east k :
  0 < tza -> Day (k * msPerDay - tza) = k - 1.
Proof.
  intros H. unfold Day, msPerDay in *. Z.div_mod_to_equations. lia.
Qed.

Lemma genLoop_step uuid fuel (template : Expense) expenses today t upd st :
  t <= today ->
  dateBreak template t = false ->
  countBreak template (totalGenerated template expenses st) = false ->
  genLoop tza uuid (S fuel) template expenses today (Some (At t)) upd st
  = genLoop tza uuid fuel template expenses today
            (calculateNextDueDate tza template (At t))
            (advanceCursor upd (toYYYYMMDD t))
            (materialize uuid template expenses st (toYYYYMMDD t)).
Proof.
  clear tza_range. intros Ht Hd Hc. cbn [genLoop].
  apply Z.leb_le in Ht. rewrite Ht, Hd, Hc. reflexivity.
Qed.

Lemma genLoop_past uuid fuel (template : Expense) expenses today t upd st :
  today < t ->
  genLoop tza uuid fuel template expenses today (Some (At t)) upd st
  = Some (upd, st).
Proof.
  clear tza_range. intros Ht. apply genLoop_not_due. cbn.
  apply Z.leb_gt. assumption.
Qed.

Lemma parse_scenario_day (s : string) (k : Z) :
  parseDate 0 s = At (k * msPerDay) ->
  Z.abs (k * msPerDay) + msPerDay <= maxTime ->
  parseDate tza s = At (k * msPerDay - tza).
Proof.
  unfold parseDate, newDate.
  destruct (nth 0 (map Number (split "-" s)) None) as [y|]; try discriminate.
  destruct (option_map (fun m => m - 1)
                       (nth 1 (map Number (split "-" s)) None)) as [m|];
    try discriminate.
  destruct (nth 2 (map Number (split "-" s)) None) as [d|]; try discriminate.
  set (day := MakeDay (if (0 <=? y) && (y <=? 99) then 1900 + y else y) m d).
  intros H Hsmall. apply TimeClip_At in H.
  unfold UTC, MakeDate in *.
  replace (day * msPerDay + 0 - tza) with (k * msPerDay - tza) by lia.
  apply TimeClip_small. unfold msPerDay, maxTime in *. lia.
Qed.


(** One iteration of the loop of a template without end whose rule adds
    [n] days. *)
Lemma fixed_step uuid fuel (template : Expense) expenses today k k' n upd st s :
  k' = k + n ->
  (forall t, calculateNextDueDate tza template (At t)
             = Some (setDate tza t (getDate tza t + n))) ->
  recurrenceEndType template = None ->
  k * msPerDay - tza <= today ->
  Z.abs (k' * msPerDay) + msPerDay <= maxTime ->
  toYYYYMMDD (k * msPerDay - tza) = s ->
  genLoop tza uuid (S fuel) template expenses today
          (Some (At (k * msPerDay - tza))) upd st
  = genLoop tza uuid fuel template expenses today
            (Some (At (k' * msPerDay - tza)))
            (advanceCursor upd s) (materialize uuid template expenses st s).
Proof.
  intros -> Hcalc He Hle Hsmall Hs.
  rewrite genLoop_step; try assumption.
  - rewrite Hs. f_equal. rewrite Hcalc, setDate_getDate_eq. f_equal.
    replace (k * msPerDay - tza + n * msPerDay)
      with ((k + n) * msPerDay - tza) by lia.
    apply TimeClip_small. unfold msPerDay, maxTime in *. lia.
  - unfold dateBreak. rewrite He. reflexivity.
  - unfold countBreak. rewrite He. reflexivity.
Qed.

Lemma calculateNextDueDate_scenarioA t :
  calculateNextDueDate tza Scenario.scenarioA (At t)
  = Some (setDate tza t (getDate tza t + 1)).
Proof. reflexivity. Qed.

Lemma firstCandidate_scenarioA :
  firstCandidate tza Scenario.scenarioA = Some (parseDate tza "2024-01-01").
Proof. reflexivity. Qed.

Lemma parse_jan1 : parseDate tza "2024-01-01" = At (19723 * msPerDay - tza).
Proof.
  apply parse_scenario_day; [vm_compute; reflexivity|].
  vm_compute. discriminate.
Qed.

Lemma midnight_jan4 :
  Scenario.midnight tza "2024-01-04" = 19726 * msPerDay - tza.
Proof.
  unfold Scenario.midnight.
  rewrite (parse_scenario_day "2024-01-04" 19726);
    [reflexivity | vm_compute; reflexivity | vm_compute; discriminate].
Qed.

(** Scenario A with the date strings [s0 .. s3] of its four candidates. *)
Lemma scenarioA_with s0 s1 s2 s3 :
  toYYYYMMDD (19723 * msPerDay - tza) = s0 ->
  toYYYYMMDD (19724 * msPerDay - tza) = s1 ->
  toYYYYMMDD (19725 * msPerDay - tza) = s2 ->
  toYYYYMMDD (19726 * msPerDay - tza) = s3 ->
  genLoop tza Scenario.uuidOf 10 Scenario.scenarioA []
          (Scenario.midnight tza "2024-01-04")
          (firstCandidate tza Scenario.scenarioA) Scenario.scenarioA
          (mkGen [] [] [] 0)
  = Some (advanceCursor
            (advanceCursor
               (advanceCursor (advanceCursor Scenario.scenarioA s0) s1) s2) s3,
          materialize Scenario.uuidOf Scenario.scenarioA []
            (materialize Scenario.uuidOf Scenario.scenarioA []
               (materialize Scenario.uuidOf Scenario.scenarioA []
                  (materialize Scenario.uuidOf Scenario.scenarioA []
                     (mkGen [] [] [] 0) s0) s1) s2) s3).
Proof.
  intros H0 H1 H2 H3.
  rewrite firstCandidate_scenarioA, parse_jan1, midnight_jan4.
  assert (Hsmall : forall k, 0 <= k <= 20000 ->
             Z.abs (k * msPerDay) + msPerDay <= maxTime)
    by (intros k Hk; unfold msPerDay, maxTime; lia).
  rewrite (fixed_step Scenario.uuidOf 9 Scenario.scenarioA []
                      (19726 * msPerDay - tza) 19723 19724 1 _ _ s0
                      eq_refl calculateNextDueDate_scenarioA eq_refl)
    by (assumption || (apply Hsmall; lia) || (unfold msPerDay; lia)).
  rewrite (fixed_step Scenario.uuidOf 8 Scenario.scenarioA []
                      (19726 * msPerDay - tza) 19724 19725 1 _ _ s1
                      eq_refl calculateNextDueDate_scenarioA eq_refl)
    by (assumption || (apply Hsmall; lia) || (unfold msPerDay; lia)).
  rewrite (fixed_step Scenario.uuidOf 7 Scenario.scenarioA []
                      (19726 * msPerDay - tza) 19725 19726 1 _ _ s2
                      eq_refl calculateNextDueDate_scenarioA eq_refl)
    by (assumption || (apply Hsmall; lia) || (unfold msPerDay; lia)).
  rewrite (fixed_step Scenario.uuidOf 6 Scenario.scenarioA []
                      (19726 * msPerDay - tza) 19726 19727 1 _ _ s3
                      eq_refl calculateNextDueDate_scenarioA eq_refl)
    by (assumption || (apply Hsmall; lia) || (unfold msPerDay; lia)).
  apply genLoop_past. unfold msPerDay. lia.
Qed.

End ScenarioAInZone.

(** Scenario A holds wherever local time is UTC or behind it: four
    instances dated 2024-01-01 to 2024-01-04, cursor 2024-01-04. *)
Lemma scenarioA_at_or_west_of_UTC (tza : Z) :
  - JSDate.msPerDay < tza <= 0 ->
  exists st,
    generate tza Scenario.uuidOf 10 0 [Scenario.scenarioA] []
             (Scenario.midnight tza "2024-01-04") = Some st
    /\ map (fun e : Expense => date e) (newExpenses st)
       = [Some "2024-01-01"; Some "2024-01-02"; Some "2024-01-03";
          Some "2024-01-04"]
    /\ map (fun t : Expense => lastGeneratedDate t) (templatesToUpdate st)
       = [Some "2024-01-04"].
Proof.
  intros Hz.
  assert (Hr : - JSDate.msPerDay < tza < JSDate.msPerDay)
    by (unfold JSDate.msPerDay in *; lia).
  assert (Hs : forall k s,
             toYYYYMMDD (k * JSDate.msPerDay) = s ->
             toYYYYMMDD (k * JSDate.msPerDay - tza) = s).
  { intros k s <-. apply toYYYYMMDD_Day.
    apply Day_localMidnight_west; [exact Hr | lia]. }
  eexists. split.
  - unfold generate. cbn [forEachTemplate]. unfold processTemplate.
    change (truthyStr (date Scenario.scenarioA)) with true. cbn [negb].
    rewrite (scenarioA_with tza Hr "2024-01-01" "2024-01-02" "2024-01-03"
                            "2024-01-04")
      by (apply Hs; vm_compute; reflexivity).
    vm_compute. reflexivity.
  - split; reflexivity.
Qed.

(** Scenario A wherever local time is ahead of UTC: the four instances are
    dated 2023-12-31 to 2024-01-03 and the cursor is 2024-01-03. *)
Lemma scenarioA_east_of_UTC (tza : Z) :
  0 < tza < JSDate.msPerDay ->
  exists st,
    generate tza Scenario.uuidOf 10 0 [Scenario.scenarioA] []
             (Scenario.midnight tza "2024-01-04") = Some st
    /\ map (fun e : Expense => date e) (newExpenses st)
       = [Some "2023-12-31"; Some "2024-01-01"; Some "2024-01-02";
          Some "2024-01-03"]
    /\ map (fun t : Expense => lastGeneratedDate t) (templatesToUpdate st)
       = [Some "2024-01-03"].
Proof.
  intros Hz.
  assert (Hr : - JSDate.msPerDay < tza < JSDate.msPerDay)
    by (unfold JSDate.msPerDay in *; lia).
  assert (Hs : forall k s,
             toYYYYMMDD ((k - 1) * JSDate.msPerDay) = s ->
             toYYYYMMDD (k * JSDate.msPerDay - tza) = s).
  { intros k s <-. apply toYYYYMMDD_Day.
    apply Day_localMidnight_east; [exact Hr | lia]. }
  eexists. split.
  - unfold generate. cbn [forEachTemplate]. unfold processTemplate.
    change (truthyStr (date Scenario.scenarioA)) with true. cbn [negb].
    rewrite (scenarioA_with tza Hr "2023-12-31" "2024-01-01" "2024-01-02"
                            "2024-01-03")
      by (apply Hs; vm_compute; reflexivity).
    vm_compute. reflexivity.
  - split; reflexivity.
Qed.

Section WeeklyInZone.

Import JSDate JSDateFacts RoundTrip.

Variable tza : Z.
Hypothesis tza_range : - msPerDay < tza < msPerDay.

Lemma calculateNextDueDate_weekly t :
  calculateNextDueDate tza Scenario.weekly (At t)
  = Some (setDate tza t (getDate tza t + 7)).
Proof. reflexivity. Qed.

Lemma calculateNextDueDate_weeklyAdvanced t :
  calculateNextDueDate tza Scenario.weeklyAdvanced (At t)
  = Some (setDate tza t (getDate tza t + 7)).
Proof. reflexivity. Qed.

Lemma midnight_jan14 :
  Scenario.midnight tza "2024-01-14" = 19736 * msPerDay - tza.
Proof.
  unfold Scenario.midnight.
  rewrite (parse_scenario_day tza tza_range "2024-01-14" 19736);
    [reflexivity | vm_compute; reflexivity | vm_compute; discriminate].
Qed.

Lemma small_day k :
  0 <= k <= 20000 -> Z.abs (k * msPerDay) + msPerDay <= maxTime.
Proof. clear tza_range. intros Hk. unfold msPerDay, maxTime. lia. Qed.

(** The loop of the first run: candidates 2024-01-01 and 2024-01-08. *)
Lemma weekly_first_loop s0 s1 :
  toYYYYMMDD (19723 * msPerDay - tza) = s0 ->
  toYYYYMMDD (19730 * msPerDay - tza) = s1 ->
  genLoop tza Scenario.uuidOf 10 Scenario.weekly []
          (Scenario.midnight tza "2024-01-14")
          (firstCandidate tza Scenario.weekly) Scenario.weekly
          (mkGen [] [] [] 0)
  = Some (advanceCursor (advanceCursor Scenario.weekly s0) s1,
          materialize Scenario.uuidOf Scenario.weekly []
            (materialize Scenario.uuidOf Scenario.weekly []
               (mkGen [] [] [] 0) s0) s1).
Proof.
  intros H0 H1.
  change (firstCandidate tza Scenario.weekly)
    with (Some (parseDate tza "2024-01-01")).
  rewrite (parse_jan1 tza tza_range), midnight_jan14.
  rewrite (fixed_step tza tza_range Scenario.uuidOf 9 Scenario.weekly []
                      (19736 * msPerDay - tza) 19723 19730 7 _ _ s0
                      eq_refl calculateNextDueDate_weekly eq_refl)
    by (assumption || (apply small_day; lia) || (unfold msPerDay; lia)).
  rewrite (fixed_step tza tza_range Scenario.uuidOf 8 Scenario.weekly []
                      (19736 * msPerDay - tza) 19730 19737 7 _ _ s1
                      eq_refl calculateNextDueDate_weekly eq_refl)
    by (assumption || (apply small_day; lia) || (unfold msPerDay; lia)).
  apply genLoop_past. unfold msPerDay. lia.
Qed.

(** The loop of the second run, from the cursor 2024-01-07: the candidate
    is the local midnight of 2024-01-14. *)
Lemma weekly_second_loop s :
  toYYYYMMDD (19736 * msPerDay - tza) = s ->
  genLoop tza Scenario.uuidOf 10 Scenario.weeklyAdvanced
          Scenario.weeklyInstances (Scenario.midnight tza "2024-01-14")
          (firstCandidate tza Scenario.weeklyAdvanced) Scenario.weeklyAdvanced
          (mkGen [] [] [] 2)
  = Some (advanceCursor Scenario.weeklyAdvanced s,
          materialize Scenario.uuidOf Scenario.weeklyAdvanced
                      Scenario.weeklyInstances (mkGen [] [] [] 2) s).
Proof.
  intros Hs.
  change (firstCandidate tza Scenario.weeklyAdvanced)
    with (calculateNextDueDate tza Scenario.weeklyAdvanced
                               (parseDate tza "2024-01-07")).
  rewrite (parse_scenario_day tza tza_range "2024-01-07" 19729)
    by (vm_compute; reflexivity || discriminate).
  rewrite calculateNextDueDate_weeklyAdvanced, setDate_getDate_eq.
  replace (19729 * msPerDay - tza + 7 * msPerDay)
    with (19736 * msPerDay - tza) by lia.
  rewrite TimeClip_small by (unfold msPerDay, maxTime in *; lia).
  rewrite midnight_jan14.
  rewrite (fixed_step tza tza_range Scenario.uuidOf 9 Scenario.weeklyAdvanced
                      Scenario.weeklyInstances
                      (19736 * msPerDay - tza) 19736 19743 7 _ _ s
                      eq_refl calculateNextDueDate_weeklyAdvanced eq_refl)
    by (assumption || (apply small_day; lia) || (unfold msPerDay; lia)).
  apply genLoop_past. unfold msPerDay. lia.
Qed.

End WeeklyInZone.

(** Wherever local time is ahead of UTC, the second run on the weekly
    template is not empty: it queues an instance dated 2024-01-13 and
    moves the cursor there. *)
Lemma second_run_not_empty_east_of_UTC (tza : Z) :
  0 < tza < JSDate.msPerDay ->
  exists st1 st2,
    generate tza Scenario.uuidOf 10 0 [Scenario.weekly] []
             (Scenario.midnight tza "2024-01-14") = Some st1
    /\ generate tza Scenario.uuidOf 10 (uuidCalls st1)
                (applyTemplates st1 [Scenario.weekly]) (applyExpenses st1 [])
                (Scenario.midnight tza "2024-01-14") = Some st2
    /\ map (fun e : Expense => date e) (newExpenses st2) = [Some "2024-01-13"]
    /\ map (fun t : Expense => lastGeneratedDate t) (templatesToUpdate st2)
       = [Some "2024-01-13"].
Proof.
  intros Hz.
  assert (Hr : - JSDate.msPerDay < tza < JSDate.msPerDay)
    by (unfold JSDate.msPerDay in *; lia).
  assert (Hs : forall k s,
             toYYYYMMDD ((k - 1) * JSDate.msPerDay) = s ->
             toYYYYMMDD (k * JSDate.msPerDay - tza) = s).
  { intros k s <-. apply toYYYYMMDD_Day.
    apply Day_localMidnight_east; [exact Hr | lia]. }
  eexists. eexists. split; [|split].
  - unfold generate. cbn [forEachTemplate]. unfold processTemplate.
    change (truthyStr (date Scenario.weekly)) with true. cbn [negb].
    rewrite (weekly_first_loop tza Hr "2023-12-31" "2024-01-07")
      by (apply Hs; vm_compute; reflexivity).
    vm_compute. reflexivity.
  - match goal with
    | |- generate _ _ _ ?c ?T ?E _ = _ =>
        change c with 2%nat; change T with [Scenario.weeklyAdvanced];
        change E with Scenario.weeklyInstances
    end.
    unfold generate. cbn [forEachTemplate]. unfold processTemplate.
    change (truthyStr (date Scenario.weeklyAdvanced)) with true. cbn [negb].
    rewrite (weekly_second_loop tza Hr "2024-01-13")
      by (apply Hs; vm_compute; reflexivity).
    vm_compute. reflexivity.
  - split; reflexivity.
Qed.

(* ================================================================== *)
(** * More facts about the calendar *)
(* ================================================================== *)

Module CalendarFacts.

Import JSDate JSDateFacts RoundTrip JSCalendar.

Lemma month_cases m :
  0 <= m <= 11 ->
  m = 0 \/ m = 1 \/ m = 2 \/ m = 3 \/ m = 4 \/ m = 5 \/ m = 6 \/ m = 7
  \/ m = 8 \/ m = 9 \/ m = 10 \/ m = 11.
Proof. lia. Qed.

Lemma monthLength_range leap m : 0 <= m <= 11 -> 28 <= monthLength leap m <= 31.
Proof.
  intros H. apply month_cases in H.
  destruct leap;
    repeat (destruct H as [-> | H]; [cbn; lia|]); subst; cbn; lia.
Qed.

Lemma monthStart_range leap m : 0 <= m <= 11 -> 0 <= monthStart leap m <= 335.
Proof.
  intros H. apply month_cases in H.
  destruct leap;
    repeat (destruct H as [-> | H]; [cbn; lia|]); subst; cbn; lia.
Qed.

Lemma monthStart_next leap m :
  0 <= m < 11 -> monthStart leap (m + 1) = monthStart leap m + monthLength leap m.
Proof.
  intros H. unfold monthLength.
  destruct (Z.eqb_spec m 11); lia.
Qed.

Lemma monthStart_last leap :
  monthStart leap 11 + monthLength leap 11 = if leap then 366 else 365.
Proof. destruct leap; reflexivity. Qed.

(** The month of a day number is the one whose days contain it. *)
Lemma MonthFromDay_spec k :
  monthStart (isLeap (YearFromDay k)) (MonthFromDay k) <= DayWithinYear k
  < monthStart (isLeap (YearFromDay k)) (MonthFromDay k)
    + monthLength (isLeap (YearFromDay k)) (MonthFromDay k).
Proof.
  pose proof (DayWithinYear_range k) as Hw.
  unfold MonthFromDay, DaysInYear in *.
  set (w := DayWithinYear k) in *. clearbody w.
  destruct (isLeap (YearFromDay k));
    repeat match goal with
           | |- context [if ?a <? ?b then _ else _] =>
               destruct (Z.ltb_spec a b); [cbn in *; lia|]
           end; cbn in *; lia.
Qed.

Lemma DateFromDay_le k :
  1 <= DateFromDay k
  <= monthLength (isLeap (YearFromDay k)) (MonthFromDay k).
Proof.
  pose proof (MonthFromDay_spec k). unfold DateFromDay. lia.
Qed.

Lemma YearFromDay_unique k y :
  DayFromYear y <= k < DayFromYear (y + 1) -> YearFromDay k = y.
Proof.
  intros [H1 H2]. pose proof (YearFromDay_spec k) as [H3 H4].
  destruct (Z.lt_trichotomy (YearFromDay k) y) as [Hlt | [E | Hgt]];
    [|assumption|].
  - pose proof (DayFromYear_mono (YearFromDay k + 1) y). lia.
  - pose proof (DayFromYear_mono (y + 1) (YearFromDay k)). lia.
Qed.

Lemma MonthFromDay_unique k m :
  0 <= m <= 11 ->
  monthStart (isLeap (YearFromDay k)) m <= DayWithinYear k
  < monthStart (isLeap (YearFromDay k)) m + monthLength (isLeap (YearFromDay k)) m ->
  MonthFromDay k = m.
Proof.
  intros Hm Hw. pose proof (MonthFromDay_spec k) as Hs.
  pose proof (MonthFromDay_range k) as Hr.
  set (m' := MonthFromDay k) in *. clearbody m'.
  set (leap := isLeap (YearFromDay k)) in *. clearbody leap.
  set (w := DayWithinYear k) in *. clearbody w.
  apply month_cases in Hm. apply month_cases in Hr.
  destruct leap;
    repeat (destruct Hm as [-> | Hm]);
    try subst m;
    repeat (destruct Hr as [-> | Hr]);
    try subst m'; cbn in *; lia.
Qed.

(** The calendar fields of the day that [MakeDay] builds from a date that
    exists. *)
Lemma MakeDay_inverse y m d :
  0 <= m <= 11 -> 1 <= d <= monthLength (isLeap y) m ->
  YearFromDay (MakeDay y m d) = y
  /\ MonthFromDay (MakeDay y m d) = m
  /\ DateFromDay (MakeDay y m d) = d.
Proof.
  intros Hm Hd. rewrite MakeDay_small by assumption.
  set (k := DayFromYear y + monthStart (isLeap y) m + d - 1).
  assert (Hy : YearFromDay k = y).
  { apply YearFromDay_unique. rewrite DayFromYear_succ. unfold DaysInYear.
    pose proof (monthStart_range (isLeap y) m Hm).
    destruct (Z.eq_dec m 11) as [-> | Hne].
    - pose proof (monthStart_last (isLeap y)).
      destruct (isLeap y); unfold k; lia.
    - pose proof (monthStart_next (isLeap y) m ltac:(lia)).
      pose proof (monthStart_range (isLeap y) (m + 1) ltac:(lia)).
      destruct (isLeap y); unfold k; lia. }
  assert (Hmo : MonthFromDay k = m).
  { apply MonthFromDay_unique; [assumption|]. rewrite Hy.
    unfold DayWithinYear. rewrite Hy. unfold k. lia. }
  repeat split; [assumption | assumption |].
  unfold DateFromDay, DayWithinYear. rewrite Hmo, Hy. unfold k. lia.
Qed.

End CalendarFacts.

Module SetterFacts.

Import JSDate JSDateFacts RoundTrip CalendarFacts JSCalendar.

Lemma Day_MakeDate day tm :
  0 <= tm < msPerDay -> Day (MakeDate day tm) = day.
Proof.
  intros H. unfold Day, MakeDate, msPerDay in *.
  Z.div_mod_to_equations. lia.
Qed.

Lemma TimeWithinDay_MakeDate day tm :
  0 <= tm < msPerDay -> TimeWithinDay (MakeDate day tm) = tm.
Proof.
  intros H. unfold TimeWithinDay, MakeDate, msPerDay in *.
  Z.div_mod_to_equations. lia.
Qed.

Lemma TimeWithinDay_range t : 0 <= TimeWithinDay t < msPerDay.
Proof. unfold TimeWithinDay. apply Z.mod_pos_bound. unfold msPerDay. lia. Qed.

Lemma LocalTime_UTC tza x : LocalTime tza (UTC tza x) = x.
Proof. unfold LocalTime, UTC. lia. Qed.

(** [MakeDay] with a month outside 0..11 is [MakeDay] of the year and
    month it carries into. *)
Lemma MakeDay_carry y m d :
  MakeDay y m d = MakeDay (y + m / 12) (m mod 12) d.
Proof.
  unfold MakeDay.
  rewrite (Z.div_small (m mod 12) 12), Z.mod_mod, Z.add_0_r
    by (try apply Z.mod_pos_bound; lia).
  reflexivity.
Qed.

(** A day of the month past the end of the month is a day of the next
    month. *)
Lemma MakeDay_overflow y m d :
  0 <= m < 11 ->
  MakeDay y m d = MakeDay y (m + 1) (d - monthLength (isLeap y) m).
Proof.
  intros Hm. rewrite !MakeDay_small by lia.
  rewrite monthStart_next by lia. lia.
Qed.

(** The local calendar fields after [setMonth], [setFullYear] and the
    like: those of the day that [MakeDay] built. *)
Lemma fields_after tza day tm u :
  0 <= tm < msPerDay ->
  TimeClip (UTC tza (MakeDate day tm)) = At u ->
  getFullYear tza u = YearFromDay day
  /\ getMonth tza u = MonthFromDay day
  /\ getDate tza u = DateFromDay day
  /\ TimeWithinDay (LocalTime tza u) = tm.
Proof.
  intros Htm H. apply TimeClip_At in H. subst u.
  unfold getFullYear, getMonth, getDate, YearFromTime, MonthFromTime,
    DateFromTime.
  rewrite LocalTime_UTC, Day_MakeDate, TimeWithinDay_MakeDate by assumption.
  auto.
Qed.

End SetterFacts.

Module StringOrder.

Import JSDate JSDateFacts RoundTrip CalendarFacts.

(** The order of two strings that start with a digit. *)
Lemma compare_digit a b r1 r2 :
  0 <= a <= 9 -> 0 <= b <= 9 ->
  String.compare (String (digitChar a) r1) (String (digitChar b) r2)
  = match a ?= b with
    | Eq => String.compare r1 r2
    | c => c
    end.
Proof.
  intros Ha Hb. apply digit_cases in Ha. apply digit_cases in Hb.
  repeat (destruct Ha as [-> | Ha]); try subst a;
    repeat (destruct Hb as [-> | Hb]); try subst b; reflexivity.
Qed.

Lemma compare_pad2 a b r1 r2 :
  0 <= a < 100 -> 0 <= b < 100 ->
  String.compare (pad 2 a ++ r1) (pad 2 b ++ r2)
  = match a ?= b with
    | Eq => String.compare r1 r2
    | c => c
    end.
Proof.
  intros Ha Hb. unfold pad. cbn [padDigits append].
  rewrite !compare_digit by apply mod10_digit.
  destruct (Z.compare_spec ((a / 10) mod 10) ((b / 10) mod 10));
    destruct (Z.compare_spec (a mod 10) (b mod 10));
    destruct (Z.compare_spec a b); try reflexivity;
    exfalso; Z.div_mod_to_equations; lia.
Qed.

Lemma compare_pad4 a b r1 r2 :
  0 <= a < 10000 -> 0 <= b < 10000 ->
  String.compare (pad 4 a ++ r1) (pad 4 b ++ r2)
  = match a ?= b with
    | Eq => String.compare r1 r2
    | c => c
    end.
Proof.
  intros Ha Hb.
  assert (Hp : forall n r, (pad 4 n ++ r)%string
                           = (pad 2 (n / 100) ++ pad 2 n ++ r)%string).
  { intros n r. unfold pad. cbn [padDigits append].
    replace (n / 10 / 10) with (n / 100) by (Z.div_mod_to_equations; lia).
    replace (n / 100 / 10) with (n / 10 / 10 / 10)
      by (Z.div_mod_to_equations; lia).
    replace (n / 10 / 10) with (n / 100) by (Z.div_mod_to_equations; lia).
    reflexivity. }
  rewrite !Hp.
  rewrite compare_pad2 by (Z.div_mod_to_equations; lia).
  assert (Hlow : forall n, (pad 2 n) = pad 2 (n mod 100)).
  { intros n. unfold pad. cbn [padDigits]. f_equal; [|f_equal].
    - f_equal. Z.div_mod_to_equations. lia.
    - f_equal. Z.div_mod_to_equations. lia. }
  rewrite (Hlow a), (Hlow b).
  rewrite compare_pad2 by (apply Z.mod_pos_bound; lia).
  destruct (Z.compare_spec (a / 100) (b / 100));
    destruct (Z.compare_spec (a mod 100) (b mod 100));
    destruct (Z.compare_spec a b); try reflexivity;
    exfalso; Z.div_mod_to_equations; lia.
Qed.

Lemma compare_dash r1 r2 :
  String.compare ("-" ++ r1) ("-" ++ r2) = String.compare r1 r2.
Proof. reflexivity. Qed.

(** The order of two day numbers, read off their calendar fields. *)
Lemma fields_compare k k' :
  (k ?= k')
  = match YearFromDay k ?= YearFromDay k' with
    | Eq => match MonthFromDay k ?= MonthFromDay k' with
            | Eq => DateFromDay k ?= DateFromDay k'
            | c => c
            end
    | c => c
    end.
Proof.
  pose proof (YearFromDay_spec k) as Hy.
  pose proof (YearFromDay_spec k') as Hy'.
  pose proof (MonthFromDay_spec k) as Hm.
  pose proof (MonthFromDay_spec k') as Hm'.
  pose proof (MonthFromDay_range k) as Hr.
  pose proof (MonthFromDay_range k') as Hr'.
  pose proof (DateFromDay_le k) as Hd.
  pose proof (DateFromDay_le k') as Hd'.
  unfold DateFromDay, DayWithinYear in *.
  destruct (Z.compare_spec (YearFromDay k) (YearFromDay k')) as [E | L | L].
  - rewrite E in *.
    set (leap := isLeap (YearFromDay k')) in *. clearbody leap.
    destruct (Z.compare_spec (MonthFromDay k) (MonthFromDay k'))
      as [E' | L' | L'].
    + rewrite E' in *.
      destruct (Z.compare_spec k k');
        destruct (Z.compare_spec
                    (k - DayFromYear (YearFromDay k')
                     - monthStart leap (MonthFromDay k') + 1)
                    (k' - DayFromYear (YearFromDay k')
                     - monthStart leap (MonthFromDay k') + 1));
        try reflexivity; lia.
    + assert (monthStart leap (MonthFromDay k)
              + monthLength leap (MonthFromDay k)
              <= monthStart leap (MonthFromDay k')).
      { set (a := MonthFromDay k) in *. set (b := MonthFromDay k') in *.
        clearbody a b. clear - Hr Hr' L'.
        apply month_cases in Hr. apply month_cases in Hr'.
        destruct leap;
          repeat (destruct Hr as [-> | Hr]); try subst a;
          repeat (destruct Hr' as [-> | Hr']); try subst b;
          cbn; lia. }
      apply Z.compare_lt_iff. lia.
    + assert (monthStart leap (MonthFromDay k')
              + monthLength leap (MonthFromDay k')
              <= monthStart leap (MonthFromDay k)).
      { set (a := MonthFromDay k) in *. set (b := MonthFromDay k') in *.
        clearbody a b. clear - Hr Hr' L'.
        apply month_cases in Hr. apply month_cases in Hr'.
        destruct leap;
          repeat (destruct Hr as [-> | Hr]); try subst a;
          repeat (destruct Hr' as [-> | Hr']); try subst b;
          cbn; lia. }
      apply Z.compare_gt_iff. lia.
  - pose proof (DayFromYear_mono (YearFromDay k + 1) (YearFromDay k')).
    apply Z.compare_lt_iff. lia.
  - pose proof (DayFromYear_mono (YearFromDay k' + 1) (YearFromDay k)).
    apply Z.compare_gt_iff. lia.
Qed.

Lemma toYYYYMMDD_compare t u :
  0 <= YearFromTime t <= 9999 -> 0 <= YearFromTime u <= 9999 ->
  String.compare (toYYYYMMDD t) (toYYYYMMDD u) = (Day t ?= Day u).
Proof.
  intros Ht Hu. rewrite fields_compare.
  unfold toYYYYMMDD, isoDatePart, YearFromTime, MonthFromTime, DateFromTime
    in *.
  replace ((0 <=? YearFromDay (Day t)) && (YearFromDay (Day t) <=? 9999))
    with true by (symmetry; apply andb_true_intro; split; apply Z.leb_le; lia).
  replace ((0 <=? YearFromDay (Day u)) && (YearFromDay (Day u) <=? 9999))
    with true by (symmetry; apply andb_true_intro; split; apply Z.leb_le; lia).
  pose proof (MonthFromDay_range (Day t)).
  pose proof (MonthFromDay_range (Day u)).
  pose proof (DateFromDay_range (Day t)).
  pose proof (DateFromDay_range (Day u)).
  rewrite compare_pad4 by lia.
  destruct (YearFromDay (Day t) ?= YearFromDay (Day u)); try reflexivity.
  rewrite compare_dash, compare_pad2 by lia.
  replace (MonthFromDay (Day t) + 1 ?= MonthFromDay (Day u) + 1)
    with (MonthFromDay (Day t) ?= MonthFromDay (Day u))
    by (rewrite !(Z.add_comm _ 1), Z.add_compare_mono_l; reflexivity).
  destruct (MonthFromDay (Day t) ?= MonthFromDay (Day u)); try reflexivity.
  rewrite compare_dash.
  rewrite <- (append_nil_r (pad 2 (DateFromDay (Day t)))).
  rewrite <- (append_nil_r (pad 2 (DateFromDay (Day u)))).
  rewrite compare_pad2 by lia.
  destruct (DateFromDay (Day t) ?= DateFromDay (Day u)); reflexivity.
Qed.

End StringOrder.

Module PickerFacts.

Import JSDate JSDateFacts RoundTrip CalendarFacts SetterFacts JSCalendar.

Lemma DayFromYear_bounds y :
  98 <= y <= 10002 -> -684000 <= DayFromYear y <= 2934000.
Proof.
  intros H. pose proof (DayFromYear_mono 98 y ltac:(lia)).
  pose proof (DayFromYear_mono y 10002 ltac:(lia)).
  change (DayFromYear 98) with (-683733) in *.
  change (DayFromYear 10002) with 2933628 in *. lia.
Qed.

Lemma MakeDay_bounds y m d :
  100 <= y <= 9999 -> -24 <= m <= 35 -> -400 <= d <= 400 ->
  -685000 <= MakeDay y m d <= 2935000.
Proof.
  intros Hy Hm Hd. unfold MakeDay.
  assert (Hq : -2 <= m / 12 <= 2) by (Z.div_mod_to_equations; lia).
  assert (Hr : 0 <= m mod 12 <= 11) by (Z.div_mod_to_equations; lia).
  pose proof (DayFromYear_bounds (y + m / 12) ltac:(lia)).
  pose proof (monthStart_range (isLeap (y + m / 12)) (m mod 12) Hr). lia.
Qed.

Section Zone.

Variable tza : Z.
Hypothesis tza_range : - msPerDay < tza < msPerDay.

Lemma newDate_At y m d :
  100 <= y <= 9999 -> -24 <= m <= 35 -> -400 <= d <= 400 ->
  newDate tza (Some y) (Some m) (Some d)
  = At (localMidnight tza (MakeDay y m d)).
Proof.
  intros Hy Hm Hd. unfold newDate, localMidnight.
  replace ((0 <=? y) && (y <=? 99)) with false
    by (symmetry; apply andb_false_intro2; apply Z.leb_gt; lia).
  unfold MakeDate, UTC. rewrite Z.add_0_r. apply TimeClip_small.
  pose proof (MakeDay_bounds y m d Hy Hm Hd).
  unfold maxTime, msPerDay in *. lia.
Qed.

Lemma Day_LocalTime_localMidnight k :
  Day (LocalTime tza (localMidnight tza k)) = k.
Proof.
  clear tza_range. unfold localMidnight, LocalTime, Day.
  replace (k * msPerDay - tza + tza) with (k * msPerDay) by lia.
  apply Z.div_mul. unfold msPerDay. lia.
Qed.

Lemma getDate_localMidnight k : getDate tza (localMidnight tza k) = DateFromDay k.
Proof.
  clear tza_range.
  unfold getDate, DateFromTime. rewrite Day_LocalTime_localMidnight.
  reflexivity.
Qed.

Lemma getMonth_localMidnight k :
  getMonth tza (localMidnight tza k) = MonthFromDay k.
Proof.
  clear tza_range.
  unfold getMonth, MonthFromTime. rewrite Day_LocalTime_localMidnight.
  reflexivity.
Qed.

Lemma getFullYear_localMidnight k :
  getFullYear tza (localMidnight tza k) = YearFromDay k.
Proof.
  clear tza_range.
  unfold getFullYear, YearFromTime. rewrite Day_LocalTime_localMidnight.
  reflexivity.
Qed.

Lemma getDay_localMidnight k :
  getDay tza (localMidnight tza k) = (k + 4) mod 7.
Proof.
  clear tza_range.
  unfold getDay, WeekDay. rewrite Day_LocalTime_localMidnight. reflexivity.
Qed.

End Zone.

(** Day 0 of the next month is the last day of the month. *)
Lemma MakeDay_day0 y m :
  0 <= m <= 11 ->
  MakeDay y (m + 1) 0 = MakeDay y m (monthLength (isLeap y) m).
Proof.
  intros Hm. destruct (Z.eq_dec m 11) as [-> | Hne].
  - rewrite (MakeDay_small y 11) by lia. unfold MakeDay.
    change ((11 + 1) / 12) with 1. change ((11 + 1) mod 12) with 0.
    rewrite DayFromYear_succ. unfold DaysInYear.
    pose proof (monthStart_last (isLeap y)).
    destruct (isLeap (y + 1)), (isLeap y); cbn in *; lia.
  - rewrite !MakeDay_small by lia. rewrite monthStart_next by lia. lia.
Qed.

Lemma monthLength_table leap m :
  0 <= m <= 11 ->
  monthLength leap m
  = if m =? 1 then (if leap then 29 else 28)
    else if (m =? 3) || (m =? 5) || (m =? 8) || (m =? 10) then 30
    else 31.
Proof.
  intros H. apply month_cases in H.
  destruct leap;
    repeat (destruct H as [-> | H]; [reflexivity|]); subst; reflexivity.
Qed.

End PickerFacts.

Module HistoryFacts.

Import JSDate JSDateFacts RoundTrip CalendarFacts SetterFacts JSCalendar
       PickerFacts.

Lemma DateUTC_At y m d :
  100 <= y <= 9999 -> -24 <= m <= 35 -> -400 <= d <= 400 ->
  DateUTC y m d = At (MakeDay y m d * msPerDay).
Proof.
  intros Hy Hm Hd. unfold DateUTC.
  replace ((0 <=? y) && (y <=? 99)) with false
    by (symmetry; apply andb_false_intro2; apply Z.leb_gt; lia).
  unfold MakeDate. rewrite Z.add_0_r. apply TimeClip_small.
  pose proof (MakeDay_bounds y m d Hy Hm Hd).
  unfold maxTime, msPerDay in *. lia.
Qed.

Lemma Day_midnight k : Day (k * msPerDay) = k.
Proof. unfold Day. apply Z.div_mul. unfold msPerDay. lia. Qed.

Lemma TimeWithinDay_midnight k : TimeWithinDay (k * msPerDay) = 0.
Proof. unfold TimeWithinDay. apply Z.mod_mul. unfold msPerDay. lia. Qed.

(** Years of the days near a day of the years 0101 to 9998. *)
Lemma YearFromDay_near k j :
  101 <= YearFromDay k <= 9998 -> -40 <= j <= 40 ->
  100 <= YearFromDay (k + j) <= 9999.
Proof.
  intros Hy Hj.
  pose proof (YearFromDay_spec k) as [S1 S2].
  pose proof (YearFromDay_spec (k + j)) as [S3 S4].
  pose proof (DayFromYear_succ (YearFromDay k)) as E1.
  pose proof (DayFromYear_succ (YearFromDay k - 1)) as E0.
  replace (YearFromDay k - 1 + 1) with (YearFromDay k) in E0 by lia.
  pose proof (DayFromYear_succ (YearFromDay k + 1)) as E2.
  unfold DaysInYear in *.
  split.
  - destruct (Z_lt_le_dec (YearFromDay (k + j)) 100) as [Hlt|]; [|assumption].
    pose proof (DayFromYear_mono (YearFromDay (k + j) + 1)
                  (YearFromDay k - 1) ltac:(lia)).
    destruct (isLeap (YearFromDay k - 1)); lia.
  - destruct (Z_lt_le_dec 9999 (YearFromDay (k + j))) as [Hlt|];
      [|assumption].
    pose proof (DayFromYear_mono (YearFromDay k + 2) (YearFromDay (k + j))
                  ltac:(lia)).
    replace (YearFromDay k + 1 + 1) with (YearFromDay k + 2) in E2 by lia.
    destruct (isLeap (YearFromDay k)), (isLeap (YearFromDay k + 1)); lia.
Qed.

Section Zone.

Variable tza : Z.
Hypothesis tza_range : - msPerDay < tza < msPerDay.

(** The value of [getISOWeek]: the year of the Thursday of the week of
    the local day [k], and the number of the block of seven days of that
    year in which this Thursday falls. *)
Lemma getISOWeek_value date :
  101 <= getFullYear tza date <= 9998 ->
  let th := 7 * ((Day (LocalTime tza date) + 3) / 7) in
  getISOWeek tza date
  = (Some (YearFromDay th), Some (DayWithinYear th / 7 + 1)).
Proof.
  intros Hy th. unfold getISOWeek.
  set (k := Day (LocalTime tza date)) in *.
  assert (Hf : MakeDay (getFullYear tza date) (getMonth tza date)
                       (getDate tza date) = k) by apply MakeDay_fields.
  pose proof (MonthFromDay_range k) as Hm.
  pose proof (DateFromDay_range k) as Hd.
  rewrite DateUTC_At
    by (try lia; unfold getMonth, getDate, MonthFromTime, DateFromTime;
        fold k; lia).
  rewrite Hf.
  unfold getUTCDay, getUTCDate, getUTCFullYear, setUTCDate, WeekDay,
    YearFromTime, MonthFromTime, DateFromTime.
  rewrite Day_midnight, TimeWithinDay_midnight.
  assert (Hmk : forall x, MakeDay (YearFromDay k) (MonthFromDay k)
                                  (DateFromDay k + 4 - x) = k + (4 - x)).
  { intros x. replace (DateFromDay k + 4 - x) with (DateFromDay k + (4 - x))
      by lia.
    rewrite MakeDay_date, MakeDay_fields. reflexivity. }
  rewrite Hmk.
  assert (Hth : k + (4 - (if (k + 4) mod 7 =? 0 then 7 else (k + 4) mod 7))
                = th).
  { unfold th. destruct (Z.eqb_spec ((k + 4) mod 7) 0);
      Z.div_mod_to_equations; lia. }
  rewrite Hth. unfold MakeDate. rewrite Z.add_0_r.
  assert (Hnear : 100 <= YearFromDay th <= 9999).
  { replace th with (k + (th - k)) by lia. apply YearFromDay_near.
    - exact Hy.
    - unfold th. Z.div_mod_to_equations. lia. }
  pose proof (DayFromYear_bounds (YearFromDay th) ltac:(lia)) as Hb.
  pose proof (DayWithinYear_range th) as Hw. unfold DayWithinYear in Hw.
  rewrite TimeClip_small
    by (unfold DaysInYear in Hw; unfold maxTime, msPerDay;
        destruct (isLeap (YearFromDay th)); lia).
  rewrite Day_midnight.
  rewrite DateUTC_At by lia.
  rewrite MakeDay_small by lia. cbn [monthStart Z.leb Z.compare].
  do 2 f_equal. unfold ceilDiv, DayWithinYear.
  replace (- (th * msPerDay - (DayFromYear (YearFromDay th) + 0 + 1 - 1)
                              * msPerDay + msPerDay))
    with ((- (th - DayFromYear (YearFromDay th) + 1)) * msPerDay) by lia.
  rewrite Z.div_mul_cancel_r by (unfold msPerDay; lia).
  Z.div_mod_to_equations. lia.
Qed.

Lemma setHours_midnight t :
  101 <= getFullYear tza t <= 9998 ->
  setHours tza t 0 0 0 0 = At (localMidnight tza (Day (LocalTime tza t))).
Proof.
  intros Hy. unfold setHours, localMidnight, MakeTime, MakeDate, UTC.
  cbn [Z.mul Z.add]. rewrite Z.add_0_r. apply TimeClip_small.
  pose proof (YearFromDay_spec (Day (LocalTime tza t))) as [S1 S2].
  fold (YearFromTime (LocalTime tza t)) in S1, S2.
  fold (getFullYear tza t) in S1, S2.
  pose proof (DayFromYear_bounds (getFullYear tza t) ltac:(lia)).
  pose proof (DayFromYear_bounds (getFullYear tza t + 1) ltac:(lia)).
  unfold maxTime, msPerDay in *. lia.
Qed.

Lemma setHours_endOfDay t :
  101 <= getFullYear tza t <= 9998 ->
  setHours tza t 23 59 59 999
  = At (localMidnight tza (Day (LocalTime tza t)) + msPerDay - 1).
Proof.
  intros Hy. unfold setHours, localMidnight, MakeTime, MakeDate, UTC.
  replace (Day (LocalTime tza t) * msPerDay
           + (23 * msPerHour + 59 * msPerMinute + 59 * msPerSecond + 999)
           - tza)
    with (Day (LocalTime tza t) * msPerDay - tza + msPerDay - 1)
    by (unfold msPerHour, msPerMinute, msPerSecond, msPerDay; lia).
  apply TimeClip_small.
  pose proof (YearFromDay_spec (Day (LocalTime tza t))) as [S1 S2].
  fold (YearFromTime (LocalTime tza t)) in S1, S2.
  fold (getFullYear tza t) in S1, S2.
  pose proof (DayFromYear_bounds (getFullYear tza t) ltac:(lia)).
  pose proof (DayFromYear_bounds (getFullYear tza t + 1) ltac:(lia)).
  unfold maxTime, msPerDay in *. lia.
Qed.

(** Local fields of the last millisecond of the local day [k]. *)
Lemma Day_endOfDay k :
  Day (LocalTime tza (localMidnight tza k + msPerDay - 1)) = k.
Proof.
  clear tza_range. unfold localMidnight, LocalTime, Day, msPerDay.
  Z.div_mod_to_equations. lia.
Qed.

Lemma TimeWithinDay_endOfDay k :
  TimeWithinDay (LocalTime tza (localMidnight tza k + msPerDay - 1))
  = msPerDay - 1.
Proof.
  clear tza_range. unfold localMidnight, LocalTime, TimeWithinDay, msPerDay.
  Z.div_mod_to_equations. lia.
Qed.

Lemma TimeWithinDay_localMidnight k :
  TimeWithinDay (LocalTime tza (localMidnight tza k)) = 0.
Proof.
  clear tza_range. unfold localMidnight, LocalTime, TimeWithinDay.
  replace (k * msPerDay - tza + tza) with (k * msPerDay) by lia.
  apply Z.mod_mul. unfold msPerDay. lia.
Qed.

Lemma clip_day k tm :
  -686000 <= k <= 2936000 -> 0 <= tm < msPerDay ->
  TimeClip (UTC tza (MakeDate k tm)) = At (localMidnight tza k + tm).
Proof.
  intros Hk Htm. unfold UTC, MakeDate, localMidnight.
  replace (k * msPerDay + tm - tza) with (k * msPerDay - tza + tm) by lia.
  apply TimeClip_small. unfold maxTime, msPerDay in *. lia.
Qed.

Lemma clip_endOfDay k :
  -686000 <= k <= 2936000 ->
  TimeClip (UTC tza (MakeDate k (msPerDay - 1)))
  = At (localMidnight tza k + msPerDay - 1).
Proof.
  intros Hk. rewrite clip_day by (unfold msPerDay; lia). f_equal. lia.
Qed.

Lemma clip_midnight k :
  -686000 <= k <= 2936000 ->
  TimeClip (UTC tza (MakeDate k 0)) = At (localMidnight tza k).
Proof.
  intros Hk. rewrite clip_day by (unfold msPerDay; lia). f_equal. lia.
Qed.

End Zone.

End HistoryFacts.

Module PeriodFacts.

Import JSDate JSDateFacts RoundTrip CalendarFacts SetterFacts JSCalendar
       PickerFacts HistoryFacts.

(** The year of a day built from a month and a day of the month that
    exists in some year. *)
Lemma MakeDay_year y m d leap0 :
  0 <= m <= 11 -> 1 <= d <= monthLength leap0 m ->
  YearFromDay (MakeDay y m d) = y.
Proof.
  intros Hm Hd. rewrite MakeDay_small by assumption.
  apply YearFromDay_unique. rewrite DayFromYear_succ. unfold DaysInYear.
  apply month_cases in Hm.
  destruct (isLeap y), leap0;
    repeat (destruct Hm as [-> | Hm]; [cbn in *; lia|]); subst; cbn in *; lia.
Qed.

(** The first day of the month of day [k]. *)
Lemma first_of_month k :
  MakeDay (YearFromDay k) (MonthFromDay k) 1 = k - DateFromDay k + 1.
Proof.
  pose proof (MakeDay_fields k) as H.
  replace (DateFromDay k) with (1 + (DateFromDay k - 1)) in H at 1 by lia.
  rewrite MakeDay_date in H. lia.
Qed.

(** The last day of the month before the month of ([y], [m]). *)
Lemma last_of_previous y m :
  0 <= m <= 11 ->
  let y' := y + (m - 1) / 12 in
  let m' := (m - 1) mod 12 in
  MakeDay y m 1 - 1 = MakeDay y' m' (monthLength (isLeap y') m')
  /\ 0 <= m' <= 11 /\ m' <> m.
Proof.
  intros Hm y' m'.
  assert (Hr : 0 <= m' <= 11) by (unfold m'; Z.div_mod_to_equations; lia).
  split; [|split; [exact Hr | unfold m'; Z.div_mod_to_equations; lia]].
  rewrite <- MakeDay_day0 by assumption.
  rewrite (MakeDay_carry y' (m' + 1)).
  replace (MakeDay y m 1 - 1) with (MakeDay y m (1 + -1))
    by (rewrite MakeDay_date; lia).
  cbn [Z.add Z.pos_sub]. rewrite (MakeDay_carry y m).
  unfold y', m'. f_equal; Z.div_mod_to_equations; lia.
Qed.

End PeriodFacts.

(* ================================================================== *)
(** * Date strings and the next due date (App.tsx) *)
(* ================================================================== *)

Section DateOrder.

Import JSDate StringOrder.

(** X3. On times of the years 0000 to 9999 the strings of [toYYYYMMDD]
    compare as the UTC days do: [toYYYYMMDD u > toYYYYMMDD t] exactly when
    the day of [u] is after the day of [t], and the two strings are equal
    exactly when the days are. This is the comparison of the end-date
    [break]. *)
Theorem date_strings_order_as_days t u :
  0 <= YearFromTime t <= 9999 -> 0 <= YearFromTime u <= 9999 ->
  strGt (toYYYYMMDD u) (toYYYYMMDD t) = (Day t <? Day u)
  /\ String.eqb (toYYYYMMDD t) (toYYYYMMDD u) = (Day t =? Day u).
Proof.
  intros Ht Hu. pose proof (toYYYYMMDD_compare t u Ht Hu) as Hc. split.
  - unfold strGt, String.ltb. rewrite Hc. unfold Z.ltb. reflexivity.
  - destruct (String.eqb_spec (toYYYYMMDD t) (toYYYYMMDD u)) as [E | E].
    + rewrite E in Hc.
      assert (Hr : String.compare (toYYYYMMDD u) (toYYYYMMDD u) = Eq).
      { pose proof (String.compare_antisym (toYYYYMMDD u) (toYYYYMMDD u)) as Ha.
        destruct (String.compare (toYYYYMMDD u) (toYYYYMMDD u));
          [reflexivity | discriminate | discriminate]. }
      rewrite Hr in Hc. symmetry in Hc. apply Z.compare_eq in Hc.
      symmetry. apply Z.eqb_eq. exact Hc.
    + symmetry. apply Z.eqb_neq. intros Heq. rewrite Heq in Hc.
      rewrite Z.compare_refl in Hc. apply String.compare_eq_iff in Hc.
      contradiction.
Qed.

End DateOrder.

Section NextDueDate.

Import JSDate JSDateFacts RoundTrip CalendarFacts SetterFacts.

Variable tza : Z.

(** X4. [calculateNextDueDate] under a daily rule lands on the local
    calendar day [interval] days after that of [fromDate], under a weekly
    rule [7 * interval] days after it and so on the same day of the week;
    both keep the local time of day, whatever the sign of the interval. *)
Theorem daily_and_weekly_step (template : ExpenseData) (t u : Z) :
  frequency template = Some Recurring ->
  calculateNextDueDate tza template (At t) = Some (At u) ->
  (recurrence template = Some Daily
   -> TimeWithinDay (LocalTime tza u) = TimeWithinDay (LocalTime tza t)
      /\ Day (LocalTime tza u) = Day (LocalTime tza t) + intervalOf template)
  /\ (recurrence template = Some Weekly
      -> TimeWithinDay (LocalTime tza u) = TimeWithinDay (LocalTime tza t)
         /\ Day (LocalTime tza u)
            = Day (LocalTime tza t) + 7 * intervalOf template
         /\ JSCalendar.getDay tza u = JSCalendar.getDay tza t).
Proof.
  intros Hf H.
  assert (Hs : forall n, setDate tza t (getDate tza t + n) = At u ->
                         TimeWithinDay (LocalTime tza u)
                         = TimeWithinDay (LocalTime tza t)
                         /\ Day (LocalTime tza u) = Day (LocalTime tza t) + n).
  { intros n Hn. rewrite setDate_getDate_eq in Hn.
    apply TimeClip_At in Hn. subst u.
    unfold TimeWithinDay, Day, LocalTime.
    replace (t + n * msPerDay + tza) with (t + tza + n * msPerDay) by lia.
    split.
    - apply Z.mod_add. unfold msPerDay. lia.
    - apply Z.div_add. unfold msPerDay. lia. }
  unfold calculateNextDueDate in H. rewrite Hf in H.
  split; intros Hr; rewrite Hr in H.
  - apply Hs. congruence.
  - destruct (Hs (7 * intervalOf template)) as [Ht Hd]; [congruence|].
    split; [exact Ht|]. split; [exact Hd|].
    unfold JSCalendar.getDay, JSCalendar.WeekDay. rewrite Hd.
    replace (Day (LocalTime tza t) + 7 * intervalOf template + 4)
      with (Day (LocalTime tza t) + 4 + intervalOf template * 7) by lia.
    apply Z.mod_add. lia.
Qed.

(** X5. [calculateNextDueDate] under a monthly rule keeps the local time of
    day. When the day of the month exists in the target month, the result
    is that day of the target month; when it does not, the result rolls
    over into the month after, by as many days as the target month is
    short (31 January plus one month is 2 or 3 March). *)
Theorem monthly_step (template : ExpenseData) (t u : Z) :
  frequency template = Some Recurring ->
  recurrence template = Some Monthly ->
  calculateNextDueDate tza template (At t) = Some (At u) ->
  let y := getFullYear tza t + (getMonth tza t + intervalOf template) / 12 in
  let m := (getMonth tza t + intervalOf template) mod 12 in
  let len := monthLength (isLeap y) m in
  TimeWithinDay (LocalTime tza u) = TimeWithinDay (LocalTime tza t)
  /\ (getDate tza t <= len
      -> getFullYear tza u = y /\ getMonth tza u = m
         /\ getDate tza u = getDate tza t)
  /\ (len < getDate tza t
      -> getFullYear tza u = y /\ getMonth tza u = m + 1
         /\ getDate tza u = getDate tza t - len).
Proof.
  intros Hf Hr H y m len. revert H.
  unfold calculateNextDueDate. rewrite Hf, Hr.
  intros H. assert (H' : setMonth tza t (getMonth tza t + intervalOf template)
                         = At u) by congruence.
  clear H. revert H'. unfold setMonth.
  intros H.
  apply fields_after in H; [|apply TimeWithinDay_range].
  destruct H as (Hy & Hm & Hd & Htm).
  split; [exact Htm|].
  rewrite Hy, Hm, Hd. clear Hy Hm Hd Htm.
  rewrite MakeDay_carry.
  fold (getFullYear tza t) (getMonth tza t) (getDate tza t). fold y m.
  assert (Hmr : 0 <= m < 12) by (apply Z.mod_pos_bound; lia).
  pose proof (DateFromDay_range (Day (LocalTime tza t))) as Hdr.
  fold (DateFromTime (LocalTime tza t)) in Hdr.
  fold (getDate tza t) in Hdr.
  pose proof (monthLength_range (isLeap y) m ltac:(lia)) as Hl. fold len in Hl.
  split; intros Hc.
  - apply MakeDay_inverse; [lia | fold len; lia].
  - assert (m <> 11).
    { intros E. unfold len in Hc. rewrite E in Hc.
      destruct (isLeap y); cbn in Hc; lia. }
    rewrite MakeDay_overflow by lia. fold len.
    pose proof (monthLength_range (isLeap y) (m + 1) ltac:(lia)).
    apply MakeDay_inverse; lia.
Qed.

(** X6. [calculateNextDueDate] under a yearly rule keeps the local time of
    day and lands in the target year; it keeps the month and the day of
    the month, except that 29 February becomes 1 March when the target
    year is not a leap year. *)
Theorem yearly_step (template : ExpenseData) (t u : Z) :
  frequency template = Some Recurring ->
  recurrence template = Some Yearly ->
  calculateNextDueDate tza template (At t) = Some (At u) ->
  let y := getFullYear tza t + intervalOf template in
  TimeWithinDay (LocalTime tza u) = TimeWithinDay (LocalTime tza t)
  /\ getFullYear tza u = y
  /\ (getMonth tza t = 1 /\ getDate tza t = 29 /\ isLeap y = false
      -> getMonth tza u = 2 /\ getDate tza u = 1)
  /\ (~ (getMonth tza t = 1 /\ getDate tza t = 29 /\ isLeap y = false)
      -> getMonth tza u = getMonth tza t /\ getDate tza u = getDate tza t).
Proof.
  intros Hf Hr H y. revert H.
  unfold calculateNextDueDate. rewrite Hf, Hr.
  intros H.
  assert (H' : setFullYear tza t (getFullYear tza t + intervalOf template)
               = At u) by congruence.
  clear H. revert H'. unfold setFullYear. intros H.
  apply fields_after in H; [|apply TimeWithinDay_range].
  destruct H as (Hy & Hm & Hd & Htm).
  split; [exact Htm|].
  rewrite Hy, Hm, Hd. clear Hy Hm Hd Htm.
  fold (getFullYear tza t) (getMonth tza t) (getDate tza t). fold y.
  pose proof (MonthFromDay_range (Day (LocalTime tza t))) as Hmr.
  pose proof (DateFromDay_le (Day (LocalTime tza t))) as Hdr.
  fold (MonthFromTime (LocalTime tza t)) in Hmr, Hdr.
  fold (getMonth tza t) in Hmr, Hdr.
  fold (DateFromTime (LocalTime tza t)) in Hdr.
  fold (getDate tza t) in Hdr.
  set (m := getMonth tza t) in *. set (d := getDate tza t) in *.
  set (leap0 := isLeap (YearFromDay (Day (LocalTime tza t)))) in *.
  clearbody m d leap0.
  assert (Hlen : m <> 1 ->
                 monthLength (isLeap y) m = monthLength leap0 m).
  { intros Hne. apply month_cases in Hmr.
    destruct (isLeap y), leap0;
      repeat (destruct Hmr as [-> | Hmr]; [try reflexivity; lia|]);
      subst; reflexivity. }
  assert (Hfeb : m = 1 -> d <= 29).
  { intros ->. destruct leap0; cbn in Hdr; lia. }
  destruct (Z.eq_dec m 1) as [E1 | N1].
  - subst m. destruct (isLeap y) eqn:Hl.
    + assert (Hi : YearFromDay (MakeDay y 1 d) = y
                   /\ MonthFromDay (MakeDay y 1 d) = 1
                   /\ DateFromDay (MakeDay y 1 d) = d).
      { apply MakeDay_inverse; [lia|]. rewrite Hl. cbn.
        specialize (Hfeb eq_refl). lia. }
      destruct Hi as (-> & -> & ->).
      split; [reflexivity|]. split; [intros (_ & _ & Hx); discriminate|].
      intros _. split; reflexivity.
    + destruct (Z.eq_dec d 29) as [E29 | N29].
      * subst d. rewrite MakeDay_overflow by lia. rewrite Hl. cbn.
        assert (Hi : YearFromDay (MakeDay y 2 1) = y
                     /\ MonthFromDay (MakeDay y 2 1) = 2
                     /\ DateFromDay (MakeDay y 2 1) = 1).
        { apply MakeDay_inverse; [lia|]. destruct (isLeap y); cbn; lia. }
        destruct Hi as (-> & -> & ->).
        split; [reflexivity|]. split; [intros _; split; reflexivity|].
        intros Hn. exfalso. apply Hn. repeat split.
      * assert (Hi : YearFromDay (MakeDay y 1 d) = y
                     /\ MonthFromDay (MakeDay y 1 d) = 1
                     /\ DateFromDay (MakeDay y 1 d) = d).
        { apply MakeDay_inverse; [lia|]. rewrite Hl. cbn.
          specialize (Hfeb eq_refl). lia. }
        destruct Hi as (-> & -> & ->).
        split; [reflexivity|]. split; [intros (_ & Hx & _); contradiction|].
        intros _. split; reflexivity.
  - assert (Hi : YearFromDay (MakeDay y m d) = y
                 /\ MonthFromDay (MakeDay y m d) = m
                 /\ DateFromDay (MakeDay y m d) = d).
    { apply MakeDay_inverse; [lia|]. rewrite Hlen by assumption. lia. }
    destruct Hi as (-> & -> & ->).
    split; [reflexivity|]. split; [intros (Hx & _); contradiction|].
    intros _. split; reflexivity.
Qed.

End NextDueDate.

Section PrintParse.

Import JSDate JSDateFacts RoundTrip CalendarFacts SetterFacts StringOrder.

Variable tza : Z.
Variable uuid : nat -> string.

(** The local midnight one day before a local midnight. *)
Lemma isLocalMidnight_back t n :
  isLocalMidnight tza t ->
  isLocalMidnight tza (t - n * msPerDay)
  /\ Day (LocalTime tza (t - n * msPerDay)) = Day (LocalTime tza t) - n.
Proof.
  unfold isLocalMidnight, Day, LocalTime. intros H.
  replace (t - n * msPerDay + tza) with (t + tza + (- n) * msPerDay) by lia.
  split.
  - rewrite Z.mod_add by (unfold msPerDay; lia). exact H.
  - rewrite Z.div_add by (unfold msPerDay; lia). lia.
Qed.

(** X1. [toYYYYMMDD] then [parseDate], on a local midnight of the years
    0100 to 9999, gives a local midnight again: at or west of UTC that of
    the same calendar day, east of UTC that of the calendar day before. *)
Theorem parse_of_printed_date t :
  - msPerDay < tza < msPerDay ->
  isLocalMidnight tza t -> isoLo <= t < isoHi ->
  exists u,
    parseDate tza (toYYYYMMDD t) = At u
    /\ isLocalMidnight tza u
    /\ Day (LocalTime tza u)
       = Day (LocalTime tza t) - (if 0 <? tza then 1 else 0).
Proof.
  intros Hz Hm Hr. destruct (Z.ltb_spec 0 tza).
  - exists (t - msPerDay). split.
    + apply parseDate_toYYYYMMDD_east; [lia | assumption | assumption].
    + replace (t - msPerDay) with (t - 1 * msPerDay) by lia.
      apply isLocalMidnight_back. exact Hm.
  - exists t. split.
    + apply parseDate_toYYYYMMDD; [lia | assumption | assumption].
    + split; [exact Hm | lia].
Qed.

Lemma parseDate_wellFormed y m d :
  - msPerDay < tza < msPerDay ->
  100 <= y <= 9999 -> 0 <= m <= 11 -> 1 <= d <= 99 ->
  parseDate tza (pad 4 y ++ "-" ++ pad 2 (m + 1) ++ "-" ++ pad 2 d)
  = At (MakeDay y m d * msPerDay - tza).
Proof.
  intros Hz Hy Hm Hd. unfold parseDate.
  rewrite (split_three (pad 4 y) (pad 2 (m + 1)) (pad 2 d)
                       (noDash_pad4 _) (noDash_pad2 _) (noDash_pad2 _)).
  cbn [map nth].
  rewrite (Number_pad4 y), (Number_pad2 (m + 1)), (Number_pad2 d) by lia.
  cbn [option_map newDate].
  replace ((0 <=? y) && (y <=? 99)) with false
    by (symmetry; apply andb_false_intro2; apply Z.leb_gt; lia).
  replace (m + 1 - 1) with m by lia.
  unfold MakeDate, UTC. rewrite Z.add_0_r.
  apply TimeClip_small.
  rewrite MakeDay_small by lia.
  pose proof (monthStart_range (isLeap y) m Hm).
  pose proof (DayFromYear_mono 100 y ltac:(lia)).
  pose proof (DayFromYear_mono y 9999 ltac:(lia)).
  change (DayFromYear 100) with (-683003) in *.
  change (DayFromYear 9999) with 2932532 in *.
  unfold maxTime, msPerDay in *. lia.
Qed.

(** X2. [parseDate] then [toYYYYMMDD], on the string YYYY-MM-DD of a date
    that exists: the string parses to a valid date; at or west of UTC that
    date prints as the string itself; east of UTC it lies in the UTC day
    before and prints as a string that is strictly smaller. *)
Theorem printed_date_of_parsed_string y m d :
  - msPerDay < tza < msPerDay ->
  100 <= y <= 9999 -> 0 <= m <= 11 -> 1 <= d <= monthLength (isLeap y) m ->
  let s := (pad 4 y ++ "-" ++ pad 2 (m + 1) ++ "-" ++ pad 2 d)%string in
  exists t,
    parseDate tza s = At t
    /\ (tza <= 0 -> toYYYYMMDD t = s)
    /\ (0 < tza -> Day t = MakeDay y m d - 1
                   /\ strGt s (toYYYYMMDD t) = true).
Proof.
  intros Hz Hy Hm Hd s.
  pose proof (monthLength_range (isLeap y) m Hm) as Hl.
  exists (MakeDay y m d * msPerDay - tza).
  split; [apply parseDate_wellFormed; lia|].
  destruct (MakeDay_inverse y m d Hm Hd) as (Fy & Fm & Fd).
  assert (Hs : toYYYYMMDD (MakeDay y m d * msPerDay) = s).
  { unfold toYYYYMMDD, isoDatePart, YearFromTime, MonthFromTime, DateFromTime.
    replace (Day (MakeDay y m d * msPerDay)) with (MakeDay y m d)
      by (unfold Day; symmetry; apply Z.div_mul; unfold msPerDay; lia).
    rewrite Fy, Fm, Fd.
    replace ((0 <=? y) && (y <=? 9999)) with true
      by (symmetry; apply andb_true_intro; split; apply Z.leb_le; lia).
    reflexivity. }
  split.
  - intros Hw. rewrite <- Hs. apply toYYYYMMDD_Day.
    apply Day_localMidnight_west; assumption.
  - intros He.
    assert (HD : Day (MakeDay y m d * msPerDay - tza) = MakeDay y m d - 1)
      by (apply Day_localMidnight_east; assumption).
    split; [exact HD|]. rewrite <- Hs.
    assert (Hk : Day (MakeDay y m d * msPerDay) = MakeDay y m d)
      by (unfold Day; apply Z.div_mul; unfold msPerDay; lia).
    assert (Hy0 : 0 <= YearFromTime (MakeDay y m d * msPerDay) <= 9999)
      by (unfold YearFromTime; rewrite Hk, Fy; lia).
    assert (Hy1 : 0 <= YearFromTime (MakeDay y m d * msPerDay - tza) <= 9999).
    { unfold YearFromTime. rewrite HD.
      pose proof (YearFromDay_spec (MakeDay y m d - 1)) as [S1 S2].
      pose proof (YearFromDay_spec (MakeDay y m d)) as [S3 S4].
      rewrite Fy in S3, S4.
      split.
      - destruct (Z_lt_le_dec (YearFromDay (MakeDay y m d - 1)) 0)
          as [Hlt|]; [|assumption].
        pose proof (DayFromYear_mono (YearFromDay (MakeDay y m d - 1) + 1) 99
                      ltac:(lia)).
        pose proof (DayFromYear_mono 100 y ltac:(lia)).
        change (DayFromYear 99) with (-683368) in *.
        change (DayFromYear 100) with (-683003) in *. lia.
      - destruct (Z_lt_le_dec 9999 (YearFromDay (MakeDay y m d - 1)))
          as [Hlt|]; [|assumption].
        pose proof (DayFromYear_mono (y + 1)
                      (YearFromDay (MakeDay y m d - 1)) ltac:(lia)). lia. }
    unfold strGt, String.ltb.
    rewrite (toYYYYMMDD_compare
               (MakeDay y m d * msPerDay - tza) (MakeDay y m d * msPerDay)
               Hy1 Hy0), HD, Hk.
    replace (MakeDay y m d - 1 ?= MakeDay y m d) with Lt; [reflexivity|].
    symmetry. apply Z.compare_lt_iff. lia.
Qed.

Lemma parseDate_short s :
  (List.length (split "-" s) < 3)%nat -> parseDate tza s = Invalid.
Proof.
  intros Hl. unfold parseDate.
  assert (Hn : nth 2 (map Number (split "-" s)) None = None).
  { apply nth_overflow. rewrite length_map. lia. }
  rewrite Hn.
  destruct (nth 0 (map Number (split "-" s)) None);
    destruct (option_map (fun m => m - 1)
                         (nth 1 (map Number (split "-" s)) None));
    reflexivity.
Qed.

(** X7. A template with a start date, whose cursor string (the last
    generated date when set, else the start date) has fewer than three
    parts between dashes, is passed over by the effect without a trace:
    nothing is queued, its cursor is not moved and nothing is logged. *)
Theorem unparsable_cursor_is_skipped_silently (template : Expense) s fuel
    expenses today st :
  truthyStr (date template) = true ->
  (if truthyStr (lastGeneratedDate template)
   then lastGeneratedDate template else date template) = Some s ->
  (List.length (split "-" s) < 3)%nat ->
  processTemplate tza uuid fuel expenses today st template = Some st.
Proof.
  intros Hd Hs Hl. unfold processTemplate. rewrite Hd. cbn [negb].
  assert (Hfirst : firstCandidate tza template = None
                   \/ firstCandidate tza template = Some Invalid).
  { unfold firstCandidate.
    destruct (truthyStr (lastGeneratedDate template)) eqn:Ht; cbn [negb].
    - rewrite Hs, parseDate_short by assumption.
      unfold calculateNextDueDate.
      destruct (frequency template) as [[|]|]; auto.
      destruct (recurrence template) as [[| | | |]|]; auto.
    - rewrite Hs. cbn. rewrite parseDate_short by assumption. auto. }
  assert (Hloop : genLoop tza uuid fuel template expenses today
                          (firstCandidate tza template) template st
                  = Some (template, st)).
  { destruct Hfirst as [-> | ->]; destruct fuel; reflexivity. }
  rewrite Hloop.
  replace (optStr_eqb (lastGeneratedDate template) (lastGeneratedDate template))
    with true by (symmetry; apply optStr_eqb_refl).
  rewrite andb_false_r. reflexivity.
Qed.

End PrintParse.

(* ================================================================== *)
(** * More about the generation effect (App.tsx) *)
(* ================================================================== *)

Section FinishedByDate.

Import JSDate JSDateFacts RoundTrip CalendarFacts SetterFacts StringOrder
       PickerFacts.

Variable tza : Z.
Variable uuid : nat -> string.

Lemma wellFormed_prints y m d :
  100 <= y <= 9999 -> 0 <= m <= 11 -> 1 <= d <= monthLength (isLeap y) m ->
  toYYYYMMDD (MakeDay y m d * msPerDay)
  = (pad 4 y ++ "-" ++ pad 2 (m + 1) ++ "-" ++ pad 2 d)%string.
Proof.
  intros Hy Hm Hd.
  destruct (MakeDay_inverse y m d Hm Hd) as (Fy & Fm & Fd).
  unfold toYYYYMMDD, isoDatePart, YearFromTime, MonthFromTime, DateFromTime.
  replace (Day (MakeDay y m d * msPerDay)) with (MakeDay y m d)
    by (unfold Day; symmetry; apply Z.div_mul; unfold msPerDay; lia).
  rewrite Fy, Fm, Fd.
  replace ((0 <=? y) && (y <=? 9999)) with true
    by (symmetry; apply andb_true_intro; split; apply Z.leb_le; lia).
  reflexivity.
Qed.

(** X10. At or west of UTC: a recurring template that ends on a date that
    exists, with a cursor and a positive interval, which the filter of the
    recurring-expenses screen no longer shows, is left alone by the effect
    on any day of the four-digit years: nothing is queued and its cursor
    does not move. *)
Theorem finished_by_date_generates_nothing (template : Expense) (c : string)
    (y m d : Z) (fuel : nat) (expenses : list Expense) (today : Z)
    (st : GenState) :
  - msPerDay < tza <= 0 ->
  100 <= y <= 9999 -> 0 <= m <= 11 -> 1 <= d <= monthLength (isLeap y) m ->
  frequency template = Some Recurring ->
  recurrenceEndType template = Some EndDate ->
  recurrenceEndDate template
  = Some (pad 4 y ++ "-" ++ pad 2 (m + 1) ++ "-" ++ pad 2 d)%string ->
  0 < intervalOf template ->
  truthyStr (date template) = true ->
  lastGeneratedDate template = Some c -> c <> "" ->
  today < isoHi -> fuel <> O ->
  isActive tza expenses template = false ->
  processTemplate tza uuid fuel expenses today st template = Some st.
Proof.
  intros Hz Hy Hm Hd Hfreq Hty Hend Hpos Hdate Hlast Hc Htoday Hfuel Hact.
  set (D := (pad 4 y ++ "-" ++ pad 2 (m + 1) ++ "-" ++ pad 2 d)%string) in *.
  set (K := MakeDay y m d).
  pose proof (monthLength_range (isLeap y) m Hm) as Hlen.
  assert (HD : parseDate tza D = At (K * msPerDay - tza)).
  { pose proof (newDate_At tza ltac:(lia) y m d Hy ltac:(lia) ltac:(lia))
      as Hn.
    unfold D, parseDate.
    rewrite (split_three (pad 4 y) (pad 2 (m + 1)) (pad 2 d)
                         (noDash_pad4 _) (noDash_pad2 _) (noDash_pad2 _)).
    cbn [map nth].
    rewrite (Number_pad4 y), (Number_pad2 (m + 1)), (Number_pad2 d) by lia.
    cbn [option_map]. replace (m + 1 - 1) with m by lia. exact Hn. }
  assert (HDne : String.eqb D "" = false).
  { unfold D, pad. cbn [padDigits append]. reflexivity. }
  assert (Hcne : String.eqb c "" = false) by (apply String.eqb_neq; exact Hc).
  assert (Htc : truthyStr (lastGeneratedDate template) = true)
    by (rewrite Hlast; unfold truthyStr; rewrite Hcne; reflexivity).
  (* what the filter says *)
  unfold isActive in Hact. rewrite Hfreq, Hty, Hend in Hact.
  unfold parseLocalYYYYMMDD in Hact. rewrite HDne, HD, Htc, Hlast, Hcne in Hact.
  (* the first candidate of the engine *)
  assert (Hfirst : firstCandidate tza template
                   = calculateNextDueDate tza template (parseDate tza c)).
  { unfold firstCandidate. rewrite Htc, Hlast. reflexivity. }
  assert (Hbreak : forall u,
             calculateNextDueDate tza template (parseDate tza c)
             = Some (At u) ->
             u <= today -> dateBreak template u = true).
  { intros u Hn Hdue.
    destruct (parseDate tza c) as [|x] eqn:Hx.
    { unfold calculateNextDueDate in Hn. rewrite Hfreq in Hn.
      destruct (recurrence template) as [[| | | |]|]; discriminate. }
    pose proof (parseDate_isLocalMidnight tza c x Hx) as Hmx.
    pose proof (calculateNextDueDate_isLocalMidnight tza template x u Hmx Hn)
      as Hmu.
    pose proof (calculateNextDueDate_advances tza template x u Hpos Hn)
      as Hadv.
    assert (Hgt : K * msPerDay - tza < u).
    { rewrite Hn in Hact. unfold timeGt, timeLe in Hact.
      destruct (Z.ltb_spec (K * msPerDay - tza) x); [unfold msPerDay in *; lia|].
      apply Z.leb_gt in Hact. exact Hact. }
    unfold dateBreak. rewrite Hty, Hend, HDne. cbn [negb andb].
    unfold strGt, String.ltb.
    assert (HDeq : D = toYYYYMMDD (K * msPerDay))
      by (symmetry; apply wellFormed_prints; assumption).
    rewrite HDeq.
    assert (HKb : -685000 <= K <= 2935000)
      by (apply MakeDay_bounds; lia).
    assert (Hyu : 0 <= YearFromTime u <= 9999).
    { unfold YearFromTime.
      assert (Hk : DayFromYear 100 <= Day u < DayFromYear 10000).
      { pose proof (MakeDay_small y m d Hm) as Hs. fold K in Hs.
        pose proof (monthStart_range (isLeap y) m Hm).
        pose proof (DayFromYear_mono 100 y ltac:(lia)).
        unfold isoHi in Htoday. unfold Day, msPerDay in *.
        Z.div_mod_to_equations. lia. }
      pose proof (YearFromDay_range _ Hk). lia. }
    assert (HyK : 0 <= YearFromTime (K * msPerDay) <= 9999).
    { unfold YearFromTime.
      replace (Day (K * msPerDay)) with K
        by (unfold Day; symmetry; apply Z.div_mul; unfold msPerDay; lia).
      destruct (MakeDay_inverse y m d Hm Hd) as (Fy & _).
      unfold K. rewrite Fy. lia. }
    rewrite (toYYYYMMDD_compare (K * msPerDay) u HyK Hyu).
    replace (Day (K * msPerDay)) with K
      by (unfold Day; symmetry; apply Z.div_mul; unfold msPerDay; lia).
    replace (K ?= Day u) with Lt; [reflexivity|].
    symmetry. apply Z.compare_lt_iff.
    unfold isLocalMidnight, Day, msPerDay in *. Z.div_mod_to_equations. lia. }
  unfold processTemplate. rewrite Hdate. cbn [negb]. rewrite Hfirst.
  assert (Hloop : genLoop tza uuid fuel template expenses today
                    (calculateNextDueDate tza template (parseDate tza c))
                    template st = Some (template, st)).
  { destruct (calculateNextDueDate tza template (parseDate tza c))
      as [[|u]|] eqn:Hn; try (destruct fuel; reflexivity).
    destruct fuel as [|fuel']; [contradiction|]. cbn [genLoop].
    destruct (Z.leb_spec u today) as [Hdue|]; [|reflexivity].
    rewrite (Hbreak u eq_refl Hdue). reflexivity. }
  rewrite Hloop, optStr_eqb_refl, andb_false_r. reflexivity.
Qed.

End FinishedByDate.

Section ARun.

Import JSDate.

Variable tza : Z.
Variable uuid : nat -> string.

Lemma NoDup_ids_eq (l : list Expense) (a b : Expense) :
  NoDup (map id l) -> In a l -> In b l -> id a = id b -> a = b.
Proof.
  induction l as [|x l IH]; cbn; intros Hnd Ha Hb Hid; [contradiction|].
  inversion Hnd as [|? ? Hn Hd]; subst.
  destruct Ha as [-> | Ha], Hb as [-> | Hb].
  - reflexivity.
  - exfalso. apply Hn. rewrite Hid. apply in_map. assumption.
  - exfalso. apply Hn. rewrite <- Hid. apply in_map. assumption.
  - apply IH; assumption.
Qed.

(** X8. A run of the effect with its two state setters, on templates with
    pairwise distinct ids: the expenses are the old ones with the queued
    instances in front, each of them referencing a template of the list;
    the count of UUIDs advances by their number; the templates keep their
    number and order, and each one is unchanged or differs from what it was
    only in its cursor. *)
Theorem a_run_only_adds_instances_and_moves_cursors fuel calls templates
    expenses today templates' expenses' calls' :
  NoDup (map id templates) ->
  pass tza uuid fuel calls templates expenses today
  = Some (templates', expenses', calls') ->
  (exists added,
      expenses' = added ++ expenses
      /\ calls' = (calls + List.length added)%nat
      /\ Forall (fun e => exists t, In t templates /\ refers (id t) e = true)
                added)
  /\ Forall2 (fun t t' : Expense =>
                t' = t \/ exists d, t' = advanceCursor t d)
             templates templates'.
Proof.
  intros Hnd. unfold pass.
  destruct (generate tza uuid fuel calls templates expenses today)
    as [st|] eqn:Hg; [|discriminate].
  intros [= <- <- <-]. split.
  - exists (newExpenses st).
    destruct (generate_newExpenses tza uuid _ _ _ _ _ _ Hg) as (Hc & _ & Hall).
    split; [apply applyExpenses_app|]. split; [exact Hc|].
    eapply Forall_impl; [|exact Hall].
    intros e (t & Hin & tm & _ & _ & He). exists t. split; [assumption|].
    rewrite He. unfold refers, instanceOf. cbn.
    apply String.eqb_refl.
  - rewrite applyTemplates_map.
    pose proof (generate_templatesToUpdate tza uuid _ _ _ _ _ _ Hg) as Hu.
    rewrite Forall_forall in Hu.
    assert (Hall : forall t, In t templates ->
               mergeTemplate st t = t
               \/ exists d, mergeTemplate st t = advanceCursor t d).
    { intros t Hin. unfold mergeTemplate.
      destruct (find (fun ut => String.eqb (id ut) (id t))
                     (templatesToUpdate st)) as [ut|] eqn:Hf; [|auto].
      apply find_some in Hf. destruct Hf as [Hinu Hid].
      apply String.eqb_eq in Hid.
      destruct (Hu ut Hinu) as (t0 & Hin0 & d & -> & _).
      right. exists d. f_equal.
      apply (NoDup_ids_eq templates); assumption. }
    clear Hnd Hg Hu. induction templates as [|t l IH]; cbn; constructor.
    + apply Hall. cbn. auto.
    + apply IH. intros t0 Hin0. apply Hall. cbn. auto.
Qed.

End ARun.

(* ================================================================== *)
(** * The other state changes of App (App.tsx) *)
(* ================================================================== *)

Section IdsUnique.

Variable tza : Z.
Variable uuid : nat -> string.
Hypothesis uuid_inj : forall a b : nat, uuid a = uuid b -> a = b.

Lemma map_id_update (u : Expense) (l : list Expense) :
  map id (map (fun e => if String.eqb (id e) (id u) then u else e) l)
  = map id l.
Proof.
  induction l as [|e l IH]; cbn; [reflexivity|].
  rewrite IH. destruct (String.eqb_spec (id e) (id u)) as [E|E];
    [rewrite E|]; reflexivity.
Qed.

Lemma map_id_filter_incl (f : Expense -> bool) (l : list Expense) x :
  In x (map id (filter f l)) -> In x (map id l).
Proof.
  intros H. apply in_map_iff in H. destruct H as (e & <- & He).
  apply filter_In in He. apply in_map. tauto.
Qed.

Lemma NoDup_map_filter (f : Expense -> bool) (l : list Expense) :
  NoDup (map id l) -> NoDup (map id (filter f l)).
Proof.
  induction l as [|e l IH]; cbn; intros H; [constructor|].
  inversion H as [|? ? Hn Hd]; subst.
  destruct (f e); cbn; [constructor|]; auto.
  intros Hin. apply Hn. eapply map_id_filter_incl. exact Hin.
Qed.

Lemma NoDup_app_intro {A} (l1 l2 : list A) :
  NoDup l1 -> NoDup l2 -> (forall x, In x l1 -> ~ In x l2) -> NoDup (l1 ++ l2).
Proof.
  induction l1 as [|a l1 IH]; cbn; intros H1 H2 Hd; [assumption|].
  inversion H1; subst. constructor.
  - rewrite in_app_iff. intros [H|H]; [contradiction|].
    apply (Hd a); auto.
  - apply IH; auto.
Qed.

Lemma NoDup_app_elim {A} (l1 l2 : list A) :
  NoDup (l1 ++ l2) ->
  NoDup l1 /\ NoDup l2 /\ (forall x, In x l1 -> ~ In x l2).
Proof.
  induction l1 as [|a l1 IH]; cbn; intros H.
  - repeat split; [constructor | assumption | tauto].
  - inversion H as [|? ? Hn Hd]; subst. apply IH in Hd.
    destruct Hd as (H1 & H2 & H3). rewrite in_app_iff in Hn.
    repeat split; [constructor; tauto | assumption |].
    intros x [->|Hx]; [tauto | auto].
Qed.

Lemma map_id_expensesWithIds calls l :
  map id (expensesWithIds uuid calls l) = map uuid (seq calls (List.length l)).
Proof.
  revert calls. induction l as [|d l IH]; intros calls; cbn;
    [reflexivity | rewrite IH; reflexivity].
Qed.

Lemma NoDup_map_uuid_seq a n : NoDup (map uuid (seq a n)).
Proof.
  revert a. induction n as [|n IH]; intros a; cbn; constructor; [|apply IH].
  intros Hin. apply in_map_iff in Hin. destruct Hin as (j & He & Hj).
  apply uuid_inj in He. apply in_seq in Hj. lia.
Qed.

Lemma in_map_uuid_seq x a n :
  In x (map uuid (seq a n)) -> exists k, (k < n)%nat /\ x = uuid (a + k).
Proof.
  intros H. apply in_map_iff in H. destruct H as (j & <- & Hj).
  apply in_seq in Hj. exists (j - a)%nat. split; [lia|]. f_equal. lia.
Qed.

(** Prepending freshly issued ids keeps the invariant. *)
Lemma idsUnique_issue (s : AppState) n (new : list Expense) exps tmpls ed :
  idsUnique uuid s ->
  map id new = map uuid (seq (appUuidCalls s) n) ->
  map id exps = map id (appExpenses s) ->
  (forall x, In x (map id tmpls) -> In x (map id (appRecurring s))) ->
  NoDup (map id tmpls) ->
  idsUnique uuid (mkApp (new ++ exps) tmpls ed (appUuidCalls s + n)).
Proof.
  intros [Hnd Hfresh] Hnew Hexps Htm Hndt. unfold idsUnique, storedIds in *.
  cbn [appExpenses appRecurring appUuidCalls].
  rewrite !map_app in *. rewrite Hnew, Hexps.
  apply NoDup_app_elim in Hnd. destruct Hnd as (Hne & _ & Hdis).
  split.
  - rewrite <- app_assoc. apply NoDup_app_intro.
    + apply NoDup_map_uuid_seq.
    + apply NoDup_app_intro; [assumption | assumption |].
      intros x Hx Hx'. apply (Hdis x Hx). auto.
    + intros x Hx Hin. apply in_map_uuid_seq in Hx.
      destruct Hx as (k & _ & ->). apply (Hfresh k).
      rewrite in_app_iff in *. destruct Hin; auto.
  - intros k Hin. rewrite !in_app_iff in Hin.
    destruct Hin as [[Hin | Hin] | Hin].
    + apply in_map_uuid_seq in Hin. destruct Hin as (j & Hj & He).
      apply uuid_inj in He. lia.
    + apply (Hfresh (n + k)%nat). rewrite in_app_iff. left.
      replace (appUuidCalls s + (n + k))%nat with (appUuidCalls s + n + k)%nat
        by lia. assumption.
    + apply (Hfresh (n + k)%nat). rewrite in_app_iff. right.
      replace (appUuidCalls s + (n + k))%nat with (appUuidCalls s + n + k)%nat
        by lia. auto.
Qed.

Lemma idsUnique_same (s : AppState) exps tmpls ed :
  idsUnique uuid s ->
  (forall x, In x (map id exps) -> In x (map id (appExpenses s))) ->
  NoDup (map id exps) ->
  (forall x, In x (map id tmpls) -> In x (map id (appRecurring s))) ->
  NoDup (map id tmpls) ->
  idsUnique uuid (mkApp exps tmpls ed (appUuidCalls s)).
Proof.
  intros Hs Hex Hnde Htm Hndt.
  pose proof (idsUnique_issue s 0 [] exps tmpls ed Hs eq_refl) as H.
  destruct Hs as [Hnd Hfresh]. unfold idsUnique, storedIds in *.
  cbn [appExpenses appRecurring appUuidCalls]. rewrite map_app in *.
  apply NoDup_app_elim in Hnd. destruct Hnd as (Hne & Hnt & Hdis).
  split.
  - apply NoDup_app_intro; [assumption | assumption |].
    intros x Hx Hx'. apply (Hdis x); auto.
  - intros k Hin. apply (Hfresh k). rewrite in_app_iff in *.
    destruct Hin; auto.
Qed.

Lemma idsUnique_parts (s : AppState) :
  idsUnique uuid s ->
  NoDup (map id (appExpenses s)) /\ NoDup (map id (appRecurring s)).
Proof.
  intros [Hnd _]. unfold storedIds in Hnd. rewrite map_app in Hnd.
  apply NoDup_app_elim in Hnd. tauto.
Qed.

Lemma idsUnique_addExpense s d :
  idsUnique uuid s -> idsUnique uuid (addExpense uuid s d).
Proof.
  intros Hs. destruct (idsUnique_parts s Hs) as [He Ht].
  unfold addExpense.
  replace (S (appUuidCalls s)) with (appUuidCalls s + 1)%nat by lia.
  apply (idsUnique_issue s 1 [mkExpense (uuid (appUuidCalls s)) d]);
    auto.
Qed.

Lemma idsUnique_addRecurringExpense s d :
  idsUnique uuid s -> idsUnique uuid (addRecurringExpense uuid s d).
Proof.
  intros [Hnd Hfresh]. unfold idsUnique, storedIds, addRecurringExpense in *.
  cbn [appExpenses appRecurring appUuidCalls]. rewrite map_app in *.
  cbn [map id]. split.
  - apply NoDup_app_elim in Hnd. destruct Hnd as (Hne & Hnt & Hdis).
    apply NoDup_app_intro; [assumption | |].
    + constructor; [|assumption]. intros Hin. apply (Hfresh 0%nat).
      rewrite Nat.add_0_r, in_app_iff. auto.
    + intros x Hx [<- | Hx']; [|apply (Hdis x); auto].
      apply (Hfresh 0%nat). rewrite Nat.add_0_r, in_app_iff. auto.
  - intros k Hin. rewrite in_app_iff in Hin. cbn [In] in Hin.
    destruct Hin as [Hin | [Hin | Hin]].
    + apply (Hfresh (S k)). rewrite in_app_iff.
      replace (appUuidCalls s + S k)%nat with (S (appUuidCalls s) + k)%nat
        by lia. auto.
    + apply uuid_inj in Hin. lia.
    + apply (Hfresh (S k)). rewrite in_app_iff.
      replace (appUuidCalls s + S k)%nat with (S (appUuidCalls s) + k)%nat
        by lia. auto.
Qed.

Lemma idsUnique_updateExpense s u :
  idsUnique uuid s -> idsUnique uuid (updateExpense s u).
Proof.
  intros Hs. destruct (idsUnique_parts s Hs) as [He Ht].
  unfold updateExpense. apply idsUnique_same; auto.
  - rewrite map_id_update. auto.
  - rewrite map_id_update. assumption.
Qed.

Lemma idsUnique_updateRecurringExpense s u :
  idsUnique uuid s -> idsUnique uuid (updateRecurringExpense s u).
Proof.
  intros Hs. destruct (idsUnique_parts s Hs) as [He Ht].
  unfold updateRecurringExpense. apply idsUnique_same; auto.
  - rewrite map_id_update. auto.
  - rewrite map_id_update. assumption.
Qed.

Lemma idsUnique_editing s ed :
  idsUnique uuid s ->
  idsUnique uuid (mkApp (appExpenses s) (appRecurring s) ed (appUuidCalls s)).
Proof.
  intros Hs. destruct (idsUnique_parts s Hs) as [He Ht].
  apply idsUnique_same; auto.
Qed.

Lemma idsUnique_handleFormSubmit s dataId data :
  idsUnique uuid s -> idsUnique uuid (handleFormSubmit uuid s dataId data).
Proof.
  intros Hs. unfold handleFormSubmit.
  match goal with
  | |- idsUnique _ (mkApp (appExpenses ?X) _ _ _) =>
      assert (Hx : idsUnique uuid X); [|exact (idsUnique_editing _ None Hx)]
  end.
  destruct (editingRecurringExpense s) as [editing|].
  - destruct (isConversion s dataId data).
    + unfold convertToSingle. apply idsUnique_addExpense.
      destruct (idsUnique_parts s Hs) as [He Ht].
      apply idsUnique_same; auto.
      * apply map_id_filter_incl.
      * apply NoDup_map_filter. assumption.
    + destruct (isRecurring data), dataId;
        auto using idsUnique_addExpense, idsUnique_addRecurringExpense,
                   idsUnique_updateExpense, idsUnique_updateRecurringExpense.
  - destruct (isRecurring data), dataId;
      auto using idsUnique_addExpense, idsUnique_addRecurringExpense,
                 idsUnique_updateExpense, idsUnique_updateRecurringExpense.
Qed.

Lemma map_id_applyTemplates st prev :
  map id (applyTemplates st prev) = map id prev.
Proof.
  unfold applyTemplates. destruct (templatesToUpdate st) as [|u us];
    [reflexivity|].
  induction prev as [|t prev IH]; cbn [map]; [reflexivity|].
  rewrite IH. f_equal.
  destruct (find (fun ut => String.eqb (id ut) (id t)) (u :: us)) eqn:Hf;
    [|reflexivity].
  apply find_some in Hf. destruct Hf as [_ Hf]. apply String.eqb_eq in Hf.
  exact Hf.
Qed.

Lemma idsUnique_act s a s' :
  idsUnique uuid s -> act tza uuid s a = Some s' -> idsUnique uuid s'.
Proof.
  intros Hs. destruct (idsUnique_parts s Hs) as [He Ht].
  destruct a as [dataId data | l | i | i | e | fuel today]; cbn [act].
  - intros [= <-]. apply idsUnique_handleFormSubmit. assumption.
  - intros [= <-]. unfold handleMultipleExpensesSubmit.
    apply (idsUnique_issue s (List.length l)); auto.
    apply map_id_expensesWithIds.
  - intros [= <-]. unfold confirmDelete. destruct i as [i|]; [|assumption].
    destruct (String.eqb i ""); [assumption|].
    apply idsUnique_same; auto.
    + apply map_id_filter_incl.
    + apply NoDup_map_filter. assumption.
  - intros [= <-]. unfold deleteRecurringExpense.
    apply idsUnique_same; auto.
    + apply map_id_filter_incl.
    + apply NoDup_map_filter. assumption.
  - intros [= <-]. apply idsUnique_editing. assumption.
  - unfold pass.
    destruct (generate tza uuid fuel (appUuidCalls s) (appRecurring s)
                       (appExpenses s) today) as [st|] eqn:Hg;
      [|discriminate].
    intros [= <-].
    destruct (generate_newExpenses tza uuid _ _ _ _ _ _ Hg) as (Hc & Hi & _).
    rewrite Hc, applyExpenses_app.
    apply (idsUnique_issue s (List.length (newExpenses st))); auto.
    + rewrite map_id_applyTemplates. auto.
    + rewrite map_id_applyTemplates. assumption.
Qed.

(** X12. When [crypto.randomUUID] never repeats a value and never returns a
    stored id, the ids of the stored expenses and templates stay pairwise
    distinct, and unused by the oracle, through every sequence of form
    submissions, additions of several expenses, deletions of expenses and
    of templates, openings of a template in the form and runs of the
    generation effect. *)
Theorem ids_stay_unique (l : list Action) (s s' : AppState) :
  idsUnique uuid s -> acts tza uuid s l = Some s' -> idsUnique uuid s'.
Proof.
  revert s. induction l as [|a l IH]; intros s Hs; cbn [acts].
  - intros [= <-]. assumption.
  - destruct (act tza uuid s a) as [s1|] eqn:Ha; [|discriminate].
    intros Hr. apply (IH s1); [|assumption].
    eapply idsUnique_act; eassumption.
Qed.

End IdsUnique.

Section FormEdits.

Variable uuid : nat -> string.

Lemma map_update_absent (u : Expense) (l : list Expense) :
  (forall e, In e l -> id e <> id u) ->
  map (fun e => if String.eqb (id e) (id u) then u else e) l = l.
Proof.
  induction l as [|e l IH]; cbn; intros H; [reflexivity|].
  rewrite IH by auto.
  destruct (String.eqb_spec (id e) (id u)) as [E|E]; [|reflexivity].
  exfalso. apply (H e); auto.
Qed.

(** X13. Form data that is recurring and carries an id that no template has
    (as when a stored single expense is switched to recurring in the form)
    changes nothing: both collections stay as they are and no UUID is
    drawn. *)
Theorem recurring_data_with_unknown_id_is_dropped (s : AppState) (i : string)
    (data : ExpenseData) :
  frequency data = Some Recurring ->
  (forall t : Expense, In t (appRecurring s) -> id t <> i) ->
  appExpenses (handleFormSubmit uuid s (Some i) data) = appExpenses s
  /\ appRecurring (handleFormSubmit uuid s (Some i) data) = appRecurring s
  /\ appUuidCalls (handleFormSubmit uuid s (Some i) data) = appUuidCalls s.
Proof.
  intros Hf Hno. unfold handleFormSubmit, isConversion, isRecurring.
  rewrite Hf. cbn [negb].
  assert (Hu : updateRecurringExpense s (mkExpense i data)
               = mkApp (appExpenses s) (appRecurring s)
                       (editingRecurringExpense s) (appUuidCalls s)).
  { unfold updateRecurringExpense.
    rewrite (map_update_absent (mkExpense i data)) by (cbn; auto).
    reflexivity. }
  destruct (editingRecurringExpense s) as [editing|].
  - rewrite andb_false_r, Hu. cbn. auto.
  - rewrite Hu. cbn. auto.
Qed.

End FormEdits.

Section Deleting.

Import JSDate.

Variable tza : Z.
Variable uuid : nat -> string.

Lemma countRefs_zero tid l :
  Forall (fun e => refers tid e = false) l -> countRefs tid l = 0.
Proof.
  unfold countRefs. induction 1 as [|e l He _ IH]; cbn; [reflexivity|].
  rewrite He. exact IH.
Qed.

Lemma generate_no_template tid fuel calls templates expenses today st :
  (forall t : Expense, In t templates -> id t <> tid) ->
  generate tza uuid fuel calls templates expenses today = Some st ->
  Forall (fun e => refers tid e = false) (newExpenses st).
Proof.
  intros Hno Hg.
  destruct (generate_newExpenses tza uuid _ _ _ _ _ _ Hg) as (_ & _ & Hall).
  eapply Forall_impl; [|exact Hall].
  intros e (template & Hin & Hgen).
  destruct (refers tid e) eqn:Hr; [|reflexivity].
  exfalso. apply (Hno template Hin).
  eapply generatedBy_refers; eassumption.
Qed.

(** X11. After [deleteRecurringExpense i] a run of the effect leaves no
    template with id [i] and queues no instance that references [i]; the
    stored expenses all stay, the instances generated earlier for the
    deleted template included. *)
Theorem deleted_template_generates_nothing (s : AppState) (i : string)
    fuel today templates' expenses' calls' :
  pass tza uuid fuel (appUuidCalls s)
       (appRecurring (deleteRecurringExpense s i))
       (appExpenses (deleteRecurringExpense s i)) today
  = Some (templates', expenses', calls') ->
  (forall t : Expense, In t templates' -> id t <> i)
  /\ (exists added, expenses' = added ++ appExpenses s
                    /\ Forall (fun e => refers i e = false) added).
Proof.
  unfold pass.
  destruct (generate tza uuid fuel (appUuidCalls s)
              (appRecurring (deleteRecurringExpense s i))
              (appExpenses (deleteRecurringExpense s i)) today)
    as [st|] eqn:Hg; [|discriminate].
  intros [= <- <- _].
  assert (Hno : forall t : Expense,
             In t (appRecurring (deleteRecurringExpense s i)) -> id t <> i).
  { intros t Hin. cbn in Hin. apply filter_In in Hin. destruct Hin as [_ Hb].
    apply negb_true_iff in Hb. apply String.eqb_neq. exact Hb. }
  split.
  - intros t Hin.
    destruct (applyTemplates_rule tza uuid _ _ _ _ _ _ t Hg Hin)
      as (t0 & Hin0 & Hid & _).
    rewrite Hid. apply Hno. assumption.
  - exists (newExpenses st). split.
    + rewrite applyExpenses_app. reflexivity.
    + eapply generate_no_template; eassumption.
Qed.

(** X14. [confirmDelete] with the id that [addExpense] has just given undoes
    the addition, provided that the id is not the empty string and that no
    stored expense had it. *)
Theorem delete_undoes_add (s : AppState) (newExpense : ExpenseData) :
  uuid (appUuidCalls s) <> "" ->
  (forall e : Expense, In e (appExpenses s) -> id e <> uuid (appUuidCalls s)) ->
  appExpenses (confirmDelete (addExpense uuid s newExpense)
                             (Some (uuid (appUuidCalls s))))
  = appExpenses s
  /\ appRecurring (confirmDelete (addExpense uuid s newExpense)
                                 (Some (uuid (appUuidCalls s))))
     = appRecurring s.
Proof.
  intros Hne Hfresh. unfold confirmDelete.
  destruct (String.eqb_spec (uuid (appUuidCalls s)) "") as [E|_];
    [contradiction|].
  cbn. rewrite String.eqb_refl. cbn. split; [|reflexivity].
  induction (appExpenses s) as [|e l IH]; cbn; [reflexivity|].
  destruct (String.eqb_spec (id e) (uuid (appUuidCalls s))) as [E|E].
  - exfalso. apply (Hfresh e); cbn; auto.
  - cbn. rewrite IH; [reflexivity|]. intros e' Hin. apply Hfresh. cbn. auto.
Qed.

(** X9. When the filter of the recurring-expenses screen hides a template
    because the count [N >= 1] of its rule is reached, a run of the effect
    queues no instance that references its id (every template with that id
    having that rule). *)
Theorem exhausted_count_generates_nothing tid N fuel calls templates expenses
    today st (template : Expense) :
  (forall t : Expense,
      In t templates -> id t = tid ->
      recurrenceEndType t = Some EndCount /\ recurrenceCount t = Some N) ->
  In template templates -> id template = tid ->
  frequency template = Some Recurring ->
  0 < N ->
  isActive tza expenses template = false ->
  generate tza uuid fuel calls templates expenses today = Some st ->
  Forall (fun e => refers tid e = false) (newExpenses st).
Proof.
  intros Hrule Hin Hid Hfreq HN Hact Hg.
  destruct (Hrule template Hin Hid) as [Hty Hn].
  unfold isActive in Hact. rewrite Hfreq, Hty, Hn in Hact.
  destruct (Z.eqb_spec N 0) as [E|_]; [lia|].
  destruct (Z.leb_spec N 0) as [E|_]; [lia|].
  cbn [orb] in Hact. apply Z.ltb_ge in Hact. rewrite Hid in Hact.
  pose proof (generate_count tza uuid tid N fuel calls templates expenses today
                st ltac:(lia) Hrule Hg) as Hc.
  rewrite applyExpenses_app, countRefs_app in Hc.
  pose proof (countRefs_nonneg tid (newExpenses st)) as Hnn.
  assert (Hz : countRefs tid (newExpenses st) = 0) by lia.
  unfold countRefs in Hz.
  apply Forall_forall. intros e He.
  destruct (refers tid e) eqn:Hr; [|reflexivity].
  exfalso.
  assert (Hin' : In e (filter (refers tid) (newExpenses st)))
    by (apply filter_In; auto).
  destruct (filter (refers tid) (newExpenses st)); [contradiction|].
  cbn in Hz. lia.
Qed.

End Deleting.

Section BackButton.

(** X15. While a screen or modal is open, a press of Back closes exactly one
    of them and does nothing else: the window stays open, the exit timer
    and the toast are untouched. *)
Theorem back_closes_one_overlay (s : Overlays) :
  (0 < openOverlays s)%nat ->
  openOverlays (handlePopState s) = (openOverlays s - 1)%nat
  /\ windowClosed (handlePopState s) = windowClosed s
  /\ backPressExitTimeout (handlePopState s) = backPressExitTimeout s
  /\ toast (handlePopState s) = toast s.
Proof.
  destruct s as [a b c d e f g h i del tm ts w].
  unfold openOverlays, handlePopState.
  cbn [isHistoryScreenOpen isRecurringScreenOpen imageForAnalysis
       isCalculatorContainerOpen isFormOpen isImageSourceModalOpen
       isVoiceModalOpen isConfirmDeleteModalOpen isMultipleExpensesModalOpen
       expenseToDeleteId backPressExitTimeout toast windowClosed].
  destruct a; [cbn; intros _; repeat split; lia|].
  destruct b; [cbn; intros _; repeat split; lia|].
  destruct c as [c|]; [cbn; intros _; repeat split; lia|].
  destruct d; [cbn; intros _; repeat split; lia|].
  destruct e; [cbn; intros _; repeat split; lia|].
  destruct f; [cbn; intros _; repeat split; lia|].
  destruct g; [cbn; intros _; repeat split; lia|].
  destruct h; [cbn; intros _; repeat split; lia|].
  destruct i; [cbn; intros _; repeat split; lia|].
  cbn. lia.
Qed.

(** X16. With nothing open and no exit timer running, a first press of Back
    only shows the toast and starts the timer; a second press before the
    timer fires closes the window; a second press after it fired does
    not. *)
Theorem back_twice_exits (s : Overlays) :
  openOverlays s = 0%nat ->
  backPressExitTimeout s = false ->
  windowClosed (handlePopState s) = windowClosed s
  /\ toast (handlePopState s) = Some "Premi di nuovo per uscire."
  /\ windowClosed (handlePopState (handlePopState s)) = true
  /\ windowClosed (handlePopState (exitTimerFires (handlePopState s)))
     = windowClosed s.
Proof.
  destruct s as [a b c d e f g h i del tm ts w].
  unfold openOverlays.
  cbn [isHistoryScreenOpen isRecurringScreenOpen imageForAnalysis
       isCalculatorContainerOpen isFormOpen isImageSourceModalOpen
       isVoiceModalOpen isConfirmDeleteModalOpen isMultipleExpensesModalOpen
       backPressExitTimeout windowClosed].
  intros H0 ->.
  destruct a; [cbn in H0; lia|]. destruct b; [cbn in H0; lia|].
  destruct c as [c|]; [cbn in H0; lia|]. destruct d; [cbn in H0; lia|].
  destruct e; [cbn in H0; lia|]. destruct f; [cbn in H0; lia|].
  destruct g; [cbn in H0; lia|]. destruct h; [cbn in H0; lia|].
  destruct i; [cbn in H0; lia|].
  repeat split.
Qed.

End BackButton.

(* ================================================================== *)
(** * The date-range picker (DateRangePickerModal.tsx) *)
(* ================================================================== *)

Section Picker.

Import JSDate JSDateFacts RoundTrip CalendarFacts SetterFacts JSCalendar
       PickerFacts.

Variable tza : Z.
Hypothesis tza_range : - msPerDay < tza < msPerDay.

(** X17. [getDaysInMonth] is the length of the month: 28 or 29 for February
    by the Gregorian leap-year rule, 30 for April, June, September and
    November, 31 otherwise, in every time zone (years 0100 to 9999). *)
Theorem getDaysInMonth_table (year month : Z) :
  100 <= year <= 9999 -> 0 <= month <= 11 ->
  getDaysInMonth tza year month
  = Some (if month =? 1 then (if isLeap year then 29 else 28)
          else if (month =? 3) || (month =? 5) || (month =? 8)
                  || (month =? 10) then 30
          else 31).
Proof.
  intros Hy Hm. unfold getDaysInMonth.
  rewrite newDate_At by (assumption || lia). cbn [getTime option_map].
  rewrite getDate_localMidnight, MakeDay_day0 by assumption.
  pose proof (monthLength_range (isLeap year) month Hm) as Hl.
  destruct (MakeDay_inverse year month (monthLength (isLeap year) month) Hm
              ltac:(lia)) as (_ & _ & ->).
  rewrite monthLength_table by assumption. reflexivity.
Qed.

Lemma getDaysInMonth_monthLength (year month : Z) :
  100 <= year <= 9999 -> 0 <= month <= 11 ->
  getDaysInMonth tza year month = Some (monthLength (isLeap year) month).
Proof.
  intros Hy Hm. unfold getDaysInMonth.
  rewrite newDate_At by (assumption || lia). cbn [getTime option_map].
  rewrite getDate_localMidnight, MakeDay_day0 by assumption.
  pose proof (monthLength_range (isLeap year) month Hm) as Hl.
  destruct (MakeDay_inverse year month (monthLength (isLeap year) month) Hm
              ltac:(lia)) as (_ & _ & ->).
  reflexivity.
Qed.

Lemma getFirstDayOfMonth_value (year month : Z) :
  100 <= year <= 9999 -> 0 <= month <= 11 ->
  getFirstDayOfMonth tza year month = Some ((MakeDay year month 1 + 3) mod 7).
Proof.
  intros Hy Hm. unfold getFirstDayOfMonth.
  rewrite newDate_At by (assumption || lia). cbn [getTime option_map].
  rewrite getDay_localMidnight. f_equal.
  rewrite Z.rem_mod_nonneg by (Z.div_mod_to_equations; lia).
  Z.div_mod_to_equations. lia.
Qed.

Lemma length_days n :
  List.length (map (fun i => Some (Z.of_nat i)) (seq 1 n)) = n.
Proof. rewrite length_map, length_seq. reflexivity. Qed.

(** X18. The grid of [CalendarView] always has exactly 42 cells: at most
    six empty cells, then the days 1 to 28..31 of the month, then empty
    cells to the end. *)
Theorem calendarGrid_has_42_cells (viewDate : Z) :
  100 <= getFullYear tza viewDate <= 9999 ->
  exists firstDay daysInMonth : nat,
    getFirstDayOfMonth tza (getFullYear tza viewDate) (getMonth tza viewDate)
    = Some (Z.of_nat firstDay)
    /\ getDaysInMonth tza (getFullYear tza viewDate) (getMonth tza viewDate)
       = Some (Z.of_nat daysInMonth)
    /\ (firstDay <= 6)%nat /\ (28 <= daysInMonth <= 31)%nat
    /\ calendarGrid tza viewDate
       = Some (repeat None firstDay
               ++ map (fun i => Some (Z.of_nat i)) (seq 1 daysInMonth)
               ++ repeat None (42 - firstDay - daysInMonth))
    /\ forall grid, calendarGrid tza viewDate = Some grid ->
                    List.length grid = 42%nat.
Proof.
  intros Hy.
  pose proof (MonthFromDay_range (Day (LocalTime tza viewDate))) as Hm.
  fold (MonthFromTime (LocalTime tza viewDate)) in Hm.
  fold (getMonth tza viewDate) in Hm.
  set (y := getFullYear tza viewDate) in *.
  set (m := getMonth tza viewDate) in *.
  pose proof (getFirstDayOfMonth_value y m Hy Hm) as Hf.
  pose proof (getDaysInMonth_monthLength y m Hy Hm) as Hd.
  pose proof (monthLength_range (isLeap y) m Hm) as Hl.
  assert (Hw : 0 <= (MakeDay y m 1 + 3) mod 7 < 7)
    by (apply Z.mod_pos_bound; lia).
  exists (Z.to_nat ((MakeDay y m 1 + 3) mod 7)),
         (Z.to_nat (monthLength (isLeap y) m)).
  rewrite !Z2Nat.id by lia.
  assert (Hg : calendarGrid tza viewDate
               = Some (repeat None (Z.to_nat ((MakeDay y m 1 + 3) mod 7))
                       ++ map (fun i => Some (Z.of_nat i))
                              (seq 1 (Z.to_nat (monthLength (isLeap y) m)))
                       ++ repeat None
                            (42 - Z.to_nat ((MakeDay y m 1 + 3) mod 7)
                             - Z.to_nat (monthLength (isLeap y) m)))).
  { unfold calendarGrid. fold y m. rewrite Hf, Hd.
    rewrite length_app, repeat_length, length_days, <- app_assoc.
    do 3 f_equal. f_equal. lia. }
  repeat split; try assumption; try lia.
  intros grid Hgrid. rewrite Hg in Hgrid.
  apply (f_equal (fun o => match o with
                           | Some g => List.length g
                           | None => O
                           end)) in Hgrid.
  rewrite <- Hgrid, !length_app, !repeat_length, length_days. lia.
Qed.

(** X19. In the grid of [CalendarView], day [d] of the month is in cell
    [firstDay + d - 1], the date of that cell is day [d] of the displayed
    month, and the column of the cell (its index modulo 7, Monday first) is
    the day of the week of that date. *)
Theorem calendarGrid_columns_are_week_days (viewDate : Z) (day : Z) :
  100 <= getFullYear tza viewDate <= 9999 ->
  forall firstDay daysInMonth grid,
    getFirstDayOfMonth tza (getFullYear tza viewDate) (getMonth tza viewDate)
    = Some firstDay ->
    getDaysInMonth tza (getFullYear tza viewDate) (getMonth tza viewDate)
    = Some daysInMonth ->
    calendarGrid tza viewDate = Some grid ->
    1 <= day <= daysInMonth ->
    nth (Z.to_nat (firstDay + day - 1)) grid None = Some day
    /\ exists t, cellDate tza viewDate day = At t
                 /\ getDate tza t = day
                 /\ getMonth tza t = getMonth tza viewDate
                 /\ Z.rem (getDay tza t + 6) 7 = (firstDay + day - 1) mod 7.
Proof.
  intros Hy firstDay daysInMonth grid.
  pose proof (MonthFromDay_range (Day (LocalTime tza viewDate))) as Hm.
  fold (MonthFromTime (LocalTime tza viewDate)) in Hm.
  fold (getMonth tza viewDate) in Hm.
  unfold calendarGrid, cellDate.
  set (y := getFullYear tza viewDate) in *.
  set (m := getMonth tza viewDate) in *.
  rewrite (getFirstDayOfMonth_value y m Hy Hm).
  rewrite (getDaysInMonth_monthLength y m Hy Hm).
  pose proof (monthLength_range (isLeap y) m Hm) as Hl.
  assert (Hw : 0 <= (MakeDay y m 1 + 3) mod 7 < 7)
    by (apply Z.mod_pos_bound; lia).
  set (fd := (MakeDay y m 1 + 3) mod 7) in *.
  set (len := monthLength (isLeap y) m) in *.
  intros Hfd Hdm Hgrid Hday.
  assert (firstDay = fd) by congruence.
  assert (daysInMonth = len) by congruence.
  subst firstDay daysInMonth.
  assert (Hgr : grid = (repeat None (Z.to_nat fd)
                        ++ map (fun i => Some (Z.of_nat i))
                               (seq 1 (Z.to_nat len)))
                       ++ repeat None
                            (42 - List.length
                                    (repeat None (Z.to_nat fd)
                                     ++ map (fun i => Some (Z.of_nat i))
                                            (seq 1 (Z.to_nat len)))))
    by congruence.
  clear Hfd Hdm Hgrid. subst grid. unfold fd, len in *. split.
  - rewrite <- app_assoc, app_nth2 by (rewrite repeat_length; lia).
    rewrite repeat_length.
    rewrite app_nth1 by (rewrite length_days; lia).
    replace (Z.to_nat ((MakeDay y m 1 + 3) mod 7 + day - 1)
             - Z.to_nat ((MakeDay y m 1 + 3) mod 7))%nat
      with (Z.to_nat (day - 1)) by lia.
    rewrite (nth_indep _ None ((fun i => Some (Z.of_nat i)) O))
      by (rewrite length_days; lia).
    rewrite (map_nth (fun i => Some (Z.of_nat i))), seq_nth by lia.
    f_equal. lia.
  - exists (localMidnight tza (MakeDay y m day)).
    split; [apply newDate_At; (assumption || lia)|].
    rewrite getDate_localMidnight, getMonth_localMidnight,
      getDay_localMidnight.
    destruct (MakeDay_inverse y m day Hm ltac:(lia)) as (_ & -> & ->).
    repeat split.
    rewrite Z.rem_mod_nonneg by (Z.div_mod_to_equations; lia).
    replace (MakeDay y m day) with (MakeDay y m 1 + (day - 1))
      by (rewrite <- MakeDay_date; f_equal; lia).
    Z.div_mod_to_equations. lia.
Qed.

End Picker.

Section Selection.

Import JSDate JSDateFacts RoundTrip CalendarFacts SetterFacts JSCalendar
       PickerFacts StringOrder.

Variable tza : Z.

(** X20. [handleDateClick] keeps the start of the selection at or before its
    end, provided that neither is the time value 0 (which the tests
    [endTime && ...] and [startTime && ...] take for no date). *)
Theorem handleDateClick_keeps_order (s : PickerState) (day : Z) :
  ordered s -> nonzero (startDate s) -> nonzero (endDate s) ->
  ordered (handleDateClick tza s day).
Proof.
  unfold ordered, nonzero, handleDateClick.
  intros Ho Hs He.
  destruct (ignoreClick s); [exact Ho|].
  set (clicked := onDate (displayDate s) (fun t => cellDate tza t day)).
  clearbody clicked.
  destruct (selectingFor s) as [[|]|];
    destruct (startDate s) as [[|a]|], (endDate s) as [[|b]|],
             clicked as [|c];
    cbn [sameTime setAndBefore setAndAfter startDate endDate negb andb];
    try exact I;
    repeat match goal with
           | |- context [?x =? ?y] => destruct (Z.eqb_spec x y)
           | |- context [?x <? ?y] => destruct (Z.ltb_spec x y)
           end;
    cbn [negb andb startDate endDate]; try exact I; try lia.
Qed.

(** X21. When the start of the selection is not after its end,
    [handleApply] calls [onApply] with two date strings of which the first
    is not greater than the second (dates of the years 0000 to 9999). *)
Theorem handleApply_range_is_ordered (s : PickerState) (a b : string) :
  ordered s ->
  (forall t, startDate s = Some (At t) -> 0 <= YearFromTime t <= 9999) ->
  (forall t, endDate s = Some (At t) -> 0 <= YearFromTime t <= 9999) ->
  handleApply s = OnApply a b ->
  strGt a b = false.
Proof.
  unfold ordered, handleApply. intros Ho Hs He.
  destruct (startDate s) as [[|x]|], (endDate s) as [[|y]|];
    try discriminate.
  intros [= <- <-]. unfold strGt, String.ltb.
  rewrite (toYYYYMMDD_compare y x) by auto.
  assert (Hd : Day x <= Day y).
  { unfold Day, msPerDay. Z.div_mod_to_equations. lia. }
  destruct (Z.compare_spec (Day y) (Day x)); try reflexivity. lia.
Qed.

(** X22. The range that [handleApply] passes to [onApply], parsed again when
    the modal is opened with it, is a selection of two local midnights: at
    or west of UTC those of the calendar days that were applied; east of
    UTC those of the calendar days before them. *)
Theorem reopening_shows_applied_range (s s0 : PickerState) (a b : string)
    (x y today : Z) :
  - msPerDay < tza < msPerDay ->
  startDate s = Some (At x) -> endDate s = Some (At y) ->
  isLocalMidnight tza x -> isLocalMidnight tza y ->
  isoLo <= x < isoHi -> isoLo <= y < isoHi ->
  handleApply s = OnApply a b ->
  let back := if 0 <? tza then 1 else 0 in
  exists x' y',
    startDate (openWith tza today (Some a) (Some b) s0) = Some (At x')
    /\ endDate (openWith tza today (Some a) (Some b) s0) = Some (At y')
    /\ isLocalMidnight tza x' /\ isLocalMidnight tza y'
    /\ Day (LocalTime tza x') = Day (LocalTime tza x) - back
    /\ Day (LocalTime tza y') = Day (LocalTime tza y) - back.
Proof.
  intros Hz Hs He Hmx Hmy Hrx Hry Ha back. revert Ha.
  unfold handleApply. rewrite Hs, He.
  intros [= <- <-]. unfold openWith. cbn [startDate endDate].
  unfold parseLocalYYYYMMDD.
  assert (Hne : forall t, String.eqb (toYYYYMMDD t) "" = false).
  { intros t. pose proof (toYYYYMMDD_truthy t) as Ht. unfold truthyStr in Ht.
    apply negb_true_iff in Ht. exact Ht. }
  rewrite !Hne.
  assert (Hb : forall t, isLocalMidnight tza t ->
             isLocalMidnight tza (t - back * msPerDay)
             /\ Day (LocalTime tza (t - back * msPerDay))
                = Day (LocalTime tza t) - back).
  { intros t Ht. unfold isLocalMidnight, Day, LocalTime in *.
    replace (t - back * msPerDay + tza)
      with (t + tza + (- back) * msPerDay) by lia.
    rewrite Z.mod_add, Z.div_add by (unfold msPerDay; lia).
    split; [exact Ht | lia]. }
  exists (x - back * msPerDay), (y - back * msPerDay).
  destruct (Hb x Hmx) as [Hx1 Hx2]. destruct (Hb y Hmy) as [Hy1 Hy2].
  assert (Hp : forall t, isLocalMidnight tza t -> isoLo <= t < isoHi ->
             parseDate tza (toYYYYMMDD t) = At (t - back * msPerDay)).
  { intros t Ht Hr. unfold back. destruct (Z.ltb_spec 0 tza).
    - rewrite parseDate_toYYYYMMDD_east by (lia || assumption).
      f_equal; lia.
    - rewrite parseDate_toYYYYMMDD by (lia || assumption).
      f_equal; lia. }
  rewrite !Hp by assumption.
  repeat split; assumption.
Qed.

Hypothesis tza_range : - msPerDay < tza < msPerDay.

(** X23. The grid of years always contains the displayed year: it is the
    twelve years from the multiple of 12 at or below it. [changeYearRange]
    moves the displayed year by whole pages and keeps the month, so that
    the grid moves by [12 * delta] years (target years 0100 to 9999). *)
Theorem yearsInView_pages (d : Z) (delta : Z) :
  let year := getFullYear tza d in
  In year (yearsInView tza d)
  /\ yearsInView tza d
     = map (fun i => year / 12 * 12 + Z.of_nat i) (seq 0 12)
  /\ (100 <= year + delta * 12 <= 9999 ->
      exists d', changeYearRange tza delta d = At d'
                 /\ getFullYear tza d' = year + delta * 12
                 /\ getMonth tza d' = getMonth tza d
                 /\ yearsInView tza d'
                    = map (fun y => y + delta * 12) (yearsInView tza d)).
Proof.
  intros year. unfold yearsInView. fold year.
  split; [|split; [reflexivity|]].
  - apply in_map_iff. exists (Z.to_nat (year mod 12)). split.
    + rewrite Z2Nat.id by (apply Z.mod_pos_bound; lia).
      Z.div_mod_to_equations. lia.
    + apply in_seq. pose proof (Z.mod_pos_bound year 12). lia.
  - intros Hr.
    pose proof (MonthFromDay_range (Day (LocalTime tza d))) as Hm.
    fold (MonthFromTime (LocalTime tza d)) in Hm. fold (getMonth tza d) in Hm.
    exists (localMidnight tza (MakeDay (year + delta * 12) (getMonth tza d) 1)).
    unfold changeYearRange, changeYear. fold year.
    rewrite newDate_At by (assumption || lia).
    rewrite getFullYear_localMidnight, getMonth_localMidnight.
    pose proof (monthLength_range (isLeap (year + delta * 12))
                  (getMonth tza d) Hm).
    destruct (MakeDay_inverse (year + delta * 12) (getMonth tza d) 1 Hm
                ltac:(lia)) as (-> & -> & _).
    repeat split.
    rewrite map_map. apply map_ext. intros i.
    replace ((year + delta * 12) / 12) with (year / 12 + delta)
      by (rewrite Z.div_add; lia).
    lia.
Qed.

(** X24. On a displayed month (a first day of a month at local midnight,
    years 0101 to 9998), a swipe to the next month followed by a swipe to
    the previous one, and the reverse, come back to the displayed month;
    the next month is month + 1, carried into the next year after
    December. *)
Theorem month_navigation_round_trip (t : Z) :
  101 <= getFullYear tza t <= 9998 ->
  getDate tza t = 1 -> isLocalMidnight tza t ->
  handleAnimationEnd tza Right (handleAnimationEnd tza Left (At t)) = At t
  /\ handleAnimationEnd tza Left (handleAnimationEnd tza Right (At t)) = At t
  /\ exists u, handleAnimationEnd tza Left (At t) = At u
               /\ getDate tza u = 1
               /\ getMonth tza u = (getMonth tza t + 1) mod 12
               /\ getFullYear tza u
                  = getFullYear tza t + (getMonth tza t + 1) / 12.
Proof.
  intros Hy Hd Hmid.
  pose proof (MonthFromDay_range (Day (LocalTime tza t))) as Hm.
  fold (MonthFromTime (LocalTime tza t)) in Hm. fold (getMonth tza t) in Hm.
  set (y := getFullYear tza t) in *. set (m := getMonth tza t) in *.
  assert (Ht : t = localMidnight tza (MakeDay y m 1)).
  { unfold localMidnight.
    pose proof (MakeDay_fields (Day (LocalTime tza t))) as Hf.
    fold (YearFromTime (LocalTime tza t)) (MonthFromTime (LocalTime tza t))
         (DateFromTime (LocalTime tza t)) in Hf.
    fold (getFullYear tza t) (getMonth tza t) (getDate tza t) in Hf.
    fold y m in Hf. rewrite Hd in Hf. rewrite Hf.
    unfold isLocalMidnight, LocalTime, Day, msPerDay in *.
    Z.div_mod_to_equations. lia. }
  assert (Hnext : nextMonthDate tza t
                  = At (localMidnight tza
                          (MakeDay (y + (m + 1) / 12) ((m + 1) mod 12) 1))).
  { unfold nextMonthDate. fold y m.
    rewrite newDate_At by (assumption || lia).
    rewrite MakeDay_carry. reflexivity. }
  assert (Hprev : prevMonthDate tza t
                  = At (localMidnight tza
                          (MakeDay (y + (m - 1) / 12) ((m - 1) mod 12) 1))).
  { unfold prevMonthDate. fold y m.
    rewrite newDate_At by (assumption || lia).
    rewrite MakeDay_carry. reflexivity. }
  assert (Hq1 : 0 <= (m + 1) / 12 <= 1) by (Z.div_mod_to_equations; lia).
  assert (Hr1 : 0 <= (m + 1) mod 12 <= 11) by (Z.div_mod_to_equations; lia).
  assert (Hq0 : -1 <= (m - 1) / 12 <= 0) by (Z.div_mod_to_equations; lia).
  assert (Hr0 : 0 <= (m - 1) mod 12 <= 11) by (Z.div_mod_to_equations; lia).
  pose proof (monthLength_range (isLeap (y + (m + 1) / 12)) ((m + 1) mod 12)
                Hr1) as Hl1.
  pose proof (monthLength_range (isLeap (y + (m - 1) / 12)) ((m - 1) mod 12)
                Hr0) as Hl0.
  destruct (MakeDay_inverse (y + (m + 1) / 12) ((m + 1) mod 12) 1 Hr1
              ltac:(lia)) as (Fy1 & Fm1 & Fd1).
  destruct (MakeDay_inverse (y + (m - 1) / 12) ((m - 1) mod 12) 1 Hr0
              ltac:(lia)) as (Fy0 & Fm0 & Fd0).
  cbn [handleAnimationEnd onDate]. rewrite Hnext, Hprev. cbn [onDate].
  split; [|split].
  - unfold prevMonthDate.
    rewrite getFullYear_localMidnight, getMonth_localMidnight, Fy1, Fm1.
    rewrite newDate_At by lia. f_equal. symmetry.
    etransitivity; [exact Ht|]. f_equal.
    rewrite (MakeDay_carry _ ((m + 1) mod 12 - 1)).
    f_equal; Z.div_mod_to_equations; lia.
  - unfold nextMonthDate.
    rewrite getFullYear_localMidnight, getMonth_localMidnight, Fy0, Fm0.
    rewrite newDate_At by lia. f_equal. symmetry.
    etransitivity; [exact Ht|]. f_equal.
    rewrite (MakeDay_carry _ ((m - 1) mod 12 + 1)).
    f_equal; Z.div_mod_to_equations; lia.
  - eexists. split; [reflexivity|].
    rewrite getDate_localMidnight, getMonth_localMidnight,
      getFullYear_localMidnight.
    auto.
Qed.

End Selection.

(* ================================================================== *)
(** * The history screen (HistoryFilterCard.tsx) *)
(* ================================================================== *)

Section ISOWeek.

Import JSDate JSDateFacts RoundTrip CalendarFacts SetterFacts JSCalendar
       PickerFacts HistoryFacts.

Variable tza : Z.
Hypothesis tza_range : - msPerDay < tza < msPerDay.

(** X25. [getISOWeek] of a date is the year of the Thursday of its Monday to
    Sunday week and the rank of that Thursday among the blocks of seven
    days of that year; the year differs by at most one from the year of the
    date and the week number is between 1 and 53 (local dates of the years
    0101 to 9998, every time zone). *)
Theorem getISOWeek_is_week_of_thursday (date : Z) :
  101 <= getFullYear tza date <= 9998 ->
  exists thursday year week : Z,
    getISOWeek tza date = (Some year, Some week)
    /\ Day (LocalTime tza date) - 3 <= thursday <= Day (LocalTime tza date) + 3
    /\ (thursday + 4) mod 7 = 4
    /\ year = YearFromDay thursday
    /\ week = DayWithinYear thursday / 7 + 1
    /\ getFullYear tza date - 1 <= year <= getFullYear tza date + 1
    /\ 1 <= week <= 53.
Proof.
  intros Hy. set (k := Day (LocalTime tza date)).
  exists (7 * ((k + 3) / 7)), (YearFromDay (7 * ((k + 3) / 7))),
         (DayWithinYear (7 * ((k + 3) / 7)) / 7 + 1).
  split; [apply getISOWeek_value; assumption|].
  set (th := 7 * ((k + 3) / 7)).
  assert (Hth : k - 3 <= th <= k + 3)
    by (unfold th; Z.div_mod_to_equations; lia).
  split; [exact Hth|].
  split; [unfold th; Z.div_mod_to_equations; lia|].
  split; [reflexivity|]. split; [reflexivity|].
  split.
  - pose proof (YearFromDay_spec k) as [S1 S2].
    pose proof (YearFromDay_spec th) as [S3 S4].
    fold k in Hy. unfold getFullYear, YearFromTime. fold k.
    pose proof (DayFromYear_succ (YearFromDay k)) as E1.
    pose proof (DayFromYear_succ (YearFromDay k - 1)) as E0.
    replace (YearFromDay k - 1 + 1) with (YearFromDay k) in E0 by lia.
    pose proof (DayFromYear_succ (YearFromDay k + 1)) as E2.
    replace (YearFromDay k + 1 + 1) with (YearFromDay k + 2) in E2 by lia.
    unfold DaysInYear in *.
    split.
    + destruct (Z_lt_le_dec (YearFromDay th) (YearFromDay k - 1)) as [Hlt|];
        [|assumption].
      pose proof (DayFromYear_mono (YearFromDay th + 1) (YearFromDay k - 1)
                    ltac:(lia)).
      destruct (isLeap (YearFromDay k - 1)); lia.
    + destruct (Z_lt_le_dec (YearFromDay k + 1) (YearFromDay th)) as [Hlt|];
        [|assumption].
      pose proof (DayFromYear_mono (YearFromDay k + 2) (YearFromDay th)
                    ltac:(lia)).
      destruct (isLeap (YearFromDay k)), (isLeap (YearFromDay k + 1)); lia.
  - pose proof (DayWithinYear_range th) as Hw. unfold DaysInYear in Hw.
    destruct (isLeap (YearFromDay th)); Z.div_mod_to_equations; lia.
Qed.

(** X26. Two dates whose weeks start on the same Monday have the same
    [getISOWeek], so the history puts them in one group. *)
Theorem same_week_same_ISOWeek (date date' : Z) :
  101 <= getFullYear tza date <= 9998 ->
  101 <= getFullYear tza date' <= 9998 ->
  Day (LocalTime tza date) - Z.rem (getDay tza date + 6) 7
  = Day (LocalTime tza date') - Z.rem (getDay tza date' + 6) 7 ->
  getISOWeek tza date = getISOWeek tza date'.
Proof.
  intros Hy Hy' Hm.
  rewrite !getISOWeek_value by assumption.
  unfold getDay, WeekDay in Hm.
  rewrite !Z.rem_mod_nonneg in Hm by (Z.div_mod_to_equations; lia).
  set (k := Day (LocalTime tza date)) in *.
  set (k' := Day (LocalTime tza date')) in *.
  replace ((k' + 3) / 7) with ((k + 3) / 7); [reflexivity|].
  Z.div_mod_to_equations. lia.
Qed.

End ISOWeek.

Section PeriodFilter.

Import JSDate JSDateFacts RoundTrip CalendarFacts SetterFacts JSCalendar
       PickerFacts HistoryFacts PeriodFacts.

Variable tza : Z.
Hypothesis tza_range : - msPerDay < tza < msPerDay.

Lemma day_bounds t :
  101 <= getFullYear tza t <= 9998 ->
  -684000 <= Day (LocalTime tza t) <= 2934000.
Proof.
  intros Hy.
  pose proof (YearFromDay_spec (Day (LocalTime tza t))) as [S1 S2].
  fold (YearFromTime (LocalTime tza t)) in S1, S2.
  fold (getFullYear tza t) in S1, S2.
  pose proof (DayFromYear_bounds (getFullYear tza t) ltac:(lia)).
  pose proof (DayFromYear_bounds (getFullYear tza t + 1) ltac:(lia)).
  lia.
Qed.

Lemma isLocalMidnight_after_endOfDay k :
  isLocalMidnight tza (localMidnight tza k + msPerDay - 1 + 1)
  /\ Day (LocalTime tza (localMidnight tza k + msPerDay - 1 + 1)) = k + 1.
Proof.
  clear tza_range.
  replace (localMidnight tza k + msPerDay - 1 + 1)
    with (localMidnight tza (k + 1)) by (unfold localMidnight; lia).
  split; [|apply Day_LocalTime_localMidnight].
  unfold isLocalMidnight, localMidnight.
  replace ((k + 1) * msPerDay - tza + tza) with ((k + 1) * msPerDay) by lia.
  apply Z.mod_mul. unfold msPerDay. lia.
Qed.

(** X28. The week filter starts at local midnight of the Monday of the week
    of [periodDate] and ends one millisecond before a local midnight: that
    of the next Monday only when the first Monday is in the month of
    [periodDate]; when it is in the month before, the end comes later by
    as many days as that month has. *)
Theorem week_filter_bounds (t : Z) :
  101 <= getFullYear tza t <= 9998 ->
  exists s' e',
    periodBounds tza PWeek (At t) = (At s', At e')
    /\ isLocalMidnight tza s'
    /\ Z.rem (getDay tza s' + 6) 7 = 0
    /\ Day (LocalTime tza s') <= Day (LocalTime tza t)
       <= Day (LocalTime tza s') + 6
    /\ isLocalMidnight tza (e' + 1)
    /\ (getMonth tza s' = getMonth tza t ->
        Day (LocalTime tza (e' + 1)) = Day (LocalTime tza s') + 7)
    /\ (getMonth tza s' <> getMonth tza t ->
        exists len,
          getDaysInMonth tza (getFullYear tza s') (getMonth tza s') = Some len
          /\ Day (LocalTime tza (e' + 1))
             = Day (LocalTime tza s') + 7 + len).
Proof.
  intros Hy.
  pose proof (day_bounds t Hy) as Hkb.
  set (k := Day (LocalTime tza t)) in *.
  set (wd := (k + 3) mod 7).
  assert (Hwd : 0 <= wd <= 6) by (unfold wd; Z.div_mod_to_equations; lia).
  set (mon := k - wd).
  pose proof (MonthFromDay_range k) as Hm.
  pose proof (DateFromDay_le k) as Hd.
  assert (Hyk : 101 <= YearFromDay k <= 9998) by exact Hy.
  set (y := YearFromDay k) in *. set (m := MonthFromDay k) in *.
  pose proof (monthLength_range (isLeap y) m Hm) as Hlen.
  set (f := MakeDay y m 1).
  assert (Hf : f = k - DateFromDay k + 1) by apply first_of_month.
  (* the bounds as the code computes them *)
  assert (Hstart : setDate tza (localMidnight tza k)
                     (getDate tza (localMidnight tza k)
                      - getDay tza (localMidnight tza k)
                      + (if getDay tza (localMidnight tza k) =? 0
                         then -6 else 1))
                   = At (localMidnight tza mon)).
  { rewrite getDay_localMidnight.
    replace (getDate tza (localMidnight tza k) - (k + 4) mod 7
             + (if (k + 4) mod 7 =? 0 then -6 else 1))
      with (getDate tza (localMidnight tza k) + - wd)
      by (unfold wd; destruct (Z.eqb_spec ((k + 4) mod 7) 0);
          Z.div_mod_to_equations; lia).
    rewrite setDate_getDate_eq by assumption.
    replace (localMidnight tza k + - wd * msPerDay)
      with (localMidnight tza mon) by (unfold localMidnight, mon; lia).
    apply TimeClip_small. unfold localMidnight, mon, maxTime, msPerDay in *.
    lia. }
  assert (Hend : setDate tza (localMidnight tza k + msPerDay - 1)
                   (getDate tza (localMidnight tza mon) + 6)
                 = At (localMidnight tza (MakeDay y m (DateFromDay mon + 6))
                       + msPerDay - 1)).
  { unfold setDate, YearFromTime, MonthFromTime.
    rewrite Day_endOfDay, TimeWithinDay_endOfDay, getDate_localMidnight.
    fold y m.
    pose proof (DateFromDay_range mon).
    pose proof (MakeDay_bounds y m (DateFromDay mon + 6) ltac:(lia)
                  ltac:(lia) ltac:(lia)).
    rewrite clip_endOfDay by lia. reflexivity. }
  exists (localMidnight tza mon),
         (localMidnight tza (MakeDay y m (DateFromDay mon + 6))
          + msPerDay - 1).
  split.
  { unfold periodBounds. cbn [onDate].
    rewrite setHours_midnight, setHours_endOfDay by assumption.
    fold k. rewrite Hstart. cbn [onDate]. rewrite Hend. reflexivity. }
  split.
  { unfold isLocalMidnight, localMidnight.
    replace (mon * msPerDay - tza + tza) with (mon * msPerDay) by lia.
    apply Z.mod_mul. unfold msPerDay. lia. }
  split.
  { rewrite getDay_localMidnight.
    rewrite Z.rem_mod_nonneg by (Z.div_mod_to_equations; lia).
    unfold mon, wd. Z.div_mod_to_equations. lia. }
  rewrite Day_LocalTime_localMidnight.
  split; [unfold mon; lia|].
  destruct (isLocalMidnight_after_endOfDay
              (MakeDay y m (DateFromDay mon + 6))) as [Hmid ->].
  split; [exact Hmid|].
  rewrite getMonth_localMidnight, getFullYear_localMidnight.
  unfold getMonth, MonthFromTime. fold k. fold m.
  destruct (Z_le_gt_dec f mon) as [Hin | Hout].
  - (* the Monday is in the month of the period date *)
    assert (Hfld : YearFromDay mon = y /\ MonthFromDay mon = m
                   /\ DateFromDay mon = mon - f + 1).
    { replace mon with (MakeDay y m (mon - f + 1)) at 1 2 3.
      - apply MakeDay_inverse; [assumption | unfold mon in *; lia].
      - replace (mon - f + 1) with (1 + (mon - f)) by lia.
        rewrite MakeDay_date. fold f. lia. }
    destruct Hfld as (Fy & Fm & Fd).
    split; [|intros Hne; contradiction].
    intros _. rewrite Fd.
    replace (mon - f + 1 + 6) with (1 + (mon - f + 6)) by lia.
    rewrite MakeDay_date. fold f. lia.
  - (* the Monday is in the month before *)
    destruct (last_of_previous y m Hm) as (Hlast & Hr' & Hne').
    set (y' := y + (m - 1) / 12) in *. set (m' := (m - 1) mod 12) in *.
    set (len' := monthLength (isLeap y') m') in *.
    pose proof (monthLength_range (isLeap y') m' Hr') as Hl'. fold len' in Hl'.
    fold f in Hlast.
    assert (Hfld : YearFromDay mon = y' /\ MonthFromDay mon = m'
                   /\ DateFromDay mon = len' - (f - 1 - mon)).
    { replace mon with (MakeDay y' m' (len' - (f - 1 - mon))) at 1 2 3.
      - apply MakeDay_inverse; [assumption | fold len'; unfold mon in *; lia].
      - replace (len' - (f - 1 - mon)) with (len' + - (f - 1 - mon)) by lia.
        rewrite MakeDay_date. lia. }
    destruct Hfld as (Fy & Fm & Fd).
    split; [intros Heq; congruence|].
    intros _. exists len'. split.
    + rewrite Fy, Fm. apply getDaysInMonth_monthLength; try assumption.
      assert (Hq : -1 <= (m - 1) / 12 <= 0)
        by (Z.div_mod_to_equations; lia).
      unfold y'. lia.
    + rewrite Fd.
      replace (len' - (f - 1 - mon) + 6)
        with (1 + (len' - (f - 1 - mon) + 5)) by lia.
      rewrite MakeDay_date. fold f. lia.
Qed.

(** X29. The month filter starts at local midnight of the first day of the
    month of [periodDate]. It ends one millisecond before the first day of
    the next month only when the day of the month of [periodDate] exists in
    the next month; otherwise it ends one millisecond before the first day
    of the month after the next. *)
Theorem month_filter_bounds (t : Z) :
  101 <= getFullYear tza t <= 9998 ->
  let y := getFullYear tza t in
  let m := getMonth tza t in
  let next := monthLength (isLeap (y + (m + 1) / 12)) ((m + 1) mod 12) in
  exists s' e',
    periodBounds tza PMonth (At t) = (At s', At e')
    /\ newDate tza (Some y) (Some m) (Some 1) = At s'
    /\ (getDate tza t <= next ->
        newDate tza (Some y) (Some (m + 1)) (Some 1) = At (e' + 1))
    /\ (next < getDate tza t ->
        newDate tza (Some y) (Some (m + 2)) (Some 1) = At (e' + 1)).
Proof.
  intros Hy y m next.
  pose proof (day_bounds t Hy) as Hkb.
  set (k := Day (LocalTime tza t)) in *.
  pose proof (MonthFromDay_range k) as Hm.
  pose proof (DateFromDay_le k) as Hd.
  assert (Ey : y = YearFromDay k) by reflexivity.
  assert (Em : m = MonthFromDay k) by reflexivity.
  assert (Ed : getDate tza t = DateFromDay k) by reflexivity.
  rewrite <- Ey, <- Em in Hd. rewrite <- Em in Hm.
  rewrite Ed. set (d := DateFromDay k) in *.
  pose proof (monthLength_range (isLeap y) m Hm) as Hlen.
  set (f := MakeDay y m 1).
  assert (Hq1 : 0 <= (m + 1) / 12 <= 1) by (Z.div_mod_to_equations; lia).
  assert (Hr1 : 0 <= (m + 1) mod 12 <= 11) by (Z.div_mod_to_equations; lia).
  set (y1 := y + (m + 1) / 12) in *. set (m1 := (m + 1) mod 12) in *.
  pose proof (monthLength_range (isLeap y1) m1 Hr1) as Hnext.
  fold next in Hnext.
  assert (Hstart : setDate tza (localMidnight tza k) 1
                   = At (localMidnight tza f)).
  { unfold setDate, YearFromTime, MonthFromTime.
    rewrite Day_LocalTime_localMidnight, TimeWithinDay_localMidnight.
    rewrite <- Ey, <- Em. fold f.
    pose proof (MakeDay_bounds y m 1 ltac:(lia) ltac:(lia) ltac:(lia)).
    fold f in H. rewrite clip_midnight by lia. reflexivity. }
  assert (Hmid : setMonth tza (localMidnight tza k + msPerDay - 1)
                   (getMonth tza (localMidnight tza k + msPerDay - 1) + 1)
                 = At (localMidnight tza (MakeDay y (m + 1) d)
                       + msPerDay - 1)).
  { unfold setMonth, getMonth, YearFromTime, MonthFromTime, DateFromTime.
    rewrite Day_endOfDay, TimeWithinDay_endOfDay.
    rewrite <- Ey, <- Em. fold d.
    pose proof (MakeDay_bounds y (m + 1) d ltac:(lia) ltac:(lia) ltac:(lia)).
    rewrite clip_endOfDay by lia. reflexivity. }
  assert (Hcarry : MakeDay y (m + 1) d = MakeDay y1 m1 d)
    by apply MakeDay_carry.
  assert (Hend : forall y2 m2,
             YearFromDay (MakeDay y (m + 1) d) = y2 ->
             MonthFromDay (MakeDay y (m + 1) d) = m2 ->
             100 <= y2 <= 9999 ->
             setDate tza (localMidnight tza (MakeDay y (m + 1) d)
                          + msPerDay - 1) 0
             = At (localMidnight tza (MakeDay y2 m2 0) + msPerDay - 1)).
  { intros y2 m2 Hy2 Hm2 Hr2.
    unfold setDate, YearFromTime, MonthFromTime.
    rewrite Day_endOfDay, TimeWithinDay_endOfDay, Hy2, Hm2.
    pose proof (MonthFromDay_range (MakeDay y (m + 1) d)) as Hmr.
    rewrite Hm2 in Hmr.
    pose proof (MakeDay_bounds y2 m2 0 ltac:(lia) ltac:(lia) ltac:(lia)).
    rewrite clip_endOfDay by lia. reflexivity. }
  assert (Hbounds : forall e',
             setDate tza (localMidnight tza (MakeDay y (m + 1) d)
                          + msPerDay - 1) 0 = At e' ->
             periodBounds tza PMonth (At t) = (At (localMidnight tza f), At e')).
  { intros e' He. unfold periodBounds. cbn [onDate].
    rewrite setHours_midnight, setHours_endOfDay by assumption.
    fold k. cbn [onDate]. rewrite Hstart, Hmid. cbn [onDate]. rewrite He.
    reflexivity. }
  assert (Hnew : newDate tza (Some y) (Some m) (Some 1)
                 = At (localMidnight tza f))
    by (apply newDate_At; (assumption || lia)).
  assert (Hafter : forall y2 m2,
             localMidnight tza (MakeDay y2 m2 0) + msPerDay - 1 + 1
             = localMidnight tza (MakeDay y2 m2 1)).
  { intros y2 m2. unfold localMidnight, MakeDay. lia. }
  destruct (Z_le_gt_dec d next) as [Hfit | Hover].
  - destruct (MakeDay_inverse y1 m1 d Hr1 ltac:(fold next; lia))
      as (Fy & Fm & _).
    rewrite <- Hcarry in Fy, Fm.
    exists (localMidnight tza f),
           (localMidnight tza (MakeDay y1 m1 0) + msPerDay - 1).
    split; [apply Hbounds, Hend; (assumption || unfold y1; lia)|].
    split; [exact Hnew|]. split; [|intros; lia].
    intros _. rewrite newDate_At by (assumption || lia).
    rewrite Hafter. f_equal. f_equal. apply MakeDay_carry.
  - assert (Hne : m1 <> 11).
    { intros E. unfold next in Hover. rewrite E in Hover.
      destruct (isLeap y1); cbn in Hover; lia. }
    pose proof (monthLength_range (isLeap y1) (m1 + 1) ltac:(lia)) as Hl2.
    destruct (MakeDay_inverse y1 (m1 + 1) (d - next) ltac:(lia) ltac:(lia))
      as (Fy & Fm & _).
    unfold next in Fy, Fm. rewrite <- MakeDay_overflow in Fy, Fm by lia.
    rewrite <- Hcarry in Fy, Fm.
    exists (localMidnight tza f),
           (localMidnight tza (MakeDay y1 (m1 + 1) 0) + msPerDay - 1).
    split; [apply Hbounds, Hend; (assumption || unfold y1; lia)|].
    split; [exact Hnew|]. split; [intros; lia|].
    intros _. rewrite newDate_At by (assumption || lia).
    rewrite Hafter. f_equal. f_equal.
    rewrite (MakeDay_carry y (m + 2)).
    assert (E1 : (m + 2) / 12 = (m + 1) / 12)
      by (unfold m1 in Hne; Z.div_mod_to_equations; lia).
    assert (E2 : (m + 2) mod 12 = m1 + 1)
      by (unfold m1 in *; Z.div_mod_to_equations; lia).
    rewrite E1, E2. reflexivity.
Qed.

(** X30. The year filter runs from local midnight of 1 January of the year
    of [periodDate] to the last millisecond before 1 January of the next
    year. *)
Theorem year_filter_bounds (t : Z) :
  101 <= getFullYear tza t <= 9998 ->
  exists s' e',
    periodBounds tza PYear (At t) = (At s', At e')
    /\ newDate tza (Some (getFullYear tza t)) (Some 0) (Some 1) = At s'
    /\ newDate tza (Some (getFullYear tza t + 1)) (Some 0) (Some 1)
       = At (e' + 1).
Proof.
  intros Hy.
  pose proof (day_bounds t Hy) as Hkb.
  set (k := Day (LocalTime tza t)) in *.
  pose proof (MonthFromDay_range k) as Hm.
  pose proof (DateFromDay_le k) as Hd.
  assert (Ey : getFullYear tza t = YearFromDay k) by reflexivity.
  rewrite Ey in *. set (y := YearFromDay k) in *.
  set (m := MonthFromDay k) in *. set (d := DateFromDay k) in *.
  assert (Hstart : setMonthDate tza (localMidnight tza k) 0 1
                   = At (localMidnight tza (MakeDay y 0 1))).
  { unfold setMonthDate, YearFromTime.
    rewrite Day_LocalTime_localMidnight, TimeWithinDay_localMidnight.
    fold y.
    pose proof (MakeDay_bounds y 0 1 ltac:(lia) ltac:(lia) ltac:(lia)).
    rewrite clip_midnight by lia. reflexivity. }
  assert (Hmid : setFullYear tza (localMidnight tza k + msPerDay - 1)
                   (getFullYear tza (localMidnight tza k + msPerDay - 1) + 1)
                 = At (localMidnight tza (MakeDay (y + 1) m d)
                       + msPerDay - 1)).
  { unfold setFullYear, getFullYear, YearFromTime, MonthFromTime,
      DateFromTime.
    rewrite Day_endOfDay, TimeWithinDay_endOfDay. fold y m d.
    pose proof (monthLength_range (isLeap y) m Hm).
    pose proof (MakeDay_bounds (y + 1) m d ltac:(lia) ltac:(lia) ltac:(lia)).
    rewrite clip_endOfDay by lia. reflexivity. }
  assert (Hyear : YearFromDay (MakeDay (y + 1) m d) = y + 1)
    by (apply (MakeDay_year (y + 1) m d (isLeap y)); assumption).
  assert (Hend : setMonthDate tza (localMidnight tza (MakeDay (y + 1) m d)
                                   + msPerDay - 1) 0 0
                 = At (localMidnight tza (MakeDay (y + 1) 0 0)
                       + msPerDay - 1)).
  { unfold setMonthDate, YearFromTime.
    rewrite Day_endOfDay, TimeWithinDay_endOfDay, Hyear.
    pose proof (MakeDay_bounds (y + 1) 0 0 ltac:(lia) ltac:(lia) ltac:(lia)).
    rewrite clip_endOfDay by lia. reflexivity. }
  exists (localMidnight tza (MakeDay y 0 1)),
         (localMidnight tza (MakeDay (y + 1) 0 0) + msPerDay - 1).
  split.
  { unfold periodBounds. cbn [onDate].
    rewrite setHours_midnight, setHours_endOfDay by assumption.
    fold k. cbn [onDate]. rewrite Hstart, Hmid. cbn [onDate]. rewrite Hend.
    reflexivity. }
  split; [apply newDate_At; (assumption || lia)|].
  rewrite newDate_At by (assumption || lia). f_equal.
  assert (Hone : MakeDay (y + 1) 0 1 = MakeDay (y + 1) 0 0 + 1)
    by (unfold MakeDay; lia).
  rewrite Hone. unfold localMidnight. lia.
Qed.

End PeriodFilter.

Section CustomFilter.

Import JSDate JSDateFacts RoundTrip CalendarFacts SetterFacts StringOrder
       PickerFacts HistoryFacts JSCalendar.

Variable tza : Z.
Hypothesis tza_range : - msPerDay < tza < msPerDay.

(** A date string parses to the local midnight of a day that prints as the
    string. *)
Lemma isDateString_parse s :
  isDateString s ->
  exists k, parseDate tza s = At (localMidnight tza k)
            /\ toYYYYMMDD (k * msPerDay) = s
            /\ -685000 <= k <= 2935000
            /\ 0 <= YearFromTime (k * msPerDay) <= 9999.
Proof.
  intros (y & m & d & Hy & Hm & Hd & ->).
  pose proof (monthLength_range (isLeap y) m Hm) as Hl.
  exists (MakeDay y m d). split; [|split; [|split]].
  - unfold localMidnight. apply parseDate_wellFormed; lia.
  - apply wellFormed_prints; assumption.
  - apply MakeDay_bounds; lia.
  - unfold YearFromTime. rewrite Day_midnight.
    destruct (MakeDay_inverse y m d Hm Hd) as (-> & _). lia.
Qed.

Lemma isDateString_nonempty s : isDateString s -> String.eqb s "" = false.
Proof.
  intros (y & m & d & _ & _ & _ & ->). unfold pad. cbn [padDigits append].
  reflexivity.
Qed.

(** X27. With a custom range the history keeps exactly the expenses whose
    date string lies between the start and the end of the range, both
    included, in every time zone (date strings of dates that exist). *)
Theorem custom_filter_is_inclusive_range (a b : string) (q : DateFilter)
    (pt : PeriodType) (pd : Date) (now : Z) (expenses : list Expense) :
  isDateString a -> isDateString b ->
  Forall (fun e : Expense => exists s, date e = Some s /\ isDateString s)
         expenses ->
  filteredExpenses tza (mkFilter Custom q (Some a) (Some b) pt pd) now expenses
  = Some (filter (fun e : Expense =>
                    match date e with
                    | Some s => strBetween a b s
                    | None => false
                    end) expenses).
Proof.
  intros Ha Hb Hall.
  destruct (isDateString_parse a Ha) as (ka & Pa & Sa & Ba & Ya).
  destruct (isDateString_parse b Hb) as (kb & Pb & Sb & Bb & Yb).
  unfold filteredExpenses. cbn [activeFilterMode customStart customEnd].
  unfold truthyStr.
  rewrite (isDateString_nonempty a Ha), (isDateString_nonempty b Hb).
  cbn [negb andb]. rewrite Pa, Pb. cbn [onDate].
  rewrite setDate_getDate_eq.
  rewrite TimeClip_small
    by (unfold localMidnight, maxTime, msPerDay in *; lia).
  induction Hall as [|e l (s & Hs & Hds) _ IH]; [reflexivity|].
  cbn [filterByDate filter]. rewrite Hs, IH. f_equal.
  destruct (isDateString_parse s Hds) as (ks & Ps & Ss & Bs & Ys).
  rewrite Ps. unfold timeGe, timeLt, strBetween, strGt, String.ltb.
  rewrite <- Sa, <- Sb, <- Ss.
  rewrite !toYYYYMMDD_compare by assumption. rewrite !Day_midnight.
  replace (localMidnight tza ka <=? localMidnight tza ks) with (ka <=? ks).
  2:{ unfold localMidnight, msPerDay.
      destruct (Z.leb_spec ka ks); symmetry;
        [apply Z.leb_le | apply Z.leb_gt]; lia. }
  replace (localMidnight tza ks <? localMidnight tza kb + 1 * msPerDay)
    with (ks <=? kb).
  2:{ unfold localMidnight, msPerDay.
      destruct (Z.leb_spec ks kb); symmetry;
        [apply Z.ltb_lt | apply Z.ltb_ge]; lia. }
  replace (negb match ks ?= ka with Lt => true | _ => false end)
    with (ka <=? ks).
  2:{ destruct (Z.compare_spec ks ka); destruct (Z.leb_spec ka ks);
        try reflexivity; lia. }
  replace (negb match kb ?= ks with Lt => true | _ => false end)
    with (ks <=? kb).
  2:{ destruct (Z.compare_spec kb ks); destruct (Z.leb_spec ks kb);
        try reflexivity; lia. }
  reflexivity.
Qed.

End CustomFilter.

(* ================================================================== *)
(** * The further theorems at concrete inputs *)
(* ================================================================== *)

Section Witnesses.

Import JSDate JSCalendar Samples.

Lemma tally_inj a b : tally a = tally b -> a = b.
Proof.
  revert b. induction a as [|a IH]; intros [|b]; cbn; intros H;
    try discriminate; [reflexivity|].
  f_equal. apply IH. congruence.
Qed.

Lemma parse_of_printed_date_witness :
  (- msPerDay < Scenario.cet < msPerDay)
  /\ isLocalMidnight Scenario.cet (cetMidnight "2024-01-01")
  /\ (isoLo <= cetMidnight "2024-01-01" < isoHi)
  /\ toYYYYMMDD (cetMidnight "2024-01-01") = "2023-12-31"
  /\ exists u,
       parseDate Scenario.cet (toYYYYMMDD (cetMidnight "2024-01-01")) = At u
       /\ isLocalMidnight Scenario.cet u
       /\ Day (LocalTime Scenario.cet u)
          = Day (LocalTime Scenario.cet (cetMidnight "2024-01-01"))
            - (if 0 <? Scenario.cet then 1 else 0).
Proof.
  split; [evaluated|]. split; [evaluated|]. split; [evaluated|].
  split; [vm_compute; reflexivity|].
  apply (parse_of_printed_date Scenario.cet (cetMidnight "2024-01-01"));
    evaluated.
Defined.

Lemma printed_date_of_parsed_string_witness :
  (- msPerDay < Scenario.cet < msPerDay)
  /\ 100 <= 2024 <= 9999 /\ 0 <= 1 <= 11
  /\ 1 <= 29 <= monthLength (isLeap 2024) 1
  /\ (pad 4 2024 ++ "-" ++ pad 2 (1 + 1) ++ "-" ++ pad 2 29)%string
     = "2024-02-29"
  /\ let s := (pad 4 2024 ++ "-" ++ pad 2 (1 + 1) ++ "-" ++ pad 2 29)%string in
     exists t,
       parseDate Scenario.cet s = At t
       /\ (Scenario.cet <= 0 -> toYYYYMMDD t = s)
       /\ (0 < Scenario.cet -> Day t = MakeDay 2024 1 29 - 1
                               /\ strGt s (toYYYYMMDD t) = true).
Proof.
  split; [evaluated|]. split; [lia|]. split; [lia|]. split; [evaluated|].
  split; [vm_compute; reflexivity|].
  apply (printed_date_of_parsed_string Scenario.cet 2024 1 29);
    try lia; evaluated.
Defined.

Lemma date_strings_order_as_days_witness :
  0 <= YearFromTime (cetMidnight "2024-01-31") <= 9999
  /\ 0 <= YearFromTime (cetMidnight "2024-02-01") <= 9999
  /\ strGt (toYYYYMMDD (cetMidnight "2024-02-01"))
           (toYYYYMMDD (cetMidnight "2024-01-31"))
     = (Day (cetMidnight "2024-01-31") <? Day (cetMidnight "2024-02-01"))
  /\ String.eqb (toYYYYMMDD (cetMidnight "2024-01-31"))
                (toYYYYMMDD (cetMidnight "2024-02-01"))
     = (Day (cetMidnight "2024-01-31") =? Day (cetMidnight "2024-02-01")).
Proof.
  split; [evaluated|]. split; [evaluated|].
  apply (date_strings_order_as_days (cetMidnight "2024-01-31")
                                    (cetMidnight "2024-02-01")); evaluated.
Defined.

Lemma daily_and_weekly_step_witness :
  frequency Scenario.weekly = Some Recurring
  /\ calculateNextDueDate Scenario.cet Scenario.weekly
       (At (cetMidnight "2024-01-01"))
     = Some (At (cetMidnight "2024-01-08"))
  /\ (recurrence Scenario.weekly = Some Daily
      -> TimeWithinDay (LocalTime Scenario.cet (cetMidnight "2024-01-08"))
         = TimeWithinDay (LocalTime Scenario.cet (cetMidnight "2024-01-01"))
         /\ Day (LocalTime Scenario.cet (cetMidnight "2024-01-08"))
            = Day (LocalTime Scenario.cet (cetMidnight "2024-01-01"))
              + intervalOf Scenario.weekly)
  /\ (recurrence Scenario.weekly = Some Weekly
      -> TimeWithinDay (LocalTime Scenario.cet (cetMidnight "2024-01-08"))
         = TimeWithinDay (LocalTime Scenario.cet (cetMidnight "2024-01-01"))
         /\ Day (LocalTime Scenario.cet (cetMidnight "2024-01-08"))
            = Day (LocalTime Scenario.cet (cetMidnight "2024-01-01"))
              + 7 * intervalOf Scenario.weekly
         /\ getDay Scenario.cet (cetMidnight "2024-01-08")
            = getDay Scenario.cet (cetMidnight "2024-01-01")).
Proof.
  split; [reflexivity|]. split; [vm_compute; reflexivity|].
  apply (daily_and_weekly_step Scenario.cet Scenario.weekly
           (cetMidnight "2024-01-01") (cetMidnight "2024-01-08")).
  - reflexivity.
  - vm_compute. reflexivity.
Defined.

Lemma monthly_step_witness :
  frequency monthly31 = Some Recurring
  /\ recurrence monthly31 = Some Monthly
  /\ calculateNextDueDate Scenario.cet monthly31 (At (cetMidnight "2024-01-31"))
     = Some (At (cetMidnight "2024-03-02"))
  /\ let y := getFullYear Scenario.cet (cetMidnight "2024-01-31")
              + (getMonth Scenario.cet (cetMidnight "2024-01-31")
                 + intervalOf monthly31) / 12 in
     let m := (getMonth Scenario.cet (cetMidnight "2024-01-31")
               + intervalOf monthly31) mod 12 in
     let len := monthLength (isLeap y) m in
     TimeWithinDay (LocalTime Scenario.cet (cetMidnight "2024-03-02"))
     = TimeWithinDay (LocalTime Scenario.cet (cetMidnight "2024-01-31"))
     /\ (getDate Scenario.cet (cetMidnight "2024-01-31") <= len
         -> getFullYear Scenario.cet (cetMidnight "2024-03-02") = y
            /\ getMonth Scenario.cet (cetMidnight "2024-03-02") = m
            /\ getDate Scenario.cet (cetMidnight "2024-03-02")
               = getDate Scenario.cet (cetMidnight "2024-01-31"))
     /\ (len < getDate Scenario.cet (cetMidnight "2024-01-31")
         -> getFullYear Scenario.cet (cetMidnight "2024-03-02") = y
            /\ getMonth Scenario.cet (cetMidnight "2024-03-02") = m + 1
            /\ getDate Scenario.cet (cetMidnight "2024-03-02")
               = getDate Scenario.cet (cetMidnight "2024-01-31") - len).
Proof.
  split; [reflexivity|]. split; [reflexivity|].
  split; [vm_compute; reflexivity|].
  apply (monthly_step Scenario.cet monthly31 (cetMidnight "2024-01-31")
                      (cetMidnight "2024-03-02")).
  - reflexivity.
  - reflexivity.
  - vm_compute. reflexivity.
Defined.

Lemma yearly_step_witness :
  frequency yearlyFeb29 = Some Recurring
  /\ recurrence yearlyFeb29 = Some Yearly
  /\ calculateNextDueDate Scenario.cet yearlyFeb29 (At (cetMidnight "2024-02-29"))
     = Some (At (cetMidnight "2025-03-01"))
  /\ let y := getFullYear Scenario.cet (cetMidnight "2024-02-29")
              + intervalOf yearlyFeb29 in
     TimeWithinDay (LocalTime Scenario.cet (cetMidnight "2025-03-01"))
     = TimeWithinDay (LocalTime Scenario.cet (cetMidnight "2024-02-29"))
     /\ getFullYear Scenario.cet (cetMidnight "2025-03-01") = y
     /\ (getMonth Scenario.cet (cetMidnight "2024-02-29") = 1
         /\ getDate Scenario.cet (cetMidnight "2024-02-29") = 29
         /\ isLeap y = false
         -> getMonth Scenario.cet (cetMidnight "2025-03-01") = 2
            /\ getDate Scenario.cet (cetMidnight "2025-03-01") = 1)
     /\ (~ (getMonth Scenario.cet (cetMidnight "2024-02-29") = 1
            /\ getDate Scenario.cet (cetMidnight "2024-02-29") = 29
            /\ isLeap y = false)
         -> getMonth Scenario.cet (cetMidnight "2025-03-01")
            = getMonth Scenario.cet (cetMidnight "2024-02-29")
            /\ getDate Scenario.cet (cetMidnight "2025-03-01")
               = getDate Scenario.cet (cetMidnight "2024-02-29")).
Proof.
  split; [reflexivity|]. split; [reflexivity|].
  split; [vm_compute; reflexivity|].
  apply (yearly_step Scenario.cet yearlyFeb29 (cetMidnight "2024-02-29")
                     (cetMidnight "2025-03-01")).
  - reflexivity.
  - reflexivity.
  - vm_compute. reflexivity.
Defined.

End Witnesses.

Section Witnesses2.

Import JSDate JSCalendar Samples.

Lemma unparsable_cursor_is_skipped_silently_witness :
  truthyStr (date noDashes) = true
  /\ (if truthyStr (lastGeneratedDate noDashes)
      then lastGeneratedDate noDashes else date noDashes) = Some "20240101"
  /\ (List.length (split "-" "20240101") < 3)%nat
  /\ processTemplate Scenario.cet Scenario.uuidOf 10 []
                     (cetMidnight "2024-02-01") (mkGen [] [] [] 0) noDashes
     = Some (mkGen [] [] [] 0).
Proof.
  split; [reflexivity|]. split; [reflexivity|]. split; [cbn; lia|].
  apply (unparsable_cursor_is_skipped_silently Scenario.cet Scenario.uuidOf
           noDashes "20240101" 10 [] (cetMidnight "2024-02-01")
           (mkGen [] [] [] 0)).
  - reflexivity.
  - reflexivity.
  - cbn. lia.
Defined.

Lemma exhausted_count_generates_nothing_witness :
  (forall t : Expense,
      In t [Scenario.countTwo] -> id t = id Scenario.countTwo ->
      recurrenceEndType t = Some EndCount /\ recurrenceCount t = Some 2)
  /\ In Scenario.countTwo [Scenario.countTwo]
  /\ frequency Scenario.countTwo = Some Recurring
  /\ 0 < 2
  /\ isActive Scenario.cet twoInstances Scenario.countTwo = false
  /\ exists st,
       generate Scenario.cet Scenario.uuidOf 10 2 [Scenario.countTwo]
                twoInstances (cetMidnight "2024-02-01") = Some st
       /\ Forall (fun e => refers (id Scenario.countTwo) e = false)
                 (newExpenses st).
Proof.
  split; [intros t [<- | []] _; split; reflexivity|].
  split; [left; reflexivity|]. split; [reflexivity|]. split; [lia|].
  split; [reflexivity|].
  eexists. split; [vm_compute; reflexivity|].
  eapply (exhausted_count_generates_nothing Scenario.cet Scenario.uuidOf
            (id Scenario.countTwo) 2 10 2 [Scenario.countTwo] twoInstances
            (cetMidnight "2024-02-01") _ Scenario.countTwo).
  - intros t [<- | []] _. split; reflexivity.
  - left. reflexivity.
  - reflexivity.
  - reflexivity.
  - lia.
  - reflexivity.
  - vm_compute. reflexivity.
Defined.

Lemma deleted_template_generates_nothing_witness :
  exists templates' expenses' calls',
    pass Scenario.utc Scenario.uuidOf 10 (appUuidCalls Scenario.editingWeekly)
         (appRecurring (deleteRecurringExpense Scenario.editingWeekly "rent-2"))
         (appExpenses (deleteRecurringExpense Scenario.editingWeekly "rent-2"))
         (Scenario.midnight Scenario.utc "2024-01-09")
    = Some (templates', expenses', calls')
    /\ List.length expenses' = 10%nat
    /\ (forall t : Expense, In t templates' -> id t <> "rent-2")
    /\ (exists added,
           expenses' = added ++ appExpenses Scenario.editingWeekly
           /\ Forall (fun e => refers "rent-2" e = false) added).
Proof.
  eexists. eexists. eexists. split; [vm_compute; reflexivity|].
  split; [reflexivity|].
  eapply (deleted_template_generates_nothing Scenario.utc Scenario.uuidOf
            Scenario.editingWeekly "rent-2" 10
            (Scenario.midnight Scenario.utc "2024-01-09")).
  vm_compute. reflexivity.
Defined.

Lemma empty_idsUnique : idsUnique tally (mkApp [] [] None 0).
Proof.
  split; [constructor|]. intros k H. exact H.
Qed.

Lemma ids_stay_unique_witness :
  (forall a b : nat, tally a = tally b -> a = b)
  /\ idsUnique tally (mkApp [] [] None 0)
  /\ exists s',
       acts Scenario.utc tally (mkApp [] [] None 0) session = Some s'
       /\ storedIds s' = [tally 6; tally 4; tally 5; tally 2; tally 3]
       /\ idsUnique tally s'.
Proof.
  split; [exact tally_inj|]. split; [exact empty_idsUnique|].
  eexists. split; [vm_compute; reflexivity|]. split; [reflexivity|].
  eapply (ids_stay_unique Scenario.utc tally tally_inj session
            (mkApp [] [] None 0)).
  - exact empty_idsUnique.
  - vm_compute. reflexivity.
Defined.

Lemma recurring_data_with_unknown_id_is_dropped_witness :
  frequency lunchMadeWeekly = Some Recurring
  /\ (forall t : Expense, In t (appRecurring withLunch) -> id t <> "e-1")
  /\ appExpenses (handleFormSubmit Scenario.uuidOf withLunch (Some "e-1")
                                   lunchMadeWeekly)
     = appExpenses withLunch
  /\ appRecurring (handleFormSubmit Scenario.uuidOf withLunch (Some "e-1")
                                    lunchMadeWeekly)
     = appRecurring withLunch
  /\ appUuidCalls (handleFormSubmit Scenario.uuidOf withLunch (Some "e-1")
                                    lunchMadeWeekly)
     = appUuidCalls withLunch.
Proof.
  split; [reflexivity|].
  split; [intros t [<- | []]; discriminate|].
  apply (recurring_data_with_unknown_id_is_dropped Scenario.uuidOf withLunch
           "e-1" lunchMadeWeekly).
  - reflexivity.
  - intros t [<- | []]. discriminate.
Defined.

Lemma delete_undoes_add_witness :
  Scenario.uuidOf (appUuidCalls withLunch) <> ""
  /\ (forall e : Expense,
         In e (appExpenses withLunch) ->
         id e <> Scenario.uuidOf (appUuidCalls withLunch))
  /\ appExpenses (confirmDelete (addExpense Scenario.uuidOf withLunch lunch)
                    (Some (Scenario.uuidOf (appUuidCalls withLunch))))
     = appExpenses withLunch
  /\ appRecurring (confirmDelete (addExpense Scenario.uuidOf withLunch lunch)
                     (Some (Scenario.uuidOf (appUuidCalls withLunch))))
     = appRecurring withLunch.
Proof.
  split; [discriminate|].
  split; [intros e [<- | []]; discriminate|].
  apply (delete_undoes_add Scenario.uuidOf withLunch lunch).
  - discriminate.
  - intros e [<- | []]. discriminate.
Defined.

Lemma back_closes_one_overlay_witness :
  (0 < openOverlays formOverHistory)%nat
  /\ isHistoryScreenOpen (handlePopState formOverHistory) = false
  /\ isFormOpen (handlePopState formOverHistory) = true
  /\ openOverlays (handlePopState formOverHistory)
     = (openOverlays formOverHistory - 1)%nat
  /\ windowClosed (handlePopState formOverHistory)
     = windowClosed formOverHistory
  /\ backPressExitTimeout (handlePopState formOverHistory)
     = backPressExitTimeout formOverHistory
  /\ toast (handlePopState formOverHistory) = toast formOverHistory.
Proof.
  split; [cbn; lia|]. split; [reflexivity|]. split; [reflexivity|].
  apply (back_closes_one_overlay formOverHistory). cbn. lia.
Defined.

Lemma back_twice_exits_witness :
  openOverlays home = 0%nat
  /\ backPressExitTimeout home = false
  /\ windowClosed (handlePopState home) = windowClosed home
  /\ toast (handlePopState home) = Some "Premi di nuovo per uscire."
  /\ windowClosed (handlePopState (handlePopState home)) = true
  /\ windowClosed (handlePopState (exitTimerFires (handlePopState home)))
     = windowClosed home.
Proof.
  split; [reflexivity|]. split; [reflexivity|].
  apply (back_twice_exits home); reflexivity.
Defined.

Lemma finished_by_date_generates_nothing_witness :
  (- msPerDay < Scenario.utc <= 0)
  /\ 100 <= 2024 <= 9999 /\ 0 <= 0 <= 11
  /\ 1 <= 10 <= monthLength (isLeap 2024) 0
  /\ frequency finished = Some Recurring
  /\ recurrenceEndType finished = Some EndDate
  /\ recurrenceEndDate finished
     = Some (pad 4 2024 ++ "-" ++ pad 2 (0 + 1) ++ "-" ++ pad 2 10)%string
  /\ 0 < intervalOf finished
  /\ truthyStr (date finished) = true
  /\ lastGeneratedDate finished = Some "2024-01-08"
  /\ "2024-01-08" <> ""
  /\ Scenario.midnight Scenario.utc "2024-02-01" < isoHi
  /\ 10%nat <> O
  /\ isActive Scenario.utc [] finished = false
  /\ processTemplate Scenario.utc Scenario.uuidOf 10 []
                     (Scenario.midnight Scenario.utc "2024-02-01")
                     (mkGen [] [] [] 0) finished
     = Some (mkGen [] [] [] 0).
Proof.
  split; [evaluated|]. split; [lia|]. split; [lia|]. split; [evaluated|].
  split; [reflexivity|]. split; [reflexivity|]. split; [reflexivity|].
  split; [reflexivity|]. split; [reflexivity|]. split; [reflexivity|].
  split; [discriminate|]. split; [evaluated|]. split; [discriminate|].
  split; [vm_compute; reflexivity|].
  apply (finished_by_date_generates_nothing Scenario.utc Scenario.uuidOf
           finished "2024-01-08" 2024 0 10 10 []
           (Scenario.midnight Scenario.utc "2024-02-01") (mkGen [] [] [] 0));
    try reflexivity; try discriminate; try lia; evaluated.
Defined.

Lemma a_run_only_adds_instances_and_moves_cursors_witness :
  NoDup (map id [Scenario.scenarioA; Scenario.weekly])
  /\ exists templates' expenses' calls',
       pass Scenario.utc Scenario.uuidOf 10 0
            [Scenario.scenarioA; Scenario.weekly] []
            (Scenario.midnight Scenario.utc "2024-01-03")
       = Some (templates', expenses', calls')
       /\ calls' = 4%nat
       /\ (exists added,
              expenses' = added ++ []
              /\ calls' = (0 + List.length added)%nat
              /\ Forall (fun e => exists t,
                             In t [Scenario.scenarioA; Scenario.weekly]
                             /\ refers (id t) e = true) added)
       /\ Forall2 (fun t t' : Expense =>
                     t' = t \/ exists d, t' = advanceCursor t d)
                  [Scenario.scenarioA; Scenario.weekly] templates'.
Proof.
  assert (Hnd : NoDup (map id [Scenario.scenarioA; Scenario.weekly])).
  { cbn. constructor.
    - intros [H | []]. discriminate.
    - constructor; [intros [] | constructor]. }
  split; [exact Hnd|].
  eexists. eexists. eexists. split; [vm_compute; reflexivity|].
  split; [reflexivity|].
  eapply (a_run_only_adds_instances_and_moves_cursors Scenario.utc
            Scenario.uuidOf 10 0 [Scenario.scenarioA; Scenario.weekly] []
            (Scenario.midnight Scenario.utc "2024-01-03")).
  - exact Hnd.
  - vm_compute. reflexivity.
Defined.

End Witnesses2.

Section Witnesses3.

Import JSDate JSCalendar Samples.

Lemma getDaysInMonth_table_witness :
  (- msPerDay < Scenario.cet < msPerDay)
  /\ 100 <= 2024 <= 9999 /\ 0 <= 1 <= 11
  /\ getDaysInMonth Scenario.cet 2024 1
     = Some (if 1 =? 1 then (if isLeap 2024 then 29 else 28)
             else if (1 =? 3) || (1 =? 5) || (1 =? 8) || (1 =? 10) then 30
             else 31).
Proof.
  split; [evaluated|]. split; [lia|]. split; [lia|].
  apply (getDaysInMonth_table Scenario.cet); try lia; evaluated.
Defined.

Lemma calendarGrid_has_42_cells_witness :
  (- msPerDay < Scenario.cet < msPerDay)
  /\ 100 <= getFullYear Scenario.cet (cetMidnight "2024-09-10") <= 9999
  /\ exists firstDay daysInMonth : nat,
       getFirstDayOfMonth Scenario.cet
         (getFullYear Scenario.cet (cetMidnight "2024-09-10"))
         (getMonth Scenario.cet (cetMidnight "2024-09-10"))
       = Some (Z.of_nat firstDay)
       /\ getDaysInMonth Scenario.cet
            (getFullYear Scenario.cet (cetMidnight "2024-09-10"))
            (getMonth Scenario.cet (cetMidnight "2024-09-10"))
          = Some (Z.of_nat daysInMonth)
       /\ (firstDay <= 6)%nat /\ (28 <= daysInMonth <= 31)%nat
       /\ calendarGrid Scenario.cet (cetMidnight "2024-09-10")
          = Some (repeat None firstDay
                  ++ map (fun i => Some (Z.of_nat i)) (seq 1 daysInMonth)
                  ++ repeat None (42 - firstDay - daysInMonth))
       /\ forall grid,
            calendarGrid Scenario.cet (cetMidnight "2024-09-10") = Some grid ->
            List.length grid = 42%nat.
Proof.
  split; [evaluated|]. split; [evaluated|].
  apply (calendarGrid_has_42_cells Scenario.cet); evaluated.
Defined.

Lemma calendarGrid_columns_are_week_days_witness :
  (- msPerDay < Scenario.cet < msPerDay)
  /\ 100 <= getFullYear Scenario.cet (cetMidnight "2024-09-10") <= 9999
  /\ getFirstDayOfMonth Scenario.cet
       (getFullYear Scenario.cet (cetMidnight "2024-09-10"))
       (getMonth Scenario.cet (cetMidnight "2024-09-10")) = Some 6
  /\ getDaysInMonth Scenario.cet
       (getFullYear Scenario.cet (cetMidnight "2024-09-10"))
       (getMonth Scenario.cet (cetMidnight "2024-09-10")) = Some 30
  /\ exists grid,
       calendarGrid Scenario.cet (cetMidnight "2024-09-10") = Some grid
       /\ 1 <= 2 <= 30
       /\ nth (Z.to_nat (6 + 2 - 1)) grid None = Some 2
       /\ exists t, cellDate Scenario.cet (cetMidnight "2024-09-10") 2 = At t
                    /\ getDate Scenario.cet t = 2
                    /\ getMonth Scenario.cet t
                       = getMonth Scenario.cet (cetMidnight "2024-09-10")
                    /\ Z.rem (getDay Scenario.cet t + 6) 7 = (6 + 2 - 1) mod 7.
Proof.
  split; [evaluated|]. split; [evaluated|].
  split; [vm_compute; reflexivity|]. split; [vm_compute; reflexivity|].
  eexists. split; [vm_compute; reflexivity|]. split; [lia|].
  eapply (calendarGrid_columns_are_week_days Scenario.cet _
            (cetMidnight "2024-09-10") 2 _ 6 30).
  - vm_compute. reflexivity.
  - vm_compute. reflexivity.
  - vm_compute. reflexivity.
  - lia.
  Unshelve. all: evaluated.
Defined.

Lemma handleDateClick_keeps_order_witness :
  ordered pickingEnd /\ nonzero (startDate pickingEnd)
  /\ nonzero (endDate pickingEnd)
  /\ startDate (handleDateClick Scenario.cet pickingEnd 3)
     = Some (At (cetMidnight "2024-01-03"))
  /\ endDate (handleDateClick Scenario.cet pickingEnd 3)
     = Some (At (cetMidnight "2024-01-10"))
  /\ ordered (handleDateClick Scenario.cet pickingEnd 3).
Proof.
  split; [exact I|]. split; [evaluated|]. split; [exact I|].
  split; [vm_compute; reflexivity|]. split; [vm_compute; reflexivity|].
  apply (handleDateClick_keeps_order Scenario.cet pickingEnd 3).
  - exact I.
  - evaluated.
  - exact I.
Defined.

Lemma handleApply_range_is_ordered_witness :
  ordered picked
  /\ (forall t, startDate picked = Some (At t) -> 0 <= YearFromTime t <= 9999)
  /\ (forall t, endDate picked = Some (At t) -> 0 <= YearFromTime t <= 9999)
  /\ handleApply picked = OnApply "2024-01-09" "2024-01-14"
  /\ strGt "2024-01-09" "2024-01-14" = false.
Proof.
  assert (Hs : forall t, startDate picked = Some (At t) ->
                         0 <= YearFromTime t <= 9999)
    by (intros t [= <-]; evaluated).
  assert (He : forall t, endDate picked = Some (At t) ->
                         0 <= YearFromTime t <= 9999)
    by (intros t [= <-]; evaluated).
  split; [evaluated|]. split; [exact Hs|]. split; [exact He|].
  split; [vm_compute; reflexivity|].
  apply (handleApply_range_is_ordered picked "2024-01-09" "2024-01-14").
  - evaluated.
  - exact Hs.
  - exact He.
  - vm_compute. reflexivity.
Defined.

Lemma reopening_shows_applied_range_witness :
  (- msPerDay < Scenario.cet < msPerDay)
  /\ startDate picked = Some (At (cetMidnight "2024-01-10"))
  /\ endDate picked = Some (At (cetMidnight "2024-01-15"))
  /\ isLocalMidnight Scenario.cet (cetMidnight "2024-01-10")
  /\ isLocalMidnight Scenario.cet (cetMidnight "2024-01-15")
  /\ (isoLo <= cetMidnight "2024-01-10" < isoHi)
  /\ (isoLo <= cetMidnight "2024-01-15" < isoHi)
  /\ handleApply picked = OnApply "2024-01-09" "2024-01-14"
  /\ let back := if 0 <? Scenario.cet then 1 else 0 in
     exists x' y',
       startDate (openWith Scenario.cet (cetMidnight "2024-02-01")
                           (Some "2024-01-09") (Some "2024-01-14") pickingEnd)
       = Some (At x')
       /\ endDate (openWith Scenario.cet (cetMidnight "2024-02-01")
                            (Some "2024-01-09") (Some "2024-01-14") pickingEnd)
          = Some (At y')
       /\ isLocalMidnight Scenario.cet x' /\ isLocalMidnight Scenario.cet y'
       /\ Day (LocalTime Scenario.cet x')
          = Day (LocalTime Scenario.cet (cetMidnight "2024-01-10")) - back
       /\ Day (LocalTime Scenario.cet y')
          = Day (LocalTime Scenario.cet (cetMidnight "2024-01-15")) - back.
Proof.
  split; [evaluated|]. split; [reflexivity|]. split; [reflexivity|].
  split; [evaluated|]. split; [evaluated|]. split; [evaluated|].
  split; [evaluated|]. split; [vm_compute; reflexivity|].
  apply (reopening_shows_applied_range Scenario.cet picked pickingEnd
           "2024-01-09" "2024-01-14" (cetMidnight "2024-01-10")
           (cetMidnight "2024-01-15") (cetMidnight "2024-02-01"));
    try reflexivity; evaluated.
Defined.

Lemma yearsInView_pages_witness :
  (- msPerDay < Scenario.cet < msPerDay)
  /\ yearsInView Scenario.cet (cetMidnight "2024-01-01")
     = [2016; 2017; 2018; 2019; 2020; 2021; 2022; 2023; 2024; 2025; 2026; 2027]
  /\ let year := getFullYear Scenario.cet (cetMidnight "2024-01-01") in
     In year (yearsInView Scenario.cet (cetMidnight "2024-01-01"))
     /\ yearsInView Scenario.cet (cetMidnight "2024-01-01")
        = map (fun i => year / 12 * 12 + Z.of_nat i) (seq 0 12)
     /\ (100 <= year + 1 * 12 <= 9999 ->
         exists d', changeYearRange Scenario.cet 1 (cetMidnight "2024-01-01")
                    = At d'
                    /\ getFullYear Scenario.cet d' = year + 1 * 12
                    /\ getMonth Scenario.cet d'
                       = getMonth Scenario.cet (cetMidnight "2024-01-01")
                    /\ yearsInView Scenario.cet d'
                       = map (fun y => y + 1 * 12)
                             (yearsInView Scenario.cet
                                          (cetMidnight "2024-01-01"))).
Proof.
  split; [evaluated|]. split; [vm_compute; reflexivity|].
  apply (yearsInView_pages Scenario.cet). evaluated.
Defined.

Lemma month_navigation_round_trip_witness :
  (- msPerDay < Scenario.cet < msPerDay)
  /\ 101 <= getFullYear Scenario.cet (cetMidnight "2024-12-01") <= 9998
  /\ getDate Scenario.cet (cetMidnight "2024-12-01") = 1
  /\ isLocalMidnight Scenario.cet (cetMidnight "2024-12-01")
  /\ handleAnimationEnd Scenario.cet Right
       (handleAnimationEnd Scenario.cet Left (At (cetMidnight "2024-12-01")))
     = At (cetMidnight "2024-12-01")
  /\ handleAnimationEnd Scenario.cet Left
       (handleAnimationEnd Scenario.cet Right (At (cetMidnight "2024-12-01")))
     = At (cetMidnight "2024-12-01")
  /\ exists u,
       handleAnimationEnd Scenario.cet Left (At (cetMidnight "2024-12-01"))
       = At u
       /\ getDate Scenario.cet u = 1
       /\ getMonth Scenario.cet u
          = (getMonth Scenario.cet (cetMidnight "2024-12-01") + 1) mod 12
       /\ getFullYear Scenario.cet u
          = getFullYear Scenario.cet (cetMidnight "2024-12-01")
            + (getMonth Scenario.cet (cetMidnight "2024-12-01") + 1) / 12.
Proof.
  split; [evaluated|]. split; [evaluated|]. split; [vm_compute; reflexivity|].
  split; [evaluated|].
  apply (month_navigation_round_trip Scenario.cet); evaluated.
Defined.

Lemma getISOWeek_is_week_of_thursday_witness :
  (- msPerDay < Scenario.cet < msPerDay)
  /\ 101 <= getFullYear Scenario.cet (cetMidnight "2021-01-03") <= 9998
  /\ getISOWeek Scenario.cet (cetMidnight "2021-01-03") = (Some 2020, Some 53)
  /\ exists thursday year week : Z,
       getISOWeek Scenario.cet (cetMidnight "2021-01-03")
       = (Some year, Some week)
       /\ Day (LocalTime Scenario.cet (cetMidnight "2021-01-03")) - 3
          <= thursday
          <= Day (LocalTime Scenario.cet (cetMidnight "2021-01-03")) + 3
       /\ (thursday + 4) mod 7 = 4
       /\ year = YearFromDay thursday
       /\ week = DayWithinYear thursday / 7 + 1
       /\ getFullYear Scenario.cet (cetMidnight "2021-01-03") - 1 <= year
          <= getFullYear Scenario.cet (cetMidnight "2021-01-03") + 1
       /\ 1 <= week <= 53.
Proof.
  split; [evaluated|]. split; [evaluated|]. split; [vm_compute; reflexivity|].
  apply (getISOWeek_is_week_of_thursday Scenario.cet); evaluated.
Defined.

Lemma same_week_same_ISOWeek_witness :
  (- msPerDay < Scenario.cet < msPerDay)
  /\ 101 <= getFullYear Scenario.cet (cetMidnight "2024-12-30") <= 9998
  /\ 101 <= getFullYear Scenario.cet (cetMidnight "2025-01-05") <= 9998
  /\ Day (LocalTime Scenario.cet (cetMidnight "2024-12-30"))
     - Z.rem (getDay Scenario.cet (cetMidnight "2024-12-30") + 6) 7
     = Day (LocalTime Scenario.cet (cetMidnight "2025-01-05"))
       - Z.rem (getDay Scenario.cet (cetMidnight "2025-01-05") + 6) 7
  /\ getISOWeek Scenario.cet (cetMidnight "2024-12-30") = (Some 2025, Some 1)
  /\ getISOWeek Scenario.cet (cetMidnight "2024-12-30")
     = getISOWeek Scenario.cet (cetMidnight "2025-01-05").
Proof.
  split; [evaluated|]. split; [evaluated|]. split; [evaluated|].
  split; [vm_compute; reflexivity|]. split; [vm_compute; reflexivity|].
  apply (same_week_same_ISOWeek Scenario.cet); evaluated.
Defined.

Lemma week_filter_bounds_witness :
  (- msPerDay < Scenario.cet < msPerDay)
  /\ 101 <= getFullYear Scenario.cet (cetMidnight "2024-02-01") <= 9998
  /\ periodBounds Scenario.cet PWeek (At (cetMidnight "2024-02-01"))
     = (At (cetMidnight "2024-01-29"), At (cetMidnight "2024-03-07" - 1))
  /\ exists s' e',
       periodBounds Scenario.cet PWeek (At (cetMidnight "2024-02-01"))
       = (At s', At e')
       /\ isLocalMidnight Scenario.cet s'
       /\ Z.rem (getDay Scenario.cet s' + 6) 7 = 0
       /\ Day (LocalTime Scenario.cet s')
          <= Day (LocalTime Scenario.cet (cetMidnight "2024-02-01"))
          <= Day (LocalTime Scenario.cet s') + 6
       /\ isLocalMidnight Scenario.cet (e' + 1)
       /\ (getMonth Scenario.cet s'
           = getMonth Scenario.cet (cetMidnight "2024-02-01")
           -> Day (LocalTime Scenario.cet (e' + 1))
              = Day (LocalTime Scenario.cet s') + 7)
       /\ (getMonth Scenario.cet s'
           <> getMonth Scenario.cet (cetMidnight "2024-02-01") ->
           exists len,
             getDaysInMonth Scenario.cet (getFullYear Scenario.cet s')
                            (getMonth Scenario.cet s') = Some len
             /\ Day (LocalTime Scenario.cet (e' + 1))
                = Day (LocalTime Scenario.cet s') + 7 + len).
Proof.
  split; [evaluated|]. split; [evaluated|]. split; [vm_compute; reflexivity|].
  apply (week_filter_bounds Scenario.cet); evaluated.
Defined.

Lemma month_filter_bounds_witness :
  (- msPerDay < Scenario.cet < msPerDay)
  /\ 101 <= getFullYear Scenario.cet (cetMidnight "2024-01-31") <= 9998
  /\ periodBounds Scenario.cet PMonth (At (cetMidnight "2024-01-31"))
     = (At (cetMidnight "2024-01-01"), At (cetMidnight "2024-03-01" - 1))
  /\ let y := getFullYear Scenario.cet (cetMidnight "2024-01-31") in
     let m := getMonth Scenario.cet (cetMidnight "2024-01-31") in
     let next := monthLength (isLeap (y + (m + 1) / 12)) ((m + 1) mod 12) in
     exists s' e',
       periodBounds Scenario.cet PMonth (At (cetMidnight "2024-01-31"))
       = (At s', At e')
       /\ newDate Scenario.cet (Some y) (Some m) (Some 1) = At s'
       /\ (getDate Scenario.cet (cetMidnight "2024-01-31") <= next
           -> newDate Scenario.cet (Some y) (Some (m + 1)) (Some 1)
              = At (e' + 1))
       /\ (next < getDate Scenario.cet (cetMidnight "2024-01-31")
           -> newDate Scenario.cet (Some y) (Some (m + 2)) (Some 1)
              = At (e' + 1)).
Proof.
  split; [evaluated|]. split; [evaluated|]. split; [vm_compute; reflexivity|].
  apply (month_filter_bounds Scenario.cet); evaluated.
Defined.

Lemma year_filter_bounds_witness :
  (- msPerDay < Scenario.cet < msPerDay)
  /\ 101 <= getFullYear Scenario.cet (cetMidnight "2024-02-29") <= 9998
  /\ periodBounds Scenario.cet PYear (At (cetMidnight "2024-02-29"))
     = (At (cetMidnight "2024-01-01"), At (cetMidnight "2025-01-01" - 1))
  /\ exists s' e',
       periodBounds Scenario.cet PYear (At (cetMidnight "2024-02-29"))
       = (At s', At e')
       /\ newDate Scenario.cet
            (Some (getFullYear Scenario.cet (cetMidnight "2024-02-29")))
            (Some 0) (Some 1) = At s'
       /\ newDate Scenario.cet
            (Some (getFullYear Scenario.cet (cetMidnight "2024-02-29") + 1))
            (Some 0) (Some 1) = At (e' + 1).
Proof.
  split; [evaluated|]. split; [evaluated|]. split; [vm_compute; reflexivity|].
  apply (year_filter_bounds Scenario.cet); evaluated.
Defined.

End Witnesses3.

Section Witnesses4.

Import JSDate JSCalendar Samples.

Lemma january_isDateString d :
  1 <= d <= 31 ->
  isDateString (pad 4 2024 ++ "-" ++ pad 2 (0 + 1) ++ "-" ++ pad 2 d).
Proof.
  intros Hd. exists 2024, 0, d. repeat split; try lia.
  change (monthLength (isLeap 2024) 0) with 31. lia.
Qed.

Lemma custom_filter_is_inclusive_range_witness :
  (- msPerDay < Scenario.cet < msPerDay)
  /\ isDateString "2024-01-02" /\ isDateString "2024-01-03"
  /\ Forall (fun e : Expense => exists s, date e = Some s /\ isDateString s)
            fourDays
  /\ map id (filter (fun e : Expense =>
                       match date e with
                       | Some s => strBetween "2024-01-02" "2024-01-03" s
                       | None => false
                       end) fourDays)
     = ["uuid-0002"; "uuid-0001"]
  /\ filteredExpenses Scenario.cet
       (mkFilter Custom All (Some "2024-01-02") (Some "2024-01-03") PWeek
                 (At 0)) 0 fourDays
     = Some (filter (fun e : Expense =>
                       match date e with
                       | Some s => strBetween "2024-01-02" "2024-01-03" s
                       | None => false
                       end) fourDays).
Proof.
  assert (Hall : Forall (fun e : Expense =>
                           exists s, date e = Some s /\ isDateString s)
                        fourDays).
  { repeat constructor.
    - exists "2024-01-04". split; [reflexivity|].
      apply (january_isDateString 4). lia.
    - exists "2024-01-03". split; [reflexivity|].
      apply (january_isDateString 3). lia.
    - exists "2024-01-02". split; [reflexivity|].
      apply (january_isDateString 2). lia.
    - exists "2024-01-01". split; [reflexivity|].
      apply (january_isDateString 1). lia. }
  split; [evaluated|].
  split; [apply (january_isDateString 2); lia|].
  split; [apply (january_isDateString 3); lia|].
  split; [exact Hall|]. split; [reflexivity|].
  apply (custom_filter_is_inclusive_range Scenario.cet).
  - evaluated.
  - apply (january_isDateString 2). lia.
  - apply (january_isDateString 3). lia.
  - exact Hall.
Defined.

End Witnesses4.
